(** * Spreadsheet report scripts: a shallow embedding

    The repository holds five stand-alone Python scripts that build a
    workbook through the openpyxl library and save it:

    - [cyber-essentials/create-cyber-essentials-excel.py]
    - [cyber-essentials/create-mema-cyber-essentials.py]
    - [ifa-platform/create-pricing-excel-v2.py]
    - [ifa-platform/create-pricing-excel-v3.py]
    - [ifa-platform/plannetic-pricing-analysis.py]

    Every script is a straight line of statements that mutate one workbook.
    The embedding threads that workbook explicitly: a statement on a sheet is
    a function [Worksheet -> Worksheet], a [for] loop is a left fold over the
    list it iterates, and the calls that the library may reject return a
    [Result].  Cell coordinates are 1-based, as in the library, and have type
    [positive].  A script is modelled up to its call of [wb.save]: the
    import prologue, the serialisation to a file and the final [print] are
    not part of the workbook it constructs. *)

From stdpp Require Import gmap strings list fin_maps pretty.
From Stdlib Require Import ZArith Lia.

Open Scope string_scope.

(** ** Python built-ins used by the scripts *)

Module Py.

(** [enumerate(xs, start)] with a 1-based (or larger) start. *)
Fixpoint enumerate {A : Type} (xs : list A) (start : positive) : list (positive * A) :=
  match xs with
  | [] => []
  | x :: xs' => (start, x) :: enumerate xs' (Pos.succ start)
  end.

(** [enumerate(xs)]: the counter starts at 0. *)
Fixpoint enumerate0 {A : Type} (xs : list A) (start : N) : list (N * A) :=
  match xs with
  | [] => []
  | x :: xs' => (start, x) :: enumerate0 xs' (N.succ start)
  end.

(** [range(a, b)] for 1 <= a. *)
Definition range (a b : positive) : list positive :=
  map Pos.of_nat (seq (Pos.to_nat a) (Pos.to_nat b - Pos.to_nat a)).

(** [range(n)]. *)
Definition range0 (n : nat) : list N := map N.of_nat (seq 0 n).

(** [for x in xs: body], the loop state passed along. *)
Definition for_ {A S : Type} (xs : list A) (body : A -> S -> S) (s : S) : S :=
  foldl (fun s x => body x s) s xs.

(** [k + i] for a positive literal [k] and a loop counter [i >= 0]. *)
Definition plus (k : positive) (i : N) : positive :=
  match i with
  | N0 => k
  | Npos q => (k + q)%positive
  end.

(** [str(n)], the decimal rendering an f-string uses for an int. *)
Definition str (n : positive) : string := pretty n.

(** [s.startswith(pre)]. *)
Definition startswith (pre s : string) : bool := String.prefix pre s.

(** [sub in s] on strings. *)
Fixpoint contains (sub s : string) : bool :=
  String.prefix sub s ||
  match s with
  | EmptyString => false
  | String _ s' => contains sub s'
  end.

(** [x in xs] for a list of strings. *)
Definition in_list (x : string) (xs : list string) : bool :=
  existsb (String.eqb x) xs.

(** Truthiness of a string: empty is false. *)
Definition truthy (s : string) : bool := negb (String.eqb s "").

(** The line feed of ["\n"]. *)
Definition LF : string := String (Ascii.ascii_of_nat 10) EmptyString.

(** The double quote, for the number formats that contain one. *)
Definition DQ : string := String (Ascii.ascii_of_nat 34) EmptyString.

End Py.

(** ** Results of calls that can raise *)

Inductive Exception : Type :=
| ValueError (msg : string).

Inductive Result (A : Type) : Type :=
| Ok (a : A)
| Raise (e : Exception).

Arguments Ok {A} a.
Arguments Raise {A} e.

Global Instance Result_ret : MRet Result := fun A a => Ok a.
Global Instance Result_bind : MBind Result := fun A B f r =>
  match r with
  | Ok a => f a
  | Raise e => Raise e
  end.

(** ** The spreadsheet library, as far as the scripts use it *)

Module Openpyxl.

(** *** Styles ([openpyxl.styles]) *)

Record Font : Type := mkFont {
  font_name : option string;
  font_size : option Z;
  font_bold : bool;
  font_color : option string
}.

Record PatternFill : Type := mkPatternFill {
  start_color : string;
  end_color : string;
  fill_type : string
}.

Record Side : Type := mkSide {
  side_style : option string;
  side_color : option string
}.

Record Border : Type := mkBorder {
  border_left : Side;
  border_right : Side;
  border_top : Side;
  border_bottom : Side
}.

Record Alignment : Type := mkAlignment {
  horizontal : option string;
  vertical : option string;
  wrap_text : bool
}.

(** [PatternFill(start_color=c, end_color=c, fill_type="solid")], the only
    shape of fill the scripts build. *)
Definition solid (c : string) : PatternFill := mkPatternFill c c "solid".

(** [Border] with the same [Side] on all four edges. *)
Definition box (s : Side) : Border := mkBorder s s s s.

(** *** Cells *)

(** What a script stores in a cell: a [str] (a formula is a [str] that
    starts with [=]), an [int], or a [float] literal written here as
    mantissa and decimal exponent ([0.05] is [Float 5 (-2)]).  Text is
    text the library stores as it is, as all text of the scripts is. *)
Inductive Value : Type :=
| Str (s : string)
| Int (n : Z)
| Float (mantissa : Z) (exponent : Z).

(** A style field that is [None] carries the library default. *)
Record Cell : Type := mkCell {
  value : option Value;
  font : option Font;
  fill : option PatternFill;
  border : option Border;
  alignment : option Alignment;
  number_format : option string
}.

Definition new_cell : Cell := mkCell None None None None None None.

(** An attribute assignment [cell.font = ...], [cell.fill = ...], ... *)
Inductive Attr : Type :=
| font_ (f : Font)
| fill_ (p : PatternFill)
| border_ (b : Border)
| alignment_ (a : Alignment)
| number_format_ (s : string).

Definition set_attr (a : Attr) (c : Cell) : Cell :=
  match a with
  | font_ f => mkCell (value c) (Some f) (fill c) (border c) (alignment c) (number_format c)
  | fill_ p => mkCell (value c) (font c) (Some p) (border c) (alignment c) (number_format c)
  | border_ b => mkCell (value c) (font c) (fill c) (Some b) (alignment c) (number_format c)
  | alignment_ a => mkCell (value c) (font c) (fill c) (border c) (Some a) (number_format c)
  | number_format_ s => mkCell (value c) (font c) (fill c) (border c) (alignment c) (Some s)
  end.

Definition set_value (v : option Value) (c : Cell) : Cell :=
  match v with
  | Some _ => mkCell v (font c) (fill c) (border c) (alignment c) (number_format c)
  | None => c
  end.

(** [cell.fill.start_color.rgb]: a six-digit colour is stored with a
    leading ["00"]; the default fill has ["00000000"]. *)
Definition fill_rgb (c : Cell) : string :=
  match fill c with
  | None => "00000000"
  | Some p =>
      if Nat.eqb (String.length (start_color p)) 6
      then "00" +:+ start_color p
      else start_color p
  end.

(** *** Charts ([openpyxl.chart]) *)

(** [Reference(ws, min_col, min_row, max_col, max_row)]: a rectangle of
    cells of the sheet titled [ref_sheet].  No cell content is stored. *)
Record Reference : Type := mkReference {
  ref_sheet : string;
  min_col : positive;
  min_row : positive;
  max_col : positive;
  max_row : positive
}.

(** One data series: the cell its title is read from (when the titles come
    from the data), the range of its values, the range of its categories. *)
Record Series : Type := mkSeries {
  ser_title : option Reference;
  ser_val : Reference;
  ser_cat : option Reference
}.

Inductive ChartKind : Type := BarChart | LineChart | PieChart.

Record DataLabelList : Type := mkDataLabelList {
  showPercent : option bool;
  showVal : option bool;
  showCatName : option bool
}.

Record Chart : Type := mkChart {
  chart_kind : ChartKind;
  chart_type : option string;
  chart_style : option Z;
  chart_title : option string;
  x_axis_title : option string;
  y_axis_title : option string;
  y_axis_numFmt : option string;
  ser : list Series;
  chart_shape : option Z;
  chart_width : option Z;
  chart_height : option Z;
  legend : bool;
  dataLabels : option DataLabelList;
  anchor : option string
}.

(** [BarChart()], [LineChart()], [PieChart()]. *)
Definition new_chart (k : ChartKind) : Chart :=
  mkChart k None None None None None None [] None None None true None None.

(** *** Worksheets *)

Record Worksheet : Type := mkWorksheet {
  title : string;
  cells : gmap (positive * positive) Cell;
  merged_cells : list string;
  column_dimensions : gmap string Z;
  freeze_panes : option string;
  _charts : list Chart
}.

Definition new_sheet (t : string) : Worksheet :=
  mkWorksheet t ∅ [] ∅ None [].

Definition with_cells (m : gmap (positive * positive) Cell) (ws : Worksheet) : Worksheet :=
  mkWorksheet (title ws) m (merged_cells ws) (column_dimensions ws)
              (freeze_panes ws) (_charts ws).

(** The cell object at a coordinate; a coordinate never touched holds a
    fresh cell. *)
Definition _get_cell (row col : positive) (ws : Worksheet) : Cell :=
  default new_cell (cells ws !! (row, col)).

(** [ws.cell(row=row, column=col, value=v)]: the cell is created when
    absent; its value is set unless [v] is [None]. *)
Definition cell (row col : positive) (v : option Value) (ws : Worksheet) : Worksheet :=
  with_cells (<[(row, col) := set_value v (_get_cell row col ws)]> (cells ws)) ws.

(** [c.attr = x] for the cell object [c] at [(row, col)]. *)
Definition assign (row col : positive) (a : Attr) (ws : Worksheet) : Worksheet :=
  with_cells (<[(row, col) := set_attr a (_get_cell row col ws)]> (cells ws)) ws.

Definition assign_all (row col : positive) (attrs : list Attr) (ws : Worksheet) : Worksheet :=
  Py.for_ attrs (assign row col) ws.

(** A coordinate written as in the scripts, column letter first:
    [xl Col.B 5] is ["B5"], stored under the key [(5, 2)]. *)
Definition xl (col row : positive) : positive * positive := (row, col).

(** [ws["A1"] = v]. *)
Definition setitem (k : positive * positive) (v : Value) (ws : Worksheet) : Worksheet :=
  cell (fst k) (snd k) (Some v) ws.

(** [ws["A1"].attr = x]. *)
Definition setattr (k : positive * positive) (a : Attr) (ws : Worksheet) : Worksheet :=
  assign (fst k) (snd k) a ws.

(** [ws.merge_cells("A1:F1")]; only the range is recorded. *)
Definition merge_cells (range : string) (ws : Worksheet) : Worksheet :=
  mkWorksheet (title ws) (cells ws) (merged_cells ws ++ [range])
              (column_dimensions ws) (freeze_panes ws) (_charts ws).

(** [ws.column_dimensions[letter].width = w]. *)
Definition set_width (letter : string) (w : Z) (ws : Worksheet) : Worksheet :=
  mkWorksheet (title ws) (cells ws) (merged_cells ws)
              (<[letter := w]> (column_dimensions ws)) (freeze_panes ws) (_charts ws).

(** [ws.freeze_panes = "A2"]. *)
Definition set_freeze_panes (k : string) (ws : Worksheet) : Worksheet :=
  mkWorksheet (title ws) (cells ws) (merged_cells ws)
              (column_dimensions ws) (Some k) (_charts ws).

(** [get_column_letter(idx)]: bijective base 26, defined for 1..18278
    (three letters at most); [ValueError] beyond. *)
Definition letter (n : N) : string :=
  String (Ascii.ascii_of_N (n + 64)) EmptyString.

Definition divmod26 (n : N) : N * N :=
  let q := (n / 26)%N in
  let r := (n mod 26)%N in
  if (r =? 0)%N then ((q - 1)%N, 26%N) else (q, r).

Definition get_column_letter (idx : positive) : Result string :=
  if (18278 <? idx)%positive
  then Raise (ValueError "Invalid column index")
  else
    let '(n1, r1) := divmod26 (Npos idx) in
    if (n1 =? 0)%N then Ok (letter r1)
    else
      let '(n2, r2) := divmod26 n1 in
      if (n2 =? 0)%N then Ok (letter r2 +:+ letter r1)
      else
        let '(_, r3) := divmod26 n2 in
        Ok (letter r3 +:+ letter r2 +:+ letter r1).

(** [ws.column_dimensions[get_column_letter(col)].width = w]. *)
Definition set_width_at (col : positive) (w : Z) (ws : Worksheet) : Result Worksheet :=
  l ← get_column_letter col; Ok (set_width l w ws).

(** A loop whose body may raise stops at the first exception. *)
Fixpoint for_M {A S : Type} (xs : list A) (body : A -> S -> Result S) (s : S) : Result S :=
  match xs with
  | [] => Ok s
  | x :: xs' => s' ← body x s; for_M xs' body s'
  end.

(** *** References and series *)

(** [Reference(ws, min_col=, min_row=, max_col=, max_row=)]; an omitted
    [max_col] or [max_row] equals the minimum.  Of the sheet only the title
    is kept. *)
Definition Reference_ (ws : Worksheet) (c1 r1 : positive) (c2 r2 : option positive) : Reference :=
  mkReference (title ws) c1 r1 (default c1 c2) (default r1 r2).

(** [ref.cols]: one single-column reference per column. *)
Definition cols (r : Reference) : list Reference :=
  map (fun c => mkReference (ref_sheet r) c (min_row r) c (max_row r))
      (Py.range (min_col r) (Pos.succ (max_col r))).

(** [ref.pop()]: removes the first cell and returns it. *)
Definition pop (r : Reference) : Reference * Reference :=
  let first := mkReference (ref_sheet r) (min_col r) (min_row r) (min_col r) (min_row r) in
  let rest :=
    if (min_row r =? max_row r)%positive
    then mkReference (ref_sheet r) (Pos.succ (min_col r)) (min_row r) (max_col r) (max_row r)
    else mkReference (ref_sheet r) (min_col r) (Pos.succ (min_row r)) (max_col r) (max_row r) in
  (first, rest).

(** [SeriesFactory(values, title_from_data=b)]. *)
Definition SeriesFactory (values : Reference) (title_from_data : bool) : Series :=
  if title_from_data
  then let '(first, rest) := pop values in mkSeries (Some first) rest None
  else mkSeries None values None.

(** [chart.add_data(data, titles_from_data=b)]. *)
Definition add_data (data : Reference) (titles_from_data : bool) (ch : Chart) : Chart :=
  mkChart (chart_kind ch) (chart_type ch) (chart_style ch) (chart_title ch)
          (x_axis_title ch) (y_axis_title ch) (y_axis_numFmt ch)
          (ser ch ++ map (fun ref => SeriesFactory ref titles_from_data) (cols data))
          (chart_shape ch) (chart_width ch) (chart_height ch) (legend ch)
          (dataLabels ch) (anchor ch).

(** [chart.set_categories(labels)]: every series present gets the labels. *)
Definition set_categories (labels : Reference) (ch : Chart) : Chart :=
  mkChart (chart_kind ch) (chart_type ch) (chart_style ch) (chart_title ch)
          (x_axis_title ch) (y_axis_title ch) (y_axis_numFmt ch)
          (map (fun s => mkSeries (ser_title s) (ser_val s) (Some labels)) (ser ch))
          (chart_shape ch) (chart_width ch) (chart_height ch) (legend ch)
          (dataLabels ch) (anchor ch).

(** The remaining chart attributes are plain assignments. *)
Inductive ChartAttr : Type :=
| type_ (s : string)
| style_ (n : Z)
| title_ (s : string)
| x_title_ (s : option string)
| y_title_ (s : string)
| y_numFmt_ (s : string)
| shape_ (n : Z)
| width_ (n : Z)
| height_ (n : Z)
| no_legend_
| dataLabels_ (d : DataLabelList).

Definition set_chart (a : ChartAttr) (ch : Chart) : Chart :=
  match a with
  | type_ s =>
      mkChart (chart_kind ch) (Some s) (chart_style ch) (chart_title ch) (x_axis_title ch)
              (y_axis_title ch) (y_axis_numFmt ch) (ser ch) (chart_shape ch) (chart_width ch)
              (chart_height ch) (legend ch) (dataLabels ch) (anchor ch)
  | style_ n =>
      mkChart (chart_kind ch) (chart_type ch) (Some n) (chart_title ch) (x_axis_title ch)
              (y_axis_title ch) (y_axis_numFmt ch) (ser ch) (chart_shape ch) (chart_width ch)
              (chart_height ch) (legend ch) (dataLabels ch) (anchor ch)
  | title_ s =>
      mkChart (chart_kind ch) (chart_type ch) (chart_style ch) (Some s) (x_axis_title ch)
              (y_axis_title ch) (y_axis_numFmt ch) (ser ch) (chart_shape ch) (chart_width ch)
              (chart_height ch) (legend ch) (dataLabels ch) (anchor ch)
  | x_title_ s =>
      mkChart (chart_kind ch) (chart_type ch) (chart_style ch) (chart_title ch) s
              (y_axis_title ch) (y_axis_numFmt ch) (ser ch) (chart_shape ch) (chart_width ch)
              (chart_height ch) (legend ch) (dataLabels ch) (anchor ch)
  | y_title_ s =>
      mkChart (chart_kind ch) (chart_type ch) (chart_style ch) (chart_title ch) (x_axis_title ch)
              (Some s) (y_axis_numFmt ch) (ser ch) (chart_shape ch) (chart_width ch)
              (chart_height ch) (legend ch) (dataLabels ch) (anchor ch)
  | y_numFmt_ s =>
      mkChart (chart_kind ch) (chart_type ch) (chart_style ch) (chart_title ch) (x_axis_title ch)
              (y_axis_title ch) (Some s) (ser ch) (chart_shape ch) (chart_width ch)
              (chart_height ch) (legend ch) (dataLabels ch) (anchor ch)
  | shape_ n =>
      mkChart (chart_kind ch) (chart_type ch) (chart_style ch) (chart_title ch) (x_axis_title ch)
              (y_axis_title ch) (y_axis_numFmt ch) (ser ch) (Some n) (chart_width ch)
              (chart_height ch) (legend ch) (dataLabels ch) (anchor ch)
  | width_ n =>
      mkChart (chart_kind ch) (chart_type ch) (chart_style ch) (chart_title ch) (x_axis_title ch)
              (y_axis_title ch) (y_axis_numFmt ch) (ser ch) (chart_shape ch) (Some n)
              (chart_height ch) (legend ch) (dataLabels ch) (anchor ch)
  | height_ n =>
      mkChart (chart_kind ch) (chart_type ch) (chart_style ch) (chart_title ch) (x_axis_title ch)
              (y_axis_title ch) (y_axis_numFmt ch) (ser ch) (chart_shape ch) (chart_width ch)
              (Some n) (legend ch) (dataLabels ch) (anchor ch)
  | no_legend_ =>
      mkChart (chart_kind ch) (chart_type ch) (chart_style ch) (chart_title ch) (x_axis_title ch)
              (y_axis_title ch) (y_axis_numFmt ch) (ser ch) (chart_shape ch) (chart_width ch)
              (chart_height ch) false (dataLabels ch) (anchor ch)
  | dataLabels_ d =>
      mkChart (chart_kind ch) (chart_type ch) (chart_style ch) (chart_title ch) (x_axis_title ch)
              (y_axis_title ch) (y_axis_numFmt ch) (ser ch) (chart_shape ch) (chart_width ch)
              (chart_height ch) (legend ch) (Some d) (anchor ch)
  end.

(** [ws.add_chart(chart, anchor)]: the chart is anchored and appended to
    the charts of the sheet. *)
Definition add_chart (ch : Chart) (at_ : string) (ws : Worksheet) : Worksheet :=
  let anchored :=
    mkChart (chart_kind ch) (chart_type ch) (chart_style ch) (chart_title ch) (x_axis_title ch)
            (y_axis_title ch) (y_axis_numFmt ch) (ser ch) (chart_shape ch) (chart_width ch)
            (chart_height ch) (legend ch) (dataLabels ch) (Some at_) in
  mkWorksheet (title ws) (cells ws) (merged_cells ws) (column_dimensions ws)
              (freeze_panes ws) (_charts ws ++ [anchored]).

(** *** Sheet titles *)

Definition lower_ascii (c : Ascii.ascii) : Ascii.ascii :=
  let n := Ascii.nat_of_ascii c in
  if (65 <=? n)%nat && (n <=? 90)%nat then Ascii.ascii_of_nat (n + 32) else c.

Fixpoint lower (s : string) : string :=
  match s with
  | EmptyString => EmptyString
  | String c s' => String (lower_ascii c) (lower s')
  end.

Definition is_digit (c : Ascii.ascii) : bool :=
  let n := Ascii.nat_of_ascii c in (48 <=? n)%nat && (n <=? 57)%nat.

(** The characters the library refuses in a title: [\ * ? : / [ ]]. *)
Definition invalid_title_char (c : Ascii.ascii) : bool :=
  existsb (Nat.eqb (Ascii.nat_of_ascii c)) [92; 42; 63; 58; 47; 91; 93]%nat.

Fixpoint has_invalid_char (s : string) : bool :=
  match s with
  | EmptyString => false
  | String c s' => invalid_title_char c || has_invalid_char s'
  end.

Fixpoint prefix_ci (p s : string) : bool :=
  match p, s with
  | EmptyString, _ => true
  | String _ _, EmptyString => false
  | String a p', String b s' =>
      Ascii.eqb (lower_ascii a) (lower_ascii b) && prefix_ci p' s'
  end.

Fixpoint drop_str (n : nat) (s : string) : string :=
  match n, s with
  | O, _ => s
  | S _, EmptyString => EmptyString
  | S n', String _ s' => drop_str n' s'
  end.

Fixpoint digits_run (s : string) : string :=
  match s with
  | EmptyString => EmptyString
  | String c s' => if is_digit c then String c (digits_run s') else EmptyString
  end.

Definition int_of_digits (s : string) : N :=
  foldl (fun acc c => (acc * 10 + (Ascii.N_of_ascii c - 48))%N) 0%N (String.list_ascii_of_string s).

(** The digit groups of all non-overlapping, case-insensitive matches of
    [value] followed by a run of digits and an optional comma, left to
    right ([skip] characters of the last match remain to be passed). *)
Fixpoint findall_counts (value : string) (skip : nat) (s : string) : list string :=
  match s with
  | EmptyString => []
  | String _ s' =>
      match skip with
      | S k => findall_counts value k s'
      | O =>
          if prefix_ci value s then
            let rest := drop_str (String.length value) s in
            let d := digits_run rest in
            let comma :=
              match drop_str (String.length d) rest with
              | String c _ => if Ascii.eqb c (Ascii.ascii_of_nat 44) then 1%nat else 0%nat
              | EmptyString => 0%nat
              end in
            d :: findall_counts value (String.length value + String.length d + comma - 1) s'
          else findall_counts value 0 s'
      end
  end.

(** [avoid_duplicate_name(names, value)]: a title already present (up to
    letter case) gets the next free number appended; any other title is
    kept.  It never raises. *)
Definition avoid_duplicate_name (names : list string) (value : string) : string :=
  if existsb (fun n => String.eqb (lower n) (lower value)) names then
    let matches := findall_counts value 0 (String.concat "," names) in
    match matches with
    | [] => value
    | _ =>
        let counts := map int_of_digits (filter (fun d => Py.truthy d = true) matches) in
        let highest := foldr N.max 0%N counts in
        value +:+ pretty (highest + 1)%N
    end
  else value.

(** *** Workbooks *)

Record Workbook : Type := mkWorkbook {
  _sheets : list Worksheet;
  _active_sheet_index : nat
}.

(** [Workbook()]: one sheet, titled ["Sheet"], which is the active one. *)
Definition Workbook_ : Workbook := mkWorkbook [new_sheet "Sheet"] 0.

Definition sheetnames (wb : Workbook) : list string := map title (_sheets wb).

(** [wb.active], as the position of the sheet in the workbook. *)
Definition active (wb : Workbook) : nat := _active_sheet_index wb.

Definition with_title (t : string) (ws : Worksheet) : Worksheet :=
  mkWorksheet t (cells ws) (merged_cells ws) (column_dimensions ws)
              (freeze_panes ws) (_charts ws).

(** The checks of the title setter. *)
Definition check_title (value : string) : Result string :=
  if negb (Py.truthy value) then Raise (ValueError "Title must have at least one character")
  else if has_invalid_char value then Raise (ValueError "Invalid character found in sheet title")
  else Ok value.

(** [ws.title = value] for the sheet at position [i]. *)
Definition set_title (i : nat) (value : string) (wb : Workbook) : Result Workbook :=
  match _sheets wb !! i with
  | None => Ok wb
  | Some ws =>
      v ← check_title value;
      let v' := if String.eqb (title ws) v then v else avoid_duplicate_name (sheetnames wb) v in
      Ok (mkWorkbook (<[i := with_title v' ws]> (_sheets wb)) (_active_sheet_index wb))
  end.

(** [wb.create_sheet(title)]: a new, empty sheet is appended after all
    existing ones; the call returns the workbook and the position of the
    new sheet.  A title that is already taken is not an error. *)
Definition create_sheet (t : string) (wb : Workbook) : Result (Workbook * nat) :=
  v ← check_title (if Py.truthy t then t else "Sheet");
  let v' := avoid_duplicate_name (sheetnames wb) v in
  Ok (mkWorkbook (_sheets wb ++ [new_sheet v']) (_active_sheet_index wb),
      length (_sheets wb)).

(** Statements on the sheet at position [i]. *)
Definition on_sheet (i : nat) (body : Worksheet -> Result Worksheet) (wb : Workbook)
  : Result Workbook :=
  match _sheets wb !! i with
  | None => Ok wb
  | Some ws =>
      ws' ← body ws;
      Ok (mkWorkbook (<[i := ws']> (_sheets wb)) (_active_sheet_index wb))
  end.

End Openpyxl.

(** ** The table-writing loops

    Every table of every script is written by the same two loops,

<<
    for col, header in enumerate(headers, start=c0):
        cell = ws.cell(row=r0, column=col, value=header)
        cell.font = ...                       # header styling
    for row_idx, row_data in enumerate(rows, start=r0 + 1):
        for col_idx, value in enumerate(row_data, start=c0):
            cell = ws.cell(row=row_idx, column=col_idx, value=value)
            cell.font = ...                   # body styling, may test
                                              # row_idx, col_idx and value
>>

    which differ from table to table in the anchor [(r0, c0)] and in the
    attribute assignments of the loop bodies.  The loops are written once
    here, the assignments of a body being a function of the row, the column
    and the value.  [inj] turns a list element into the stored value. *)

Module Table.
Import Openpyxl.

Section Loops.
Context {A : Type} (inj : A -> Value).

(** The body [cell = ws.cell(row, column, value); cell.a = x; ...]. *)
Definition styled_cell (row col : positive) (x : A) (attrs : list Attr)
  (ws : Worksheet) : Worksheet :=
  assign_all row col attrs (cell row col (Some (inj x)) ws).

(** [for col, x in enumerate(xs, start=col0): ...] on one row. *)
Definition write_row (style : positive -> positive -> A -> list Attr)
  (row col0 : positive) (xs : list A) : Worksheet -> Worksheet :=
  Py.for_ (Py.enumerate xs col0)
          (fun '(col, x) => styled_cell row col x (style row col x)).

(** [for row, xs in enumerate(rows, start=row0): for col, x in ...]. *)
Definition write_rows (style : positive -> positive -> A -> list Attr)
  (row0 col0 : positive) (rows : list (list A)) : Worksheet -> Worksheet :=
  Py.for_ (Py.enumerate rows row0)
          (fun '(row, xs) => write_row style row col0 xs).

(** The header loop at the anchor row, then the data loop beneath it. *)
Definition write_table (hstyle bstyle : positive -> positive -> A -> list Attr)
  (anchor_row anchor_col : positive) (headers : list A) (rows : list (list A))
  (ws : Worksheet) : Worksheet :=
  write_rows bstyle (Pos.succ anchor_row) anchor_col rows
             (write_row hstyle anchor_row anchor_col headers ws).
End Loops.

End Table.


(** Column letters of the coordinates the scripts write literally. *)
Module Col.
Definition A : positive := 1.
Definition B : positive := 2.
Definition C : positive := 3.
Definition D : positive := 4.
Definition E : positive := 5.
Definition F : positive := 6.
Definition G : positive := 7.
Definition H : positive := 8.
Definition I : positive := 9.
Definition J : positive := 10.
Definition K : positive := 11.
End Col.

(** What a run of a script could consult besides its own text.  No script
    reads any of it. *)
Record Env : Type := mkEnv {
  argv : list string;
  environ : list (string * string)
}.

(** A block of statements on one sheet, executed in order. *)
Definition block (stmts : list (Openpyxl.Worksheet -> Openpyxl.Worksheet))
  (ws : Openpyxl.Worksheet) : Openpyxl.Worksheet :=
  Py.for_ stmts (fun stmt ws => stmt ws) ws.

(** ** [cyber-essentials/create-cyber-essentials-excel.py] *)

Module CyberEssentials.
Import Openpyxl Table Py.

Definition header_font : Font := mkFont None (Some 11%Z) true (Some "FFFFFF").
Definition header_fill : PatternFill := solid "4472C4".
Definition section_fill : PatternFill := solid "D9E2F3".
Definition section_font : Font := mkFont None (Some 11%Z) true None.
Definition wrap_alignment : Alignment := mkAlignment None (Some "top") true.
Definition thin_border : Border := box (mkSide (Some "thin") None).

Definition headers : list string :=
  ["Section"; "Q No."; "Question"; "Guidance"; "Answer Type"; "Draft Answer"; "Status"].

Definition header_style (row col : positive) (header : string) : list Attr :=
  [font_ header_font; fill_ header_fill; alignment_ wrap_alignment; border_ thin_border].

(** Lines 40-45. *)
Definition write_headers (headers : list string) : Worksheet -> Worksheet :=
  write_row Str header_style 1 1 headers.

Definition data : list (list string) :=
  [
    ["A1 - Organisation"; "A1.1"; "What is your organisation's name?"; "Name displayed on certificate (max 150 chars)"; "Notes"; "TBC"; "Pending"];
    ["A1 - Organisation"; "A1.2"; "What type of organisation are you?"; "LTD/LLP/CIC/COP/MTL/CHA/GOV/SOL/PRT/SOC/OTH"; "Multiple choice"; "TBC"; "Pending"];
    ["A1 - Organisation"; "A1.3"; "What is your organisation's registration number?"; "Companies House number or 'none'"; "Notes"; "TBC"; "Pending"];
    ["A1 - Organisation"; "A1.4"; "What is your organisation's address?"; "Legal registered address"; "Notes"; "TBC"; "Pending"];
    ["A1 - Organisation"; "A1.5"; "What is your main business?"; "Select from list - likely Finance or IT"; "Multiple choice"; "TBC"; "Pending"];
    ["A1 - Organisation"; "A1.6"; "What is your website address?"; "Website or LinkedIn/Facebook page"; "Notes"; "https://plannetic.com"; "Confirm"];
    ["A1 - Organisation"; "A1.7"; "Is this application a renewal or first time?"; "Renewal or First Time Application"; "Select"; "First Time Application"; "Confirm"];
    ["A1 - Organisation"; "A1.8"; "What are the two main reasons for applying?"; "Select two reasons"; "Multiple choice"; "TBC - likely 'to give confidence to our customers' + 'to generally improve our security'"; "Pending"];
    ["A1 - Organisation"; "A1.9"; "Have you read the CE Requirements document?"; ""; "Yes/No"; "Yes"; "Ready"];
    ["A1 - Organisation"; "A1.10"; "Can IASME contact you if you experience a breach?"; ""; "Yes/No"; "TBC"; "Pending"];
    ["A1 - Organisation"; "A1.11"; "Can IASME contact you for research purposes?"; ""; "Yes/No"; "TBC"; "Pending"];
    ["A2 - Scope"; "A2.1"; "Does the scope cover your whole organisation?"; "Whole org = eligible for free insurance"; "Yes/No"; "Yes"; "Confirm"];
    ["A2 - Scope"; "A2.2"; "Scope description (if not whole org)"; "Only if A2.1 = No"; "Notes"; "N/A"; "N/A"];
    ["A2 - Scope"; "A2.3"; "Geographical locations in scope"; "List locations or 'All UK offices'"; "Notes"; "All UK locations including home/remote working locations for all staff."; "Ready"];
    ["A2 - Scope"; "A2.4"; "Laptops/desktops/virtual desktops (qty + make + OS)"; "Must include make and OS version"; "Notes"; "1 x Apple Mac laptop running macOS 26.1 (Build 25B78)"; "Ready - add more if needed"];
    ["A2 - Scope"; "A2.4.1"; "Thin clients (qty + make + OS)"; ""; "Notes"; "None"; "Ready"];
    ["A2 - Scope"; "A2.5"; "Servers/virtual servers/hypervisors/VDI"; ""; "Notes"; "None - all infrastructure is cloud-hosted via Vercel (PaaS) and Supabase (PaaS)."; "Ready"];
    ["A2 - Scope"; "A2.6"; "Tablets and mobile devices (qty + make + OS)"; ""; "Notes"; "TBC"; "Pending"];
    ["A2 - Scope"; "A2.7"; "Networks in scope (name + location + purpose)"; ""; "Notes"; "Home/Remote Worker Networks - staff work from home using domestic broadband connections. All devices secured by software firewalls."; "Ready"];
    ["A2 - Scope"; "A2.7.1"; "How many staff are home or remote workers?"; ""; "Notes"; "TBC"; "Pending"];
    ["A2 - Scope"; "A2.8"; "Network equipment in scope (firewalls/routers - make + model)"; "Must include make and model"; "Notes"; "All staff are remote workers using home broadband routers (various makes/models managed by ISPs). Software firewalls enabled on all endpoint devices. Staff do not have admin access to home routers."; "Ready"];
    ["A2 - Scope"; "A2.9"; "Cloud services (third party - SaaS/PaaS/IaaS)"; ""; "Notes"; "Supabase (PaaS), Vercel (PaaS), GitHub (SaaS), Resend (SaaS), OpenSign (SaaS), Ordnance Survey (SaaS), DeepSeek (SaaS), Alpha Vantage (SaaS). [TBC: Add email/collab suite, password manager]"; "Partial"];
    ["A2 - Scope"; "A2.10"; "Person responsible for managing IT (name + role)"; "Must be org employee, not outsourced IT"; "Notes"; "TBC"; "Pending"];
    ["A3 - Insurance"; "A3.1"; "UK/Crown Dependencies HQ and turnover < Â£20m?"; "Eligibility for free insurance"; "Yes/No"; "Yes"; "Confirm"];
    ["A3 - Insurance"; "A3.2"; "Opt out of insurance? (if A3.1 = Yes)"; ""; "Yes/No"; "No - we wish to receive the included cyber insurance"; "Ready"];
    ["A3 - Insurance"; "A3.3"; "Insurance contact email (if not opted out)"; ""; "Notes"; "TBC"; "Pending"];
    ["A4 - Firewalls"; "A4.1"; "Do you have firewalls at internet boundaries?"; ""; "Yes/No"; "Yes"; "Ready"];
    ["A4 - Firewalls"; "A4.1.1"; "Software firewalls enabled on all computers/laptops/servers?"; ""; "Yes/No"; "Yes - we use the built-in macOS Application Firewall; it is enabled and kept enabled at all times, including on untrusted networks (home/public Wi-Fi)."; "Ready"];
    ["A4 - Firewalls"; "A4.1.2"; "If A4.1.1 = No: list OS without firewall"; ""; "Notes"; "N/A"; "N/A"];
    ["A4 - Firewalls"; "A4.2"; "Default admin passwords changed on boundary firewalls?"; ""; "Yes/No"; "Yes - for home workers, domestic routers managed by ISPs with unique passwords. Software firewalls protected by device credentials."; "Ready"];
    ["A4 - Firewalls"; "A4.2.1"; "Process for changing firewall password"; ""; "Notes"; "Software firewalls protected by device login credentials. Password changes via System Settings > Users & Groups. Follows password policy (min 12 chars or MFA + 8 chars)."; "Ready"];
    ["A4 - Firewalls"; "A4.3"; "Firewall password configuration option (A-E)"; "A=MFA+8, B=Block common+8, C=12 chars, D=Passwordless, E=Other"; "Select"; "Option C - Minimum 12 characters, no maximum length"; "Ready"];
    ["A4 - Firewalls"; "A4.4"; "Change firewall password when compromised?"; ""; "Yes/No"; "Yes"; "Ready"];
    ["A4 - Firewalls"; "A4.5"; "Process to manage firewall?"; ""; "Yes/No"; "Yes"; "Ready"];
    ["A4 - Firewalls"; "A4.6"; "Firewall rules reviewed in last 12 months?"; ""; "Notes"; "Software firewalls use default secure settings blocking all incoming connections. No custom inbound rules. Verified during device setup and periodically checked. Cloud services manage own infrastructure firewalls."; "Ready"];
    ["A4 - Firewalls"; "A4.7"; "Firewall allows unauthenticated inbound connections?"; ""; "Yes/No"; "No - all inbound blocked by default"; "Ready"];
    ["A4 - Firewalls"; "A4.8"; "How inbound connections approved & documented"; ""; "Notes"; "No inbound connections permitted to endpoints. All services via outbound to cloud. Any exception requires documented written approval from IT manager with business justification."; "Ready"];
    ["A4 - Firewalls"; "A4.9"; "Firewall admin interface accessible from internet?"; ""; "Yes/No"; "No - only accessible locally via System Settings"; "Ready"];
    ["A4 - Firewalls"; "A4.10"; "If A4.9 = Yes: documented business requirement?"; ""; "Yes/No"; "N/A"; "N/A"];
    ["A4 - Firewalls"; "A4.11"; "If A4.9 = Yes: MFA or IP allow list protection?"; ""; "Notes"; "N/A"; "N/A"];
    ["A5 - Secure Config"; "A5.1"; "Removed/disabled unnecessary software? (describe)"; ""; "Notes"; "All devices configured with only business-required software. Staff instructed not to install unnecessary apps. macOS Gatekeeper prevents unsigned apps. Regular reviews to remove unused software."; "Ready"];
    ["A5 - Secure Config"; "A5.2"; "Only necessary user accounts exist?"; ""; "Yes/No"; "Yes - only required accounts. Guest accounts disabled. Unused accounts removed promptly."; "Ready"];
    ["A5 - Secure Config"; "A5.3"; "Default/guessable passwords changed?"; ""; "Yes/No"; "Yes - all default passwords changed to strong, unique passwords per password policy."; "Ready"];
    ["A5 - Secure Config"; "A5.4"; "Run/host external services with non-public data?"; ""; "Yes/No"; "Yes - Plannetic platform accessed by authenticated users over internet, handles client financial data."; "Ready"];
    ["A5 - Secure Config"; "A5.5"; "If A5.4 = Yes: authentication option (A-E)"; ""; "Select"; "Option A - MFA with min 8 char password. Plannetic uses Supabase Auth with MFA (TOTP)."; "Ready"];
    ["A5 - Secure Config"; "A5.6"; "If A5.4 uses passwords: process to change on compromise"; ""; "Notes"; "1) User notified, must change password; 2) Sessions terminated via Supabase admin; 3) MFA verified/re-enrolled; 4) Incident logged and reviewed."; "Ready"];
    ["A5 - Secure Config"; "A5.7"; "If A5.4 = Yes and not MFA: brute force protection (A-C)"; ""; "Select"; "Option A - Throttling. Supabase Auth rate limiting + account lockout after failed attempts."; "Ready"];
    ["A5 - Secure Config"; "A5.8"; "Auto-run/execute disabled?"; ""; "Yes/No"; "Yes - macOS doesn't auto-run from external media. Users prompted before opening downloads. Gatekeeper prevents unsigned auto-run."; "Ready"];
    ["A5 - Secure Config"; "A5.9"; "Device locking enabled?"; ""; "Yes/No"; "Yes - all devices require authentication"; "Ready"];
    ["A5 - Secure Config"; "A5.10"; "If A5.9 = Yes: device unlock method(s)"; ""; "Notes"; "macOS: Touch ID biometric with password fallback (min 8 chars). Auto-lock after inactivity. Password/biometric on wake."; "Ready"];
    ["A6 - Updates"; "A6.1"; "All OS supported and receiving updates?"; ""; "Yes/No"; "Yes - macOS 26.1 (Tahoe) fully supported by Apple."; "Ready"];
    ["A6 - Updates"; "A6.2"; "All software supported with vulnerability fixes?"; ""; "Yes/No"; "Yes - all software licensed and receiving updates."; "Ready"];
    ["A6 - Updates"; "A6.2.1"; "Browsers (name + version)"; ""; "Notes"; "Google Chrome 143.0.7499.110, Mozilla Firefox 146.0, Microsoft Edge 143.0.3650.80, Safari 26.1"; "Ready"];
    ["A6 - Updates"; "A6.2.2"; "Malware protection software (name + version)"; ""; "Notes"; "macOS: XProtect (built-in, auto-updating) + Gatekeeper + MRT"; "Ready"];
    ["A6 - Updates"; "A6.2.3"; "Email applications (name + version)"; ""; "Notes"; "Apple Mail 16.0, web-based email via browser"; "Ready"];
    ["A6 - Updates"; "A6.2.4"; "Office applications (name + version)"; ""; "Notes"; "Apple Pages 14.4, Apple Numbers 14.4, Apple Keynote 14.4, Microsoft OneNote 16.104"; "Ready"];
    ["A6 - Updates"; "A6.3"; "Any unlicensed/unsupported software?"; ""; "Yes/No"; "No"; "Ready"];
    ["A6 - Updates"; "A6.3.1"; "If A6.3 = Yes: list unsupported/unlicensed"; ""; "Notes"; "N/A"; "N/A"];
    ["A6 - Updates"; "A6.4"; "Critical OS/firmware updates within 14 days?"; ""; "Yes/No"; "Yes - all high/critical updates applied within 14 days. Auto-updates enabled."; "Ready"];
    ["A6 - Updates"; "A6.4.1"; "OS updates via auto-updates?"; ""; "Yes/No"; "Yes - macOS automatic updates enabled"; "Ready"];
    ["A6 - Updates"; "A6.4.2"; "If not auto: how ensure within 14 days"; ""; "Notes"; "Auto-updates primary mechanism. Monitor vendor release notes, manually trigger if not auto-applied within 7 days."; "Ready"];
    ["A6 - Updates"; "A6.5"; "Critical application updates within 14 days?"; ""; "Yes/No"; "Yes"; "Ready"];
    ["A6 - Updates"; "A6.5.1"; "App updates via auto-updates?"; ""; "Yes/No"; "Yes - App Store auto-updates, browser auto-updates, Microsoft AutoUpdate"; "Ready"];
    ["A6 - Updates"; "A6.5.2"; "If not auto: how ensure within 14 days"; ""; "Notes"; "Auto-updates primary. Staff trained to accept prompts. Periodic compliance checks."; "Ready"];
    ["A6 - Updates"; "A6.6"; "Remove unsupported software when EOL?"; ""; "Yes/No"; "Yes"; "Ready"];
    ["A6 - Updates"; "A6.7"; "If unsupported needed: moved out of scope?"; ""; "Notes"; "Not applicable - no unsupported software used."; "Ready"];
    ["A7 - Access Control"; "A7.1"; "User account creation approval process"; ""; "Notes"; "1) Manager requests; 2) IT verifies & determines role; 3) Account created with min permissions; 4) User receives password setup link; 5) MFA mandatory before first access."; "Ready"];
    ["A7 - Access Control"; "A7.2"; "Unique credentials for all accounts?"; ""; "Yes/No"; "Yes - all users have unique credentials. Sharing prohibited."; "Ready"];
    ["A7 - Access Control"; "A7.3"; "Leaver process (disable/delete accounts)"; ""; "Notes"; "1) HR notifies IT of leaving date; 2) On leaving: accounts disabled, access revoked, device wiped; 3) Confirmed within 24 hours."; "Ready"];
    ["A7 - Access Control"; "A7.4"; "Least privilege process"; ""; "Notes"; "RBAC in Plannetic: Admin, Advisor, Compliance, Support, Client roles. Access reviewed on role change. Periodic access reviews."; "Ready"];
    ["A7 - Access Control"; "A7.5"; "Admin access granting process"; ""; "Notes"; "1) Written request with justification; 2) Director approval; 3) Separate admin account; 4) Documented in register; 5) Quarterly review."; "Ready"];
    ["A7 - Access Control"; "A7.6"; "Separate admin accounts for admin tasks"; ""; "Notes"; "Admin tasks use dedicated accounts. Cloud: separate admin with MFA. Devices: standard user for daily work, separate admin for config."; "Ready"];
    ["A7 - Access Control"; "A7.7"; "Prevent admin accounts for web/email"; ""; "Notes"; "Admin accounts not configured with email. Training that admin not for browsing. Cloud admin logged out after use."; "Ready"];
    ["A7 - Access Control"; "A7.8"; "Track who has admin accounts?"; ""; "Yes/No"; "Yes - admin access register maintained"; "Ready"];
    ["A7 - Access Control"; "A7.9"; "Review admin access regularly?"; ""; "Yes/No"; "Yes - quarterly review. Unused privileges removed."; "Ready"];
    ["A7 - Access Control"; "A7.10"; "Brute-force protection for passwords"; ""; "Notes"; "Supabase: rate limiting + lockout. macOS: throttling. Cloud services: vendor protection + MFA."; "Ready"];
    ["A7 - Access Control"; "A7.11"; "Technical controls for password quality"; ""; "Notes"; "Min 8 chars with MFA (Supabase). Min 12 chars without MFA. No max length. Common password blocking where supported."; "Ready"];
    ["A7 - Access Control"; "A7.12"; "How support unique/strong passwords"; ""; "Notes"; "Password manager recommended. Three random words training. No regular expiry. No complexity requirements. No reuse training."; "Ready"];
    ["A7 - Access Control"; "A7.13"; "Compromised password/account process?"; ""; "Yes/No"; "Yes - report, force reset, terminate sessions, re-verify MFA, review incident."; "Ready"];
    ["A7 - Access Control"; "A7.14"; "All cloud services have MFA available?"; ""; "Yes/No"; "Yes - Supabase, Vercel, GitHub, Resend all have MFA. [Confirm: OpenSign, Alpha Vantage, Ordnance Survey]"; "Partial"];
    ["A7 - Access Control"; "A7.15"; "If A7.14 = No: list services without MFA"; ""; "Notes"; "N/A"; "N/A"];
    ["A7 - Access Control"; "A7.16"; "MFA applied to all cloud admins?"; ""; "Yes/No"; "Yes - MFA mandatory for all admin accounts"; "Ready"];
    ["A7 - Access Control"; "A7.17"; "MFA applied to all cloud users?"; ""; "Yes/No"; "Yes - MFA mandatory for all users"; "Ready"];
    ["A8 - Malware"; "A8.1"; "Malware protection method(s) (A/B/C)"; "A=Anti-malware, B=Allow-listing, C=Other"; "Select"; "Both A and B: Anti-malware (XProtect, Gatekeeper) + Allow-listing (Gatekeeper code signing, App Store)"; "Ready"];
    ["A8 - Malware"; "A8.2"; "If Option A: anti-malware updates + blocks malware?"; ""; "Yes/No"; "Yes - XProtect auto-updates. Gatekeeper prevents execution. MRT removes detected malware."; "Ready"];
    ["A8 - Malware"; "A8.3"; "If Option A: scans/warns on malicious sites?"; ""; "Yes/No"; "Yes - Safari Fraudulent Warning, Chrome Safe Browsing, Firefox protection, Edge SmartScreen"; "Ready"];
    ["A8 - Malware"; "A8.4"; "If Option B: users restricted from unsigned apps?"; ""; "Yes/No"; "Yes - Gatekeeper blocks unsigned apps. Cannot run without admin intervention."; "Ready"];
    ["A8 - Malware"; "A8.5"; "If Option B: only approved apps + list maintained?"; ""; "Yes/No"; "Yes - staff instructed on approved apps. List maintained. New requests need approval."; "Ready"]
  ].

(** Lines 166-174: the colour of a status. *)
Definition status_fill (value : string) : list Attr :=
  if String.eqb value "Ready" then [fill_ (solid "C6EFCE")]
  else if String.eqb value "Pending" then [fill_ (solid "FFEB9C")]
  else if String.eqb value "Confirm" then [fill_ (solid "BDD7EE")]
  else if String.eqb value "Partial" then [fill_ (solid "FCE4D6")]
  else [].

(** Lines 158-174: the assignments of the body of the data loop. *)
Definition data_style (row_num col_num : positive) (value : string) : list Attr :=
  [alignment_ wrap_alignment; border_ thin_border]
  ++ (if (col_num =? 1)%positive then [font_ section_font] else [])
  ++ (if (col_num =? 7)%positive then status_fill value else []).

(** Lines 155-174. *)
Definition write_data (data : list (list string)) : Worksheet -> Worksheet :=
  write_rows Str data_style 2 1 data.

Definition column_widths : list Z := [18; 8; 50; 40; 15; 60; 12]%Z.

(** Lines 178-179. *)
Definition set_column_widths : Worksheet -> Result Worksheet :=
  for_M (enumerate column_widths 1)
        (fun '(col_num, width) => set_width_at col_num width).

(** Lines 38-182, the sheet "CE Question Set". *)
Definition question_set (ws : Worksheet) : Result Worksheet :=
  let ws := write_headers headers ws in
  let ws := write_data data ws in
  ws ← set_column_widths ws;
  Ok (set_freeze_panes "A2" ws).

Definition pending_items : list string :=
  ["A1.1 - Organisation name"; "A1.2 - Organisation type"; "A1.3 - Registration number"; "A1.4 - Registered address"; "A1.5 - Main business"; "A1.8 - Reasons for certification"; "A1.10/A1.11 - Contact permissions"; "A2.6 - Mobile devices"; "A2.7.1 - Remote workers count"; "A2.10 - IT responsible person"; "A3.3 - Insurance contact email"].

(** Lines 186-227, the sheet "Summary". *)
Definition summary (ws2 : Worksheet) : Result Worksheet :=
  Ok (block [
    setitem (xl Col.A 1) (Str "Cyber Essentials Certification - Status Summary");
    setattr (xl Col.A 1) (font_ (mkFont None (Some 14%Z) true None));
    setitem (xl Col.A 3) (Str "Status Legend:");
    setitem (xl Col.A 4) (Str "Ready");
    setattr (xl Col.A 4) (fill_ (solid "C6EFCE"));
    setitem (xl Col.B 4) (Str "Answer complete and verified");
    setitem (xl Col.A 5) (Str "Confirm");
    setattr (xl Col.A 5) (fill_ (solid "BDD7EE"));
    setitem (xl Col.B 5) (Str "Needs your confirmation");
    setitem (xl Col.A 6) (Str "Pending");
    setattr (xl Col.A 6) (fill_ (solid "FFEB9C"));
    setitem (xl Col.B 6) (Str "Requires your input (TBC)");
    setitem (xl Col.A 7) (Str "Partial");
    setattr (xl Col.A 7) (fill_ (solid "FCE4D6"));
    setitem (xl Col.B 7) (Str "Partially complete, needs review");
    setitem (xl Col.A 9) (Str "Items Requiring Your Input:");
    setattr (xl Col.A 9) (font_ (mkFont None None true None));
    for_ (enumerate pending_items 10)
         (fun '(i, item) => setitem (xl Col.A i) (Str item));
    set_width "A" 40;
    set_width "B" 40
  ] ws2).

(** The script up to [wb.save(output_path)]. *)
Definition build (env : Env) : Result Workbook :=
  let wb := Workbook_ in
  let ws := active wb in
  wb ← set_title ws "CE Question Set" wb;
  wb ← on_sheet ws question_set wb;
  '(wb, ws2) ← create_sheet "Summary" wb;
  on_sheet ws2 summary wb.

Definition output_path : string :=
  "/Users/adeomosanya/Documents/ifa-professional-portal/cyber-essentials/Cyber-Essentials-Question-Set-Answers.xlsx".

End CyberEssentials.

(** ** [cyber-essentials/create-mema-cyber-essentials.py] *)

Module Mema.
Import Openpyxl Table Py.

Definition header_font : Font := mkFont None (Some 11%Z) true (Some "FFFFFF").
Definition header_fill : PatternFill := solid "2F5496".
Definition section_fill : PatternFill := solid "D6DCE5".
Definition section_font : Font := mkFont None (Some 11%Z) true None.
Definition wrap_alignment : Alignment := mkAlignment None (Some "top") true.
Definition thin_border : Border := box (mkSide (Some "thin") None).
Definition ready_fill : PatternFill := solid "C6EFCE".
Definition action_fill : PatternFill := solid "FFEB9C".

Definition headers : list string :=
  ["Section"; "Q No."; "Question"; "Your Answer"; "Status"].

Definition header_style (row col : positive) (header : string) : list Attr :=
  [font_ header_font; fill_ header_fill; alignment_ wrap_alignment; border_ thin_border].

(** Lines 37-42. *)
Definition write_headers (headers : list string) : Worksheet -> Worksheet :=
  write_row Str header_style 1 1 headers.

Definition data : list (list string) :=
  [
    ["A1 Organisation"; "A1.1"; "Organisation name"; "MEMA Financial Services Ltd"; "Ready"];
    ["A1 Organisation"; "A1.2"; "Organisation type"; "LTD - Limited Company"; "Ready"];
    ["A1 Organisation"; "A1.3"; "Registration number"; "15382445"; "Ready"];
    ["A1 Organisation"; "A1.4"; "Registered address"; "34-35 Hatton Garden, London, England, EC1N 8DX"; "Ready"];
    ["A1 Organisation"; "A1.5"; "Main business"; "IT"; "Ready"];
    ["A1 Organisation"; "A1.6"; "Website address"; "https://plannetic.com"; "Ready"];
    ["A1 Organisation"; "A1.7"; "Renewal or first time"; "First Time Application"; "Ready"];
    ["A1 Organisation"; "A1.8"; "Two main reasons for applying"; ("Primary: To give confidence to our customers" +:+ LF +:+ "Secondary: To generally improve our security"); "Ready"];
    ["A1 Organisation"; "A1.9"; "Read CE Requirements document?"; "Yes"; "Ready"];
    ["A1 Organisation"; "A1.10"; "IASME breach contact permission"; "No"; "Ready"];
    ["A1 Organisation"; "A1.11"; "IASME research contact permission"; "No"; "Ready"];
    ["A2 Scope"; "A2.1"; "Whole organisation in scope?"; "Yes"; "Ready"];
    ["A2 Scope"; "A2.2"; "Scope description (if not whole org)"; "N/A - whole organisation in scope"; "N/A"];
    ["A2 Scope"; "A2.3"; "Geographical locations in scope"; "All UK locations. MEMA Financial Services operates fully remotely with 2 home-based employees."; "Ready"];
    ["A2 Scope"; "A2.4"; "Laptops/desktops (qty + make + OS)"; ("2 laptops:" +:+ LF +:+ "- 1 x Apple MacBook Pro running macOS 26.1" +:+ LF +:+ "- 1 x Dell laptop running Windows 11"); "Ready"];
    ["A2 Scope"; "A2.4.1"; "Thin clients"; "None"; "Ready"];
    ["A2 Scope"; "A2.5"; "Servers/virtual servers/hypervisors/VDI"; "None - all infrastructure is cloud-hosted via AWS (Vercel) and Supabase (PaaS)."; "Ready"];
    ["A2 Scope"; "A2.6"; "Tablets and mobile devices"; "1 x Samsung mobile phone running Android 15"; "Ready"];
    ["A2 Scope"; "A2.7"; "Networks in scope"; "Home/Remote Worker Networks - both employees work from home using domestic broadband connections. All devices are secured by software firewalls (macOS Application Firewall and Windows Defender Firewall)."; "Ready"];
    ["A2 Scope"; "A2.7.1"; "Remote workers count"; "2 - all employees are home/remote workers"; "Ready"];
    ["A2 Scope"; "A2.8"; "Network equipment (firewalls/routers)"; "All staff are remote workers using home broadband routers (various makes/models managed by ISPs). Software firewalls are enabled on all endpoint devices. Staff do not have administrative access to home routers."; "Ready"];
    ["A2 Scope"; "A2.9"; "Cloud services (third party)"; ("- Supabase (PaaS) - Database and authentication" +:+ LF +:+ "- Vercel/AWS (PaaS) - Application hosting" +:+ LF +:+ "- GitHub (SaaS) - Source code repository" +:+ LF +:+ "- Google Workspace (SaaS) - Email and collaboration" +:+ LF +:+ "- 1Password (SaaS) - Password management" +:+ LF +:+ "- Resend (SaaS) - Email delivery" +:+ LF +:+ "- OpenSign (SaaS) - Document signing" +:+ LF +:+ "- Ordnance Survey (SaaS) - UK address lookup API" +:+ LF +:+ "- DeepSeek (SaaS) - AI/LLM API" +:+ LF +:+ "- Alpha Vantage (SaaS) - Financial data API"); "Ready"];
    ["A2 Scope"; "A2.10"; "Person responsible for IT"; "Ade Omosanya, Director"; "Ready"];
    ["A3 Insurance"; "A3.1"; "UK HQ and turnover < £20m?"; "Yes"; "Ready"];
    ["A3 Insurance"; "A3.2"; "Opt out of insurance?"; "No - we wish to receive the included cyber insurance"; "Ready"];
    ["A3 Insurance"; "A3.3"; "Insurance contact email"; "info@memaconsultants.com"; "Confirm email"];
    ["A4 Firewalls"; "A4.1"; "Firewalls at internet boundaries?"; "Yes"; "Ready"];
    ["A4 Firewalls"; "A4.1.1"; "Software firewalls enabled on all devices?"; "Yes - we use the built-in macOS Application Firewall and Windows Defender Firewall; both are enabled and kept enabled at all times, including on untrusted networks (home/public Wi-Fi)."; "ACTION: Verify both firewalls are ON"];
    ["A4 Firewalls"; "A4.1.2"; "If no software firewall: list OS"; "N/A"; "N/A"];
    ["A4 Firewalls"; "A4.2"; "Default passwords changed on firewalls?"; "Yes - for home workers, domestic routers are managed by ISPs with unique per-device passwords. Software firewalls are protected by device login credentials following our password policy."; "Ready"];
    ["A4 Firewalls"; "A4.2.1"; "Process for changing firewall password"; "Software firewalls are protected by device login credentials. Password changes are performed via System Settings (macOS) or Windows Settings when required. Device passwords follow our policy of minimum 12 characters."; "Ready"];
    ["A4 Firewalls"; "A4.3"; "Firewall password configuration (A-E)"; "Option C - Minimum 12 characters, no maximum length"; "Ready"];
    ["A4 Firewalls"; "A4.4"; "Change password when compromised?"; "Yes - if we know or suspect a device password has been compromised, we immediately change it and review for unauthorised access."; "Ready"];
    ["A4 Firewalls"; "A4.5"; "Process to manage firewall?"; "Yes"; "Ready"];
    ["A4 Firewalls"; "A4.6"; "Firewall rules reviewed in last 12 months?"; "Software firewalls use default secure settings blocking all incoming connections. No custom inbound rules configured. Configuration verified during device setup and periodically checked. Cloud services (Vercel, Supabase) manage their own infrastructure firewalls."; "Ready"];
    ["A4 Firewalls"; "A4.7"; "Allows unauthenticated inbound?"; "No - all inbound connections blocked by default on endpoint devices."; "Ready"];
    ["A4 Firewalls"; "A4.8"; "How inbound connections approved?"; "No inbound connections permitted to endpoint devices. All services accessed via outbound connections to cloud platforms. Any exception would require documented written approval from the Director with clear business justification."; "Ready"];
    ["A4 Firewalls"; "A4.9"; "Admin interface accessible from internet?"; "No - firewall settings only accessible locally via device System Settings."; "Ready"];
    ["A4 Firewalls"; "A4.10"; "If yes: documented business need?"; "N/A"; "N/A"];
    ["A4 Firewalls"; "A4.11"; "If yes: MFA or IP allow list?"; "N/A"; "N/A"];
    ["A5 Secure Config"; "A5.1"; "Removed unnecessary software?"; "All devices configured with only business-required software. Staff instructed not to install unnecessary applications. macOS Gatekeeper and Windows SmartScreen prevent unsigned/untrusted applications. Regular reviews conducted to remove unused software."; "Ready"];
    ["A5 Secure Config"; "A5.2"; "Only necessary user accounts?"; "Yes - only required user accounts exist on devices and cloud services. Guest accounts disabled. Unused accounts removed promptly."; "Ready"];
    ["A5 Secure Config"; "A5.3"; "Default passwords changed?"; "Yes - all default passwords changed to strong, unique passwords managed via 1Password."; "Ready"];
    ["A5 Secure Config"; "A5.4"; "Run external services with non-public data?"; "Yes - Plannetic is a web application accessed by authenticated IFA clients over the internet. It handles client financial and compliance data."; "Ready"];
    ["A5 Secure Config"; "A5.5"; "Authentication option (A-E)"; "Option A - Multi-factor authentication with minimum 8 character password. Plannetic uses Supabase Auth with MFA (TOTP) for all users."; "Ready"];
    ["A5 Secure Config"; "A5.6"; "Process to change password on compromise"; ("1) User notified immediately and required to change password" +:+ LF +:+ "2) All sessions terminated via Supabase admin dashboard" +:+ LF +:+ "3) MFA verified/re-enrolled" +:+ LF +:+ "4) Incident logged and reviewed"); "Ready"];
    ["A5 Secure Config"; "A5.7"; "Brute force protection (A-C)"; "Option A - Throttling. Supabase Auth provides rate limiting and account lockout after failed attempts."; "Ready"];
    ["A5 Secure Config"; "A5.8"; "Auto-run disabled?"; "Yes - macOS doesn't auto-run from external media. Windows SmartScreen blocks untrusted apps. Users prompted before opening downloads."; "Ready"];
    ["A5 Secure Config"; "A5.9"; "Device locking enabled?"; "Yes - all devices require authentication to access."; "Ready"];
    ["A5 Secure Config"; "A5.10"; "Device unlock method"; ("macOS: Touch ID biometric with password fallback (min 8 chars)" +:+ LF +:+ "Windows: Windows Hello or password (min 12 chars)" +:+ LF +:+ "Android: Fingerprint/PIN (min 6 digits)"); "Ready"];
    ["A6 Updates"; "A6.1"; "All OS supported?"; ("Yes - all devices run supported operating systems:" +:+ LF +:+ "- macOS 26.1 (Tahoe) - supported" +:+ LF +:+ "- Windows 11 - supported" +:+ LF +:+ "- Android 15 - supported"); "Ready"];
    ["A6 Updates"; "A6.2"; "All software supported?"; "Yes - all software licensed and receiving security updates."; "Ready"];
    ["A6 Updates"; "A6.2.1"; "Browsers (name + version)"; ("Google Chrome 143.0.7499.110" +:+ LF +:+ "Mozilla Firefox 146.0" +:+ LF +:+ "Microsoft Edge 143.0.3650.80" +:+ LF +:+ "Safari 26.1"); "Ready"];
    ["A6 Updates"; "A6.2.2"; "Malware protection"; ("macOS: XProtect (built-in, auto-updating) + Gatekeeper + MRT" +:+ LF +:+ "Windows: Microsoft Defender Antivirus (built-in, auto-updating)"); "Ready"];
    ["A6 Updates"; "A6.2.3"; "Email applications"; ("Google Workspace Gmail (web-based via browser)" +:+ LF +:+ "Apple Mail 16.0 (macOS)"); "Ready"];
    ["A6 Updates"; "A6.2.4"; "Office applications"; ("Google Workspace (Docs, Sheets, Slides - web-based)" +:+ LF +:+ "Apple Pages 14.4, Numbers 14.4, Keynote 14.4" +:+ LF +:+ "Microsoft OneNote 16.104"); "Ready"];
    ["A6 Updates"; "A6.3"; "Any unlicensed/unsupported software?"; "No"; "Ready"];
    ["A6 Updates"; "A6.3.1"; "List unsupported/unlicensed"; "N/A"; "N/A"];
    ["A6 Updates"; "A6.4"; "Critical updates within 14 days?"; "Yes - all high/critical security updates applied within 14 days. Automatic updates enabled on all devices."; "Ready"];
    ["A6 Updates"; "A6.4.1"; "OS auto-updates enabled?"; "Yes - automatic updates enabled on both macOS and Windows devices."; "Ready"];
    ["A6 Updates"; "A6.4.2"; "If not auto: how ensure 14 days?"; "Automatic updates are primary mechanism. Director monitors vendor release notes and manually triggers if not auto-applied within 7 days."; "Ready"];
    ["A6 Updates"; "A6.5"; "App updates within 14 days?"; "Yes"; "Ready"];
    ["A6 Updates"; "A6.5.1"; "App auto-updates enabled?"; "Yes - App Store (macOS), Microsoft Store (Windows), Chrome/Firefox/Edge all have auto-updates enabled."; "Ready"];
    ["A6 Updates"; "A6.5.2"; "If not auto: how ensure 14 days?"; "Auto-updates primary. Staff accept update prompts promptly. Periodic compliance checks by Director."; "Ready"];
    ["A6 Updates"; "A6.6"; "Remove unsupported when EOL?"; "Yes - unsupported software removed when it reaches end-of-life."; "Ready"];
    ["A6 Updates"; "A6.7"; "Unsupported moved out of scope?"; "Not applicable - no unsupported software used."; "Ready"];
    ["A7 Access Control"; "A7.1"; "Account creation approval process"; "As a 2-person company, the Director (Ade Omosanya) approves all account creation. New accounts created with minimum necessary permissions. MFA enrollment mandatory before first access."; "Ready"];
    ["A7 Access Control"; "A7.2"; "Unique credentials?"; "Yes - all users have unique credentials. Account sharing prohibited."; "Ready"];
    ["A7 Access Control"; "A7.3"; "Leaver process"; "When an employee leaves: 1) All cloud service accounts immediately disabled/deleted 2) Device collected and wiped 3) Passwords to shared systems changed 4) Confirmed within 24 hours"; "Ready"];
    ["A7 Access Control"; "A7.4"; "Least privilege"; "Role-based access control (RBAC) implemented in Plannetic. Users granted minimum permissions for their role. Cloud service access limited to job requirements."; "Ready"];
    ["A7 Access Control"; "A7.5"; "Admin access process"; "Director approval required for admin access. Separate admin accounts used. Access documented and reviewed quarterly."; "Ready"];
    ["A7 Access Control"; "A7.6"; "Separate admin accounts"; "Admin tasks performed using dedicated accounts. Cloud platforms: separate admin accounts with MFA. Day-to-day work uses standard accounts."; "Ready"];
    ["A7 Access Control"; "A7.7"; "Prevent admin for email/browsing"; "Admin accounts not used for email or browsing. Staff trained on this policy. Cloud admin sessions logged out after use."; "Ready"];
    ["A7 Access Control"; "A7.8"; "Track admin accounts?"; "Yes - Director maintains record of all admin access."; "Ready"];
    ["A7 Access Control"; "A7.9"; "Review admin access regularly?"; "Yes - reviewed quarterly. Unused privileges removed."; "Ready"];
    ["A7 Access Control"; "A7.10"; "Brute-force protection"; ("All systems protected:" +:+ LF +:+ "- 1Password: Account lockout" +:+ LF +:+ "- Google Workspace: Rate limiting + MFA" +:+ LF +:+ "- Supabase: Rate limiting + lockout" +:+ LF +:+ "- Device logins: Throttling after failed attempts"); "Ready"];
    ["A7 Access Control"; "A7.11"; "Password quality controls"; ("Technical controls via 1Password and cloud providers:" +:+ LF +:+ "- Minimum 8 characters with MFA enabled" +:+ LF +:+ "- Minimum 12 characters where MFA not available" +:+ LF +:+ "- No maximum length" +:+ LF +:+ "- Common password blocking"); "Ready"];
    ["A7 Access Control"; "A7.12"; "Support strong passwords"; "1Password used for generating and storing unique passwords. Staff trained on three random words method. No regular password expiry. No complexity requirements."; "Ready"];
    ["A7 Access Control"; "A7.13"; "Compromised password process?"; "Yes - report immediately, force reset, terminate sessions, re-verify MFA, review incident."; "Ready"];
    ["A7 Access Control"; "A7.14"; "All cloud services have MFA?"; ("Yes - all cloud services provide MFA:" +:+ LF +:+ "- Google Workspace ✓" +:+ LF +:+ "- Supabase ✓" +:+ LF +:+ "- Vercel ✓" +:+ LF +:+ "- GitHub ✓" +:+ LF +:+ "- 1Password ✓"); "Ready"];
    ["A7 Access Control"; "A7.15"; "Services without MFA option"; "N/A - all services have MFA"; "N/A"];
    ["A7 Access Control"; "A7.16"; "MFA on all cloud admins?"; "Yes - MFA mandatory for all admin accounts."; "Ready"];
    ["A7 Access Control"; "A7.17"; "MFA on all cloud users?"; "Yes - MFA mandatory for all users."; "Ready"];
    ["A8 Malware"; "A8.1"; "Malware protection method (A/B/C)"; ("Both A and B:" +:+ LF +:+ "A - Anti-malware: Windows Defender, macOS XProtect" +:+ LF +:+ "B - Allow-listing: Gatekeeper (macOS), SmartScreen (Windows), Google Play Protect (Android)"); "Ready"];
    ["A8 Malware"; "A8.2"; "Anti-malware updates + blocks?"; "Yes - Windows Defender and XProtect auto-update and block/quarantine detected malware."; "Ready"];
    ["A8 Malware"; "A8.3"; "Warns on malicious sites?"; ("Yes:" +:+ LF +:+ "- Chrome: Safe Browsing enabled" +:+ LF +:+ "- Firefox: Phishing protection enabled" +:+ LF +:+ "- Edge: SmartScreen enabled" +:+ LF +:+ "- Safari: Fraudulent Website Warning enabled"); "Ready"];
    ["A8 Malware"; "A8.4"; "Users restricted from unsigned apps?"; "Yes - Gatekeeper (macOS) and SmartScreen (Windows) block unsigned/untrusted apps. Users cannot bypass without admin intervention."; "Ready"];
    ["A8 Malware"; "A8.5"; "Only approved apps + list maintained?"; "Yes - staff instructed to only install approved business applications. Director approves new app requests. Mobile: only official app stores used."; "Ready"]
  ].

(** Lines 160-163: the colour of a status. *)
Definition status_fill (value : string) : list Attr :=
  if String.eqb value "Ready" then [fill_ ready_fill]
  else if contains "ACTION" value || contains "Confirm" value then [fill_ action_fill]
  else [].

(** Lines 155-163: the assignments of the body of the data loop. *)
Definition data_style (row_num col_num : positive) (value : string) : list Attr :=
  [alignment_ wrap_alignment; border_ thin_border]
  ++ (if (col_num =? 1)%positive then [font_ section_font] else [])
  ++ (if (col_num =? 5)%positive then status_fill value else []).

(** Lines 152-163. *)
Definition write_data (data : list (list string)) : Worksheet -> Worksheet :=
  write_rows Str data_style 2 1 data.

Definition widths : list Z := [18; 8; 45; 70; 25]%Z.

(** Lines 167-168. *)
Definition set_column_widths : Worksheet -> Result Worksheet :=
  for_M (enumerate widths 1) (fun '(col, width) => set_width_at col width).

(** Lines 36-170, the sheet "CE Answers". *)
Definition answers (ws : Worksheet) : Result Worksheet :=
  let ws := write_headers headers ws in
  let ws := write_data data ws in
  ws ← set_column_widths ws;
  Ok (set_freeze_panes "A2" ws).

Definition actions : list string :=
  ["1. macOS Firewall is ENABLED (System Settings > Network > Firewall)"; "2. Windows Defender Firewall is ENABLED (Settings > Privacy & security > Windows Security > Firewall)"; "3. Confirm insurance email address is correct"; "4. All devices have auto-updates enabled"; "5. MFA is enforced on all cloud services"].

(** Lines 174-198, the sheet "Actions Required". *)
Definition actions_required (ws2 : Worksheet) : Result Worksheet :=
  Ok (block [
    setitem (xl Col.A 1) (Str "MEMA Financial Services - Cyber Essentials Actions");
    setattr (xl Col.A 1) (font_ (mkFont None (Some 14%Z) true None));
    setitem (xl Col.A 3) (Str "Before Submission - Verify:");
    setattr (xl Col.A 3) (font_ (mkFont None None true None));
    for_ (enumerate actions 4)
         (fun '(i, action) => setitem (xl Col.A i) (Str action));
    setitem (xl Col.A 10) (Str "Company Details Confirmed:");
    setattr (xl Col.A 10) (font_ (mkFont None None true None));
    setitem (xl Col.A 11) (Str "MEMA Financial Services Ltd");
    setitem (xl Col.A 12) (Str "Company Number: 15382445");
    setitem (xl Col.A 13) (Str "34-35 Hatton Garden, London, EC1N 8DX");
    setitem (xl Col.A 14) (Str "IT Contact: Ade Omosanya, Director");
    set_width "A" 80
  ] ws2).

(** The script up to [wb.save(output)]. *)
Definition build (env : Env) : Result Workbook :=
  let wb := Workbook_ in
  let ws := active wb in
  wb ← set_title ws "CE Answers" wb;
  wb ← on_sheet ws answers wb;
  '(wb, ws2) ← create_sheet "Actions Required" wb;
  on_sheet ws2 actions_required wb.

Definition output : string :=
  "/Users/adeomosanya/Documents/ifa-professional-portal/cyber-essentials/MEMA-Cyber-Essentials-Answers.xlsx".

End Mema.


(** Tests the scripts make on a cell value. *)
Module Val.
Import Openpyxl.

(** [isinstance(value, int)]. *)
Definition is_int (v : Value) : bool :=
  match v with Int _ => true | _ => false end.

(** [isinstance(value, str) and value.startswith(pre)]. *)
Definition str_startswith (pre : string) (v : Value) : bool :=
  match v with Str s => Py.startswith pre s | _ => false end.

(** [value == s] for a string literal [s]. *)
Definition eq_str (v : Value) (s : string) : bool :=
  match v with Str t => String.eqb t s | _ => false end.

(** [value in [s1, s2, ...]] for string literals. *)
Definition in_strs (v : Value) (l : list string) : bool :=
  match v with Str t => Py.in_list t l | _ => false end.

(** [sub in value] for a string [value]. *)
Definition has (sub : string) (v : Value) : bool :=
  match v with Str t => Py.contains sub t | _ => false end.

(** Truthiness: the empty string and zero are false. *)
Definition truthy (v : Value) : bool :=
  match v with
  | Str s => Py.truthy s
  | Int n => negb (n =? 0)%Z
  | Float m _ => negb (m =? 0)%Z
  end.

(** [row_idx % 2]. *)
Definition mod2 (row : positive) : Z := (Z.pos row mod 2)%Z.

(** [row in [r1, r2, ...]]. *)
Definition row_in (row : positive) (l : list positive) : bool :=
  existsb (Pos.eqb row) l.

End Val.

(** Statements on a chart, executed in order from the fresh chart. *)
Definition chart_block (k : Openpyxl.ChartKind)
  (stmts : list (Openpyxl.Chart -> Openpyxl.Chart)) : Openpyxl.Chart :=
  Py.for_ stmts (fun stmt ch => stmt ch) (Openpyxl.new_chart k).

(** [ws.cell(row=row, column=col, value=v)] followed by assignments to the
    cell returned, for a value that is stored as it is. *)
Definition put (row col : positive) (v : Openpyxl.Value) (attrs : list Openpyxl.Attr)
  : Openpyxl.Worksheet -> Openpyxl.Worksheet :=
  Table.styled_cell (fun v => v) row col v attrs.

(** The header loop and the data loop for rows of values stored as they
    are. *)
Definition write_header_row := @Table.write_row Openpyxl.Value (fun v => v).
Definition write_data_rows := @Table.write_rows Openpyxl.Value (fun v => v).


(** ** [ifa-platform/create-pricing-excel-v2.py] *)

Module PricingV2.
Import Openpyxl Table Py Val.

Definition title_font : Font := mkFont (Some "Calibri") (Some 20%Z) true (Some "1E40AF").
Definition header_font : Font := mkFont (Some "Calibri") (Some 11%Z) true (Some "FFFFFF").
Definition subheader_font : Font := mkFont (Some "Calibri") (Some 13%Z) true (Some "1E40AF").
Definition section_font : Font := mkFont (Some "Calibri") (Some 11%Z) true (Some "374151").
Definition normal_font : Font := mkFont (Some "Calibri") (Some 10%Z) false None.
Definition currency_font : Font := mkFont (Some "Calibri") (Some 10%Z) true (Some "059669").
Definition small_font : Font := mkFont (Some "Calibri") (Some 9%Z) false (Some "6B7280").
Definition bold_font : Font := mkFont (Some "Calibri") (Some 10%Z) true None.

Definition header_fill : PatternFill := solid "1E40AF".
Definition alt_fill : PatternFill := solid "F3F4F6".
Definition highlight_fill : PatternFill := solid "DCFCE7".
Definition input_fill : PatternFill := solid "FEF3C7".
Definition warning_fill : PatternFill := solid "FEE2E2".
Definition blue_fill : PatternFill := solid "DBEAFE".

Definition thin_border : Border := box (mkSide (Some "thin") (Some "D1D5DB")).
Definition center : Alignment := mkAlignment (Some "center") None false.
Definition left : Alignment := mkAlignment (Some "left") None false.
Definition pounds : string := "£#,##0".

(** The styling every header loop of the script applies. *)
Definition header_style (row col : positive) (header : Value) : list Attr :=
  [font_ header_font; fill_ header_fill; alignment_ center; border_ thin_border].

(** *** Sheet 1: Summary (lines 46-148) *)

Definition summary_text : list string :=
  ["Plannetic is a comprehensive, compliance-focused financial advisory platform"; "designed specifically for UK-regulated Independent Financial Advisors (IFAs)."; ""; "Key Value Proposition:"; "• Replaces 5-7 separate tools with one integrated platform"; "• Saves IFAs £280+/month vs competitor tool stack (£530 → £250)"; "• Saves 10-20 hours per client onboarding"; "• Built-in FCA compliance and Consumer Duty workflows"; "• AI-enhanced assessments and form auto-population"].

Definition pricing_headers : list Value :=
  [Str "Tier"; Str "Monthly"; Str "Commitment"; Str "2-Year TCV"; Str "3-Year TCV"; Str "Best For"].

Definition pricing_data : list (list Value) :=
  [
    [Str "Monthly"; Int 350; Str "Month-to-month"; Str "=B20*24"; Str "=B20*36"; Str "Trial/uncertain firms"];
    [Str "Standard"; Int 250; Str "2-year"; Str "=B21*24"; Str "=B21*36"; Str "Solo advisors, small firms"];
    [Str "Professional"; Int 300; Str "2-year"; Str "=B22*24"; Str "=B22*36"; Str "Growing firms, AI + support"];
    [Str "Enterprise"; Str "Custom"; Str "3-year"; Str "Custom"; Str "Custom"; Str "5+ advisors, white-label"]
  ].

(** Lines 97-105. *)
Definition pricing_style (row_idx col_idx : positive) (value : Value) : list Attr :=
  [font_ normal_font; border_ thin_border; alignment_ center]
  ++ (if (mod2 row_idx =? 1)%Z then [fill_ alt_fill] else [])
  ++ (if (col_idx =? 2)%positive && is_int value then [number_format_ pounds] else [])
  ++ (if row_in col_idx [4; 5]%positive && str_startswith "=" value
      then [number_format_ pounds] else []).

Definition savings_data : list (list Value) :=
  [
    [Str "Metric"; Str "Value"; Str "Notes"];
    [Str "Competitor Stack Cost"; Int 530; Str "Verified Dec 2025 pricing"];
    [Str "Plannetic Standard"; Int 250; Str "Full platform access"];
    [Str "Monthly Savings"; Str "=B28-B29"; Str "Per month"];
    [Str "Annual Savings"; Str "=B30*12"; Str "Per year"];
    [Str "Savings %"; Str "=B30/B28"; Str "vs competitors"]
  ].

(** Lines 123-135. *)
Definition savings_style (row_idx col_idx : positive) (value : Value) : list Attr :=
  (if (row_idx =? 28)%positive
   then [font_ header_font; fill_ header_fill]
   else [font_ normal_font] ++ (if (mod2 row_idx =? 0)%Z then [fill_ alt_fill] else []))
  ++ [border_ thin_border]
  ++ (if (col_idx =? 2)%positive && (28 <? row_idx)%positive
      then (if (row_idx =? 33)%positive
            then [number_format_ "0.0%"]
            else [number_format_ pounds])
      else []).

Definition summary (ws_summary : Worksheet) : Result Worksheet :=
  Ok (block [
    setitem (xl Col.A 1) (Str "PLANNETIC PRICING ANALYSIS");
    setattr (xl Col.A 1) (font_ title_font);
    merge_cells "A1:F1";
    setitem (xl Col.A 2) (Str "Verified December 2025");
    setattr (xl Col.A 2) (font_ small_font);
    setitem (xl Col.A 4) (Str "What is Plannetic?");
    setattr (xl Col.A 4) (font_ subheader_font);
    for_ (enumerate summary_text 6)
         (fun '(i, text) => block [
            setitem (xl Col.A i) (Str text);
            setattr (xl Col.A i) (font_ normal_font)]);
    setitem (xl Col.A 17) (Str "Recommended Pricing Tiers");
    setattr (xl Col.A 17) (font_ subheader_font);
    write_header_row header_style 19 1 pricing_headers;
    write_data_rows pricing_style 20 1 pricing_data;
    setitem (xl Col.A 26) (Str "Monthly Savings Analysis");
    setattr (xl Col.A 26) (font_ subheader_font);
    write_data_rows savings_style 28 1 savings_data;
    setattr (xl Col.A 32) (fill_ highlight_fill);
    setattr (xl Col.B 32) (fill_ highlight_fill);
    setattr (xl Col.C 32) (fill_ highlight_fill);
    set_width "A" 25;
    set_width "B" 15;
    set_width "C" 22;
    set_width "D" 15;
    set_width "E" 15;
    set_width "F" 28
  ] ws_summary).

(** *** Sheet 2: Competitor Pricing (lines 153-299) *)

Definition comp_headers : list Value :=
  [Str "Software"; Str "Monthly Price"; Str "Price Type"; Str "What They Offer"; Str "Source"].

Definition competitors : list (list Value) :=
  [
    [Str "Intelliflo Office"; Int 132; Str "Per user"; Str "Back office + cashflow"; Str "TrustRadius"];
    [Str "Voyant AdviserGo"; Int 175; Str "Flat fee"; Str "Cash flow planning"; Str "voyant.com"];
    [Str "Timeline"; Int 162; Str "Flat (+VAT)"; Str "Monte Carlo simulations"; Str "timeline.co"];
    [Str "FE CashCalc"; Int 90; Str "Per adviser (+VAT)"; Str "Cash flow modelling"; Str "advisoryai.com"];
    [Str "Dynamic Planner"; Int 200; Str "Estimated"; Str "Risk profiling + reports"; Str "Contact required"];
    [Str "Plannetic Standard"; Int 250; Str "Flat fee"; Str "ALL-IN-ONE PLATFORM"; Str "Your price"]
  ].

(** Lines 187-195. *)
Definition competitors_style (row_idx col_idx : positive) (value : Value) : list Attr :=
  [font_ normal_font; border_ thin_border]
  ++ (if (col_idx =? 2)%positive then [number_format_ pounds] else [])
  ++ (if (row_idx =? 12)%positive
      then [fill_ highlight_fill; font_ bold_font]
      else if (mod2 row_idx =? 0)%Z then [fill_ alt_fill] else []).

(** Lines 198-215: the bar chart of the competitor prices. *)
Definition chart1 (ws_comp : Worksheet) : Chart :=
  let data := Reference_ ws_comp 2 6 None (Some 12%positive) in
  let cats := Reference_ ws_comp 1 7 None (Some 12%positive) in
  chart_block BarChart [
    set_chart (type_ "col");
    set_chart (style_ 10);
    set_chart (title_ "Monthly Software Costs Comparison");
    set_chart (y_title_ "£ per month");
    set_chart (x_title_ None);
    add_data data true;
    set_categories cats;
    set_chart (shape_ 4);
    set_chart (width_ 15);
    set_chart (height_ 10);
    set_chart no_legend_
  ].

Definition stack_headers : list Value :=
  [Str "Tool Category"; Str "Standalone Cost"; Str "Plannetic"; Str "Savings"].

Definition stack_data : list (list Value) :=
  [
    [Str "CRM (generic)"; Int 50; Str "Included"; Str "=B35"];
    [Str "Risk Profiling"; Int 50; Str "Included"; Str "=B36"];
    [Str "Cash Flow (Voyant)"; Int 175; Str "Included"; Str "=B37"];
    [Str "Monte Carlo (Timeline)"; Int 162; Str "Included"; Str "=B38"];
    [Str "Document Generation"; Int 50; Str "Included"; Str "=B39"];
    [Str "E-Signatures"; Int 23; Str "Included"; Str "=B40"];
    [Str "Compliance Tracking"; Int 50; Str "Included"; Str "=B41"]
  ].

(** Lines 244-247. *)
Definition stack_style (row_idx col_idx : positive) (value : Value) : list Attr :=
  [font_ normal_font; border_ thin_border]
  ++ (if row_in col_idx [2; 4]%positive then [number_format_ pounds] else []).

(** Lines 255-261: the styling of the total row. *)
Definition total_row : Worksheet -> Worksheet :=
  for_ (range 1 5)
       (fun col => block [
          assign 42 col (font_ bold_font);
          assign 42 col (fill_ highlight_fill);
          assign 42 col (border_ thin_border);
          if row_in col [2; 4]%positive
          then assign 42 col (number_format_ pounds)
          else (fun ws => ws)]).

(** Lines 264-277: the pie chart of the tool stack. *)
Definition chart2 (ws_comp : Worksheet) : Chart :=
  let data2 := Reference_ ws_comp 2 35 None (Some 41%positive) in
  let labels2 := Reference_ ws_comp 1 35 None (Some 41%positive) in
  chart_block PieChart [
    set_chart (title_ "Tool Stack Cost Breakdown");
    add_data data2 false;
    set_categories labels2;
    set_chart (width_ 12);
    set_chart (height_ 10);
    set_chart (dataLabels_ (mkDataLabelList (Some true) (Some false) (Some false)))
  ].

Definition sources : list string :=
  ["• Voyant: planwithvoyant.com/uk/pricing"; "• Timeline: timeline.co (£135+VAT = £162)"; "• CashCalc: advisoryai.com (£75+VAT = £90)"; "• Intelliflo: trustradius.com (£130-135/user)"].

Definition competitor_pricing (ws_comp : Worksheet) : Result Worksheet :=
  Ok (block [
    setitem (xl Col.A 1) (Str "COMPETITOR PRICING ANALYSIS");
    setattr (xl Col.A 1) (font_ title_font);
    merge_cells "A1:E1";
    setitem (xl Col.A 2) (Str "Verified December 2025 - Sources linked below");
    setattr (xl Col.A 2) (font_ small_font);
    setitem (xl Col.A 4) (Str "UK IFA Software Market - Verified Pricing");
    setattr (xl Col.A 4) (font_ subheader_font);
    write_header_row header_style 6 1 comp_headers;
    write_data_rows competitors_style 7 1 competitors;
    (fun ws => add_chart (chart1 ws) "A15" ws);
    setitem (xl Col.A 32) (Str "Typical IFA Tool Stack vs Plannetic");
    setattr (xl Col.A 32) (font_ subheader_font);
    write_header_row header_style 34 1 stack_headers;
    write_data_rows stack_style 35 1 stack_data;
    setitem (xl Col.A 42) (Str "TOTAL");
    setitem (xl Col.B 42) (Str "=SUM(B35:B41)");
    setitem (xl Col.C 42) (Str "£250/mo");
    setitem (xl Col.D 42) (Str "=B42-250");
    total_row;
    (fun ws => add_chart (chart2 ws) "F32" ws);
    setitem (xl Col.A 45) (Str "Sources:");
    setattr (xl Col.A 45) (font_ section_font);
    for_ (enumerate sources 46)
         (fun '(i, source) => block [
            setitem (xl Col.A i) (Str source);
            setattr (xl Col.A i) (font_ small_font)]);
    set_width "A" 22;
    set_width "B" 15;
    set_width "C" 18;
    set_width "D" 12;
    set_width "E" 18
  ] ws_comp).

(** *** Sheet 3: Revenue Calculator (lines 304-387) *)

Definition calc_headers : list Value :=
  [Str "# Firms"; Str "£250/mo (2yr)"; Str "£300/mo (2yr)"; Str "£250/mo (3yr)"; Str "£300/mo (3yr)"; Str "Difference"; Str "Avg MRR"].

Definition firm_counts : list Z :=
  [1; 2; 3; 4; 5; 10; 15; 20; 25; 50; 75; 100; 150; 200; 250; 300]%Z.

(** Lines 380-383: the alternate fill of the cells still without one. *)
Definition alt_fill_row (row_idx : positive) : Worksheet -> Worksheet :=
  if (mod2 row_idx =? 0)%Z
  then for_ (range 1 6)
            (fun c ws =>
               if negb (Py.truthy (fill_rgb (_get_cell row_idx c ws)))
                  || String.eqb (fill_rgb (_get_cell row_idx c ws)) "00000000"
               then assign row_idx c (fill_ alt_fill) ws
               else ws)
  else (fun ws => ws).

(** Lines 346-383: the body of the loop over the firm counts. *)
Definition revenue_row (row_idx : positive) (firms : Z) : Worksheet -> Worksheet :=
  block [
    put row_idx 1 (Int firms) [border_ thin_border];
    assign row_idx 1 (alignment_ center);
    put row_idx 2 (Str ("=A" +:+ str row_idx +:+ "*$B$5*24"))
        [number_format_ pounds; border_ thin_border];
    put row_idx 3 (Str ("=A" +:+ str row_idx +:+ "*$B$6*24"))
        [number_format_ pounds; border_ thin_border];
    put row_idx 4 (Str ("=A" +:+ str row_idx +:+ "*$B$5*36"))
        [number_format_ pounds; border_ thin_border];
    put row_idx 5 (Str ("=A" +:+ str row_idx +:+ "*$B$6*36"))
        [number_format_ pounds; border_ thin_border];
    put row_idx 6 (Str ("=E" +:+ str row_idx +:+ "-B" +:+ str row_idx))
        [number_format_ pounds; border_ thin_border; fill_ highlight_fill];
    put row_idx 7 (Str ("=A" +:+ str row_idx +:+ "*($B$5+$B$6)/2"))
        [number_format_ pounds; border_ thin_border];
    alt_fill_row row_idx
  ].

(** Lines 345-383. *)
Definition revenue_rows (firm_counts : list Z) : Worksheet -> Worksheet :=
  for_ (enumerate firm_counts 13) (fun '(row_idx, firms) => revenue_row row_idx firms).

(** An input cell: value, number format, fill, border (lines 315-330). *)
Definition input_cell (k : positive * positive) (v : Value) (fmt : string)
  : Worksheet -> Worksheet :=
  block [
    setitem k v;
    setattr k (number_format_ fmt);
    setattr k (fill_ input_fill);
    setattr k (border_ thin_border)
  ].

Definition revenue_calculator (ws_calc : Worksheet) : Result Worksheet :=
  let ws_calc := block [
    setitem (xl Col.A 1) (Str "REVENUE CALCULATOR");
    setattr (xl Col.A 1) (font_ title_font);
    merge_cells "A1:G1";
    setitem (xl Col.A 3) (Str "INPUT PARAMETERS (Edit yellow cells)");
    setattr (xl Col.A 3) (font_ subheader_font);
    setitem (xl Col.A 5) (Str "Standard Monthly Rate (£)");
    input_cell (xl Col.B 5) (Int 250) pounds;
    setitem (xl Col.A 6) (Str "Professional Monthly Rate (£)");
    input_cell (xl Col.B 6) (Int 300) pounds;
    setitem (xl Col.A 7) (Str "Monthly Rate (no commitment) (£)");
    input_cell (xl Col.B 7) (Int 350) pounds;
    setitem (xl Col.A 10) (Str "REVENUE BY NUMBER OF FIRMS");
    setattr (xl Col.A 10) (font_ subheader_font);
    write_header_row header_style 12 1 calc_headers;
    revenue_rows firm_counts
  ] ws_calc in
  for_M (range 1 8) (fun col => set_width_at col 16) ws_calc.

(** *** Sheet 4: Growth Projections (lines 392-542) *)

Definition growth_headers : list Value :=
  [Str "Year"; Str "New Firms"; Str "Churn"; Str "Total Firms"; Str "MRR"; Str "ARR"].

Definition conservative_new : list Z := [10; 10; 15; 20; 25]%Z.
Definition moderate_new : list Z := [25; 35; 45; 60; 75]%Z.
Definition aggressive_new : list Z := [50; 70; 100; 130; 150]%Z.

(** Lines 428-442 (and again 457-471, 486-500): the body of a scenario
    loop, [base] being 11, 20 or 29. *)
Definition scenario_row (base : positive) (i : N) (new_firms : Z) : Worksheet -> Worksheet :=
  let row := plus base i in
  block [
    put row 1 (Int (Z.of_N i + 1)) [border_ thin_border];
    put row 2 (Int new_firms) [border_ thin_border];
    if (i =? 0)%N
    then block [
      put row 3 (Int 0) [border_ thin_border];
      put row 4 (Str ("=B" +:+ str row)) [border_ thin_border]]
    else block [
      put row 3 (Str ("=ROUND(D" +:+ str (Pos.pred row) +:+ "*$B$6,0)")) [border_ thin_border];
      put row 4 (Str ("=D" +:+ str (Pos.pred row) +:+ "+B" +:+ str row +:+ "-C" +:+ str row))
          [border_ thin_border]];
    put row 5 (Str ("=D" +:+ str row +:+ "*$B$5")) [border_ thin_border];
    assign row 5 (number_format_ pounds);
    put row 6 (Str ("=E" +:+ str row +:+ "*12")) [border_ thin_border];
    assign row 6 (number_format_ pounds);
    for_ (range 1 7) (fun col => assign row col (alignment_ center))
  ].

(** Lines 427-442, 456-471, 485-500. *)
Definition scenario_rows (base : positive) (new : list Z) : Worksheet -> Worksheet :=
  for_ (enumerate0 new 0) (fun '(i, new_firms) => scenario_row base i new_firms).

Definition chart_headers : list Value :=
  [Str "Year"; Str "Conservative"; Str "Moderate"; Str "Aggressive"].

(** Lines 507-511: the header loop of the chart table has no alignment. *)
Definition chart_header_style (row col : positive) (header : Value) : list Attr :=
  [font_ header_font; fill_ header_fill; border_ thin_border].

(** Lines 514-521: the body of the loop that fills the chart table. *)
Definition chart_row (i : N) : Worksheet -> Worksheet :=
  let row := plus 5 i in
  block [
    put row 8 (Int (Z.of_N i + 1)) [border_ thin_border];
    put row 9 (Str ("=F" +:+ str (plus 11 i))) [border_ thin_border];
    assign row 9 (number_format_ pounds);
    put row 10 (Str ("=F" +:+ str (plus 20 i))) [border_ thin_border];
    assign row 10 (number_format_ pounds);
    put row 11 (Str ("=F" +:+ str (plus 29 i))) [border_ thin_border];
    assign row 11 (number_format_ pounds)
  ].

(** Lines 513-521. *)
Definition chart_rows : Worksheet -> Worksheet :=
  for_ (range0 5) chart_row.

(** Lines 524-536: the line chart of the three scenarios. *)
Definition chart3 (ws_growth : Worksheet) : Chart :=
  let data3 := Reference_ ws_growth 9 4 (Some 11%positive) (Some 9%positive) in
  let cats3 := Reference_ ws_growth 8 5 None (Some 9%positive) in
  chart_block LineChart [
    set_chart (title_ "ARR Growth Projections");
    set_chart (style_ 10);
    set_chart (y_title_ "Annual Recurring Revenue (£)");
    set_chart (x_title_ (Some "Year"));
    set_chart (y_numFmt_ pounds);
    add_data data3 true;
    set_categories cats3;
    set_chart (width_ 15);
    set_chart (height_ 10)
  ].

Definition growth_projections (ws_growth : Worksheet) : Result Worksheet :=
  let ws_growth := block [
    setitem (xl Col.A 1) (Str "GROWTH PROJECTIONS");
    setattr (xl Col.A 1) (font_ title_font);
    merge_cells "A1:F1";
    setitem (xl Col.A 3) (Str "SCENARIO INPUTS (Edit yellow cells)");
    setattr (xl Col.A 3) (font_ subheader_font);
    setitem (xl Col.A 5) (Str "Monthly Rate (£)");
    input_cell (xl Col.B 5) (Int 250) pounds;
    setitem (xl Col.A 6) (Str "Annual Churn Rate (%)");
    input_cell (xl Col.B 6) (Float 5 (-2)) "0%";
    setitem (xl Col.A 9) (Str "CONSERVATIVE (10 new firms/year)");
    setattr (xl Col.A 9) (font_ section_font);
    write_header_row header_style 10 1 growth_headers;
    scenario_rows 11 conservative_new;
    setitem (xl Col.A 18) (Str "MODERATE (25 new firms/year)");
    setattr (xl Col.A 18) (font_ section_font);
    write_header_row header_style 19 1 growth_headers;
    scenario_rows 20 moderate_new;
    setitem (xl Col.A 27) (Str "AGGRESSIVE (50 new firms/year)");
    setattr (xl Col.A 27) (font_ section_font);
    write_header_row header_style 28 1 growth_headers;
    scenario_rows 29 aggressive_new;
    setitem (xl Col.H 3) (Str "ARR Comparison (for chart)");
    setattr (xl Col.H 3) (font_ section_font);
    write_header_row chart_header_style 4 8 chart_headers;
    chart_rows;
    (fun ws => add_chart (chart3 ws) "H12" ws)
  ] ws_growth in
  for_M (range 1 12) (fun col => set_width_at col 14) ws_growth.


(** *** Sheet 5: ROI Calculator (lines 547-704) *)

Definition inputs : list (list Value) :=
  [
    [Str "Tool"; Str "Monthly Cost"; Str "Notes"];
    [Str "CRM (generic)"; Int 50; Str "Salesforce/HubSpot equivalent"];
    [Str "Risk Profiling Tool"; Int 50; Str "Dynamic Planner element"];
    [Str "Cash Flow (Voyant)"; Int 175; Str "Verified Dec 2025"];
    [Str "Monte Carlo (Timeline)"; Int 162; Str "Verified Dec 2025 (£135+VAT)"];
    [Str "Document Generation"; Int 50; Str "Word templates/Templafy"];
    [Str "E-Signatures"; Int 23; Str "DocuSign/Adobe Sign"];
    [Str "Compliance Tracking"; Int 50; Str "Manual/specialist tool"]
  ].

(** Lines 574-582. *)
Definition inputs_style (row_idx col_idx : positive) (value : Value) : list Attr :=
  (if (row_idx =? 6)%positive
   then [font_ header_font; fill_ header_fill]
   else [font_ normal_font]
        ++ (if (col_idx =? 2)%positive
            then [fill_ input_fill; number_format_ pounds] else []))
  ++ [border_ thin_border].

Definition time_inputs : list (list Value) :=
  [
    [Str "Metric"; Str "Value"; Str "Notes"];
    [Str "Hours per client onboarding (current)"; Int 15; Str "Manual process"];
    [Str "Time saved with Plannetic (%)"; Float 6 (-1); Str "60% automation"];
    [Str "Your hourly rate (£)"; Int 100; Str "Advisor charge-out rate"];
    [Str "New clients per month"; Int 4; Str "Average new clients"]
  ].

(** Lines 610-621. *)
Definition time_inputs_style (row_idx col_idx : positive) (value : Value) : list Attr :=
  (if (row_idx =? 19)%positive
   then [font_ header_font; fill_ header_fill]
   else [font_ normal_font]
        ++ (if (col_idx =? 2)%positive
            then [fill_ input_fill]
                 ++ (if (row_idx =? 21)%positive then [number_format_ "0%"]
                     else if (row_idx =? 22)%positive then [number_format_ pounds]
                     else [])
            else []))
  ++ [border_ thin_border].

Definition results : list (list Value) :=
  [
    [Str "Metric"; Str "Monthly"; Str "Annual"; Str "Formula"];
    [Str "Software Savings"; Str "=B14-B28"; Str "=B33*12"; Str "Current tools - Plannetic"];
    [Str "Hours Saved per Client"; Str "=B20*B21"; Str "=B34*12"; Str "Hours × automation %"];
    [Str "Clients per Month"; Str "=B23"; Str "=B35*12"; Str "From inputs"];
    [Str "Total Hours Saved"; Str "=B34*B35"; Str "=B36*12"; Str "Hours × clients"];
    [Str "Value of Time Saved"; Str "=B36*B22"; Str "=B37*12"; Str "Hours × rate"];
    [Str ""; Str ""; Str ""; Str ""];
    [Str "TOTAL MONTHLY BENEFIT"; Str "=B33+B37"; Str "=B39*12"; Str "Software + time savings"];
    [Str "Plannetic Cost"; Str "=B28"; Str "=B28*12"; Str "Your subscription"];
    [Str "NET BENEFIT"; Str "=B39-B40"; Str "=B41*12"; Str "Benefit - cost"];
    [Str "ROI %"; Str "=B41/B40*100"; Str "=C41/C40*100"; Str "(Benefit-Cost)/Cost"]
  ].

(** Lines 655-672. *)
Definition results_style (row_idx col_idx : positive) (value : Value) : list Attr :=
  (if (row_idx =? 33)%positive
   then [font_ header_font; fill_ header_fill]
   else [font_ normal_font]
        ++ (if row_in col_idx [2; 3]%positive && Val.truthy value && negb (eq_str value "")
            then (if (row_idx =? 44)%positive then [number_format_ ("0.0" +:+ DQ +:+ "%" +:+ DQ)]
                  else if row_in row_idx [35; 36; 37]%positive then [number_format_ "0.0"]
                  else [number_format_ pounds])
            else []))
  ++ [border_ thin_border]
  ++ (if row_in row_idx [39; 41; 43; 44]%positive
      then [fill_ highlight_fill; font_ bold_font] else []).

(** Lines 675-696: the bar chart of the savings.  The chart object is
    created before the cells of lines 681-688 are written; it is given its
    data only afterwards, and no chart statement reads a cell. *)
Definition chart4 (ws_roi : Worksheet) : Chart :=
  let data4 := Reference_ ws_roi 7 33 None (Some 35%positive) in
  let cats4 := Reference_ ws_roi 6 34 None (Some 35%positive) in
  chart_block BarChart [
    set_chart (type_ "col");
    set_chart (style_ 10);
    set_chart (title_ "Monthly Savings Breakdown");
    add_data data4 true;
    set_categories cats4;
    set_chart (width_ 10);
    set_chart (height_ 8);
    set_chart no_legend_
  ].

Definition roi_calculator (ws_roi : Worksheet) : Result Worksheet :=
  Ok (block [
    setitem (xl Col.A 1) (Str "CLIENT ROI CALCULATOR");
    setattr (xl Col.A 1) (font_ title_font);
    merge_cells "A1:D1";
    setitem (xl Col.A 2) (Str "Calculate the ROI for your prospective clients");
    setattr (xl Col.A 2) (font_ small_font);
    setitem (xl Col.A 4) (Str "CURRENT TOOL COSTS (Edit yellow cells)");
    setattr (xl Col.A 4) (font_ subheader_font);
    write_data_rows inputs_style 6 1 inputs;
    setitem (xl Col.A 14) (Str "TOTAL CURRENT MONTHLY COST");
    setattr (xl Col.A 14) (font_ bold_font);
    setitem (xl Col.B 14) (Str "=SUM(B7:B13)");
    setattr (xl Col.B 14) (number_format_ pounds);
    setattr (xl Col.B 14) (font_ bold_font);
    setattr (xl Col.A 14) (fill_ blue_fill);
    setattr (xl Col.B 14) (fill_ blue_fill);
    setattr (xl Col.A 14) (border_ thin_border);
    setattr (xl Col.B 14) (border_ thin_border);
    setitem (xl Col.A 17) (Str "TIME SAVINGS (Edit yellow cells)");
    setattr (xl Col.A 17) (font_ subheader_font);
    write_data_rows time_inputs_style 19 1 time_inputs;
    setitem (xl Col.A 26) (Str "PLANNETIC COST");
    setattr (xl Col.A 26) (font_ subheader_font);
    setitem (xl Col.A 28) (Str "Plannetic Monthly Cost");
    input_cell (xl Col.B 28) (Int 250) pounds;
    setattr (xl Col.A 28) (border_ thin_border);
    setitem (xl Col.A 31) (Str "ROI ANALYSIS");
    setattr (xl Col.A 31) (font_ subheader_font);
    write_data_rows results_style 33 1 results;
    setitem (xl Col.F 33) (Str "Category");
    setitem (xl Col.G 33) (Str "Value");
    setitem (xl Col.F 34) (Str "Software Savings");
    setitem (xl Col.G 34) (Str "=B33");
    setitem (xl Col.F 35) (Str "Time Value Saved");
    setitem (xl Col.G 35) (Str "=B37");
    setattr (xl Col.G 34) (number_format_ pounds);
    setattr (xl Col.G 35) (number_format_ pounds);
    (fun ws => add_chart (chart4 ws) "E17" ws);
    set_width "A" 32;
    set_width "B" 15;
    set_width "C" 15;
    set_width "D" 25
  ] ws_roi).

(** *** Sheet 6: Tier Comparison (lines 709-778) *)

Definition tier_headers : list Value :=
  [Str "Feature"; Str "Standard £250/mo"; Str "Professional £300/mo"; Str "Enterprise (Custom)"].

Definition features : list (list Value) :=
  [
    [Str "CORE FEATURES"; Str ""; Str ""; Str ""];
    [Str "Client Management Hub"; Str "✓"; Str "✓"; Str "✓"];
    [Str "All 6 Assessment Types"; Str "✓"; Str "✓"; Str "✓"];
    [Str "Unlimited Clients"; Str "✓"; Str "✓"; Str "✓"];
    [Str "Document Generation"; Str "✓"; Str "✓"; Str "✓"];
    [Str "E-Signatures"; Str "Fair Use"; Str "Unlimited"; Str "Unlimited"];
    [Str "FCA Compliance Registers"; Str "✓"; Str "✓"; Str "✓"];
    [Str "Consumer Duty Workflows"; Str "✓"; Str "✓"; Str "✓"];
    [Str ""; Str ""; Str ""; Str ""];
    [Str "PREMIUM FEATURES"; Str ""; Str ""; Str ""];
    [Str "AI Enhancement"; Str "—"; Str "✓"; Str "✓"];
    [Str "Priority Support (4hr SLA)"; Str "—"; Str "✓"; Str "✓"];
    [Str "Phone Support"; Str "—"; Str "✓"; Str "✓"];
    [Str "White-label Client Portal"; Str "—"; Str "✓"; Str "✓"];
    [Str "Advanced Analytics"; Str "—"; Str "✓"; Str "✓"];
    [Str "API Access"; Str "—"; Str "—"; Str "✓"];
    [Str "Custom Integrations"; Str "—"; Str "—"; Str "✓"];
    [Str "Dedicated Account Manager"; Str "—"; Str "—"; Str "✓"];
    [Str ""; Str ""; Str ""; Str ""];
    [Str "ONBOARDING"; Str ""; Str ""; Str ""];
    [Str "Data Migration"; Str "Self-serve"; Str "Assisted"; Str "Full Service"];
    [Str "Training Sessions"; Str "2 calls"; Str "4 calls"; Str "Unlimited"];
    [Str ""; Str ""; Str ""; Str ""];
    [Str "CONTRACT"; Str ""; Str ""; Str ""];
    [Str "Minimum Commitment"; Str "2 years"; Str "2 years"; Str "3 years"];
    [Str "2-Year TCV"; Str "=250*24"; Str "=300*24"; Str "Custom"];
    [Str "3-Year TCV"; Str "=250*36"; Str "=300*36"; Str "Custom"]
  ].

(** Lines 756-772. *)
Definition features_style (row_idx col_idx : positive) (value : Value) : list Attr :=
  [border_ thin_border;
   alignment_ (if (1 <? col_idx)%positive then center else left)]
  ++ (if in_strs value ["CORE FEATURES"; "PREMIUM FEATURES"; "ONBOARDING"; "CONTRACT"]
      then [font_ section_font; fill_ blue_fill]
      else if eq_str value "✓"
      then [font_ (mkFont (Some "Calibri") (Some 10%Z) true (Some "059669"))]
      else if eq_str value "—"
      then [font_ (mkFont (Some "Calibri") (Some 10%Z) false (Some "9CA3AF"))]
      else [font_ normal_font])
  ++ (if row_in row_idx [29; 30]%positive && row_in col_idx [2; 3]%positive
      then [number_format_ pounds] else []).

Definition tier_comparison (ws_tiers : Worksheet) : Result Worksheet :=
  Ok (block [
    setitem (xl Col.A 1) (Str "PLANNETIC PRICING TIERS");
    setattr (xl Col.A 1) (font_ title_font);
    merge_cells "A1:D1";
    write_header_row header_style 3 1 tier_headers;
    write_data_rows features_style 4 1 features;
    set_width "A" 28;
    set_width "B" 20;
    set_width "C" 20;
    set_width "D" 20
  ] ws_tiers).

(** The script up to [wb.save(output_path)]. *)
Definition build (env : Env) : Result Workbook :=
  let wb := Workbook_ in
  let ws_summary := active wb in
  wb ← set_title ws_summary "Summary" wb;
  wb ← on_sheet ws_summary summary wb;
  '(wb, ws_comp) ← create_sheet "Competitor Pricing" wb;
  wb ← on_sheet ws_comp competitor_pricing wb;
  '(wb, ws_calc) ← create_sheet "Revenue Calculator" wb;
  wb ← on_sheet ws_calc revenue_calculator wb;
  '(wb, ws_growth) ← create_sheet "Growth Projections" wb;
  wb ← on_sheet ws_growth growth_projections wb;
  '(wb, ws_roi) ← create_sheet "ROI Calculator" wb;
  wb ← on_sheet ws_roi roi_calculator wb;
  '(wb, ws_tiers) ← create_sheet "Tier Comparison" wb;
  on_sheet ws_tiers tier_comparison wb.

Definition output_path : string :=
  "/Users/adeomosanya/Downloads/Plannetic-Pricing-Analysis-v2.xlsx".

End PricingV2.


(** ** [ifa-platform/create-pricing-excel-v3.py] *)

Module PricingV3.
Import Openpyxl Table Py Val.

Definition title_font : Font := mkFont (Some "Calibri") (Some 20%Z) true (Some "1E40AF").
Definition header_font : Font := mkFont (Some "Calibri") (Some 11%Z) true (Some "FFFFFF").
Definition subheader_font : Font := mkFont (Some "Calibri") (Some 13%Z) true (Some "1E40AF").
Definition section_font : Font := mkFont (Some "Calibri") (Some 11%Z) true (Some "374151").
Definition normal_font : Font := mkFont (Some "Calibri") (Some 10%Z) false None.
Definition small_font : Font := mkFont (Some "Calibri") (Some 9%Z) false (Some "6B7280").
Definition bold_font : Font := mkFont (Some "Calibri") (Some 10%Z) true None.

Definition header_fill : PatternFill := solid "1E40AF".
Definition alt_fill : PatternFill := solid "F3F4F6".
Definition highlight_fill : PatternFill := solid "DCFCE7".
Definition input_fill : PatternFill := solid "FEF3C7".
Definition blue_fill : PatternFill := solid "DBEAFE".
Definition green_fill : PatternFill := solid "D1FAE5".

Definition thin_border : Border := box (mkSide (Some "thin") (Some "D1D5DB")).
Definition center : Alignment := mkAlignment (Some "center") None false.
Definition left : Alignment := mkAlignment (Some "left") None false.
Definition pounds : string := "£#,##0".

(** The styling every header loop of the script applies. *)
Definition header_style (row col : positive) (header : Value) : list Attr :=
  [font_ header_font; fill_ header_fill; alignment_ center; border_ thin_border].

(** *** Sheet 1: Summary (lines 44-155) *)

Definition summary_text : list string :=
  ["Plannetic is a comprehensive, compliance-focused financial advisory platform"; "designed specifically for UK-regulated Independent Financial Advisors (IFAs)."; ""; "Key Value Proposition:"; "• Replaces 5-7 separate tools with one integrated platform"; "• Saves IFAs £280+/month vs competitor tool stack (£530 → £250)"; "• Saves 10-20 hours per client onboarding"; "• Built-in FCA compliance and Consumer Duty workflows"].

Definition cost_headers : list Value :=
  [Str "Category"; Str "Cost (£/mo)"].

(** Lines 78-81 (and 386-389, 541-544): a header loop without
    alignment. *)
Definition plain_header_style (row col : positive) (header : Value) : list Attr :=
  [font_ header_font; fill_ header_fill; border_ thin_border].

(** Lines 83-88; the loop unpacks every row into [(label, value)]. *)
Definition cost_data : list (Value * Value) :=
  [(Str "Competitor Stack", Int 530);
   (Str "Plannetic Standard", Int 250);
   (Str "Plannetic Professional", Int 300);
   (Str "Monthly Savings", Int 280)].

(** Lines 91-97: the body of the loop over the cost rows. *)
Definition cost_row (row_idx : positive) (label value : Value) : Worksheet -> Worksheet :=
  block [
    put row_idx 1 label [border_ thin_border];
    put row_idx 2 value [number_format_ pounds; border_ thin_border];
    if (row_idx =? 22)%positive
    then block [
      assign row_idx 1 (fill_ highlight_fill);
      assign row_idx 2 (fill_ highlight_fill)]
    else (fun ws => ws)
  ].

(** Lines 100-113: the bar chart of the cost comparison. *)
Definition chart_summary (ws_summary : Worksheet) : Chart :=
  let data_summary := Reference_ ws_summary 2 18 None (Some 21%positive) in
  let cats_summary := Reference_ ws_summary 1 19 None (Some 21%positive) in
  chart_block BarChart [
    set_chart (type_ "col");
    set_chart (style_ 10);
    set_chart (title_ "Monthly Cost: Competitors vs Plannetic");
    set_chart (y_title_ "£ per month");
    set_chart (y_numFmt_ pounds);
    add_data data_summary true;
    set_categories cats_summary;
    set_chart (width_ 12);
    set_chart (height_ 8);
    set_chart no_legend_
  ].

Definition pricing_headers : list Value :=
  [Str "Tier"; Str "Monthly"; Str "Commitment"; Str "2-Year TCV"; Str "3-Year TCV"; Str "Best For"].

Definition pricing_data : list (list Value) :=
  [
    [Str "Monthly"; Int 350; Str "Month-to-month"; Str "=B28*24"; Str "=B28*36"; Str "Trial/uncertain firms"];
    [Str "Standard"; Int 250; Str "2-year"; Str "=B29*24"; Str "=B29*36"; Str "Solo advisors, small firms"];
    [Str "Professional"; Int 300; Str "2-year"; Str "=B30*24"; Str "=B30*36"; Str "Growing firms, AI + support"];
    [Str "Enterprise"; Str "Custom"; Str "3-year"; Str "Custom"; Str "Custom"; Str "5+ advisors, white-label"]
  ].

(** Lines 139-147. *)
Definition pricing_style (row_idx col_idx : positive) (value : Value) : list Attr :=
  [font_ normal_font; border_ thin_border; alignment_ center]
  ++ (if (mod2 row_idx =? 1)%Z then [fill_ alt_fill] else [])
  ++ (if (col_idx =? 2)%positive && is_int value then [number_format_ pounds] else [])
  ++ (if row_in col_idx [4; 5]%positive && str_startswith "=" value
      then [number_format_ pounds] else []).

Definition summary (ws_summary : Worksheet) : Result Worksheet :=
  Ok (block [
    setitem (xl Col.A 1) (Str "PLANNETIC PRICING ANALYSIS");
    setattr (xl Col.A 1) (font_ title_font);
    merge_cells "A1:F1";
    setitem (xl Col.A 2) (Str "Verified December 2025");
    setattr (xl Col.A 2) (font_ small_font);
    setitem (xl Col.A 4) (Str "What is Plannetic?");
    setattr (xl Col.A 4) (font_ subheader_font);
    for_ (enumerate summary_text 6)
         (fun '(i, text) => block [
            setitem (xl Col.A i) (Str text);
            setattr (xl Col.A i) (font_ normal_font)]);
    setitem (xl Col.A 16) (Str "Cost Comparison");
    setattr (xl Col.A 16) (font_ subheader_font);
    write_header_row plain_header_style 18 1 cost_headers;
    for_ (enumerate cost_data 19)
         (fun '(row_idx, (label, value)) => cost_row row_idx label value);
    (fun ws => add_chart (chart_summary ws) "D16" ws);
    setitem (xl Col.A 25) (Str "Recommended Pricing Tiers");
    setattr (xl Col.A 25) (font_ subheader_font);
    write_header_row header_style 27 1 pricing_headers;
    write_data_rows pricing_style 28 1 pricing_data;
    set_width "A" 25;
    set_width "B" 12;
    set_width "C" 18;
    set_width "D" 14;
    set_width "E" 14;
    set_width "F" 26
  ] ws_summary).

(** *** Sheet 2: Competitor Pricing (lines 160-299) *)

Definition comp_headers : list Value :=
  [Str "Software"; Str "Monthly Price"; Str "Price Type"; Str "What They Offer"; Str "Source"].

Definition competitors : list (list Value) :=
  [
    [Str "Intelliflo Office"; Int 132; Str "Per user"; Str "Back office + cashflow"; Str "TrustRadius"];
    [Str "Voyant AdviserGo"; Int 175; Str "Flat fee"; Str "Cash flow planning"; Str "voyant.com"];
    [Str "Timeline"; Int 162; Str "Flat (+VAT)"; Str "Monte Carlo simulations"; Str "timeline.co"];
    [Str "FE CashCalc"; Int 90; Str "Per adviser (+VAT)"; Str "Cash flow modelling"; Str "advisoryai.com"];
    [Str "Dynamic Planner"; Int 200; Str "Estimated"; Str "Risk profiling + reports"; Str "Contact required"];
    [Str "Plannetic Standard"; Int 250; Str "Flat fee"; Str "ALL-IN-ONE PLATFORM"; Str "Your price"]
  ].

(** Lines 192-200. *)
Definition competitors_style (row_idx col_idx : positive) (value : Value) : list Attr :=
  [font_ normal_font; border_ thin_border]
  ++ (if (col_idx =? 2)%positive then [number_format_ pounds] else [])
  ++ (if (row_idx =? 12)%positive
      then [fill_ highlight_fill; font_ bold_font]
      else if (mod2 row_idx =? 0)%Z then [fill_ alt_fill] else []).

(** Lines 203-216: the bar chart of the competitor prices. *)
Definition chart1 (ws_comp : Worksheet) : Chart :=
  let data := Reference_ ws_comp 2 6 None (Some 12%positive) in
  let cats := Reference_ ws_comp 1 7 None (Some 12%positive) in
  chart_block BarChart [
    set_chart (type_ "col");
    set_chart (style_ 10);
    set_chart (title_ "Monthly Software Costs Comparison");
    set_chart (y_title_ "£ per month");
    set_chart (y_numFmt_ pounds);
    add_data data true;
    set_categories cats;
    set_chart (width_ 14);
    set_chart (height_ 10);
    set_chart no_legend_
  ].

Definition stack_headers : list Value :=
  [Str "Tool Category"; Str "Standalone Cost"; Str "Plannetic"; Str "Savings"].

Definition stack_data : list (list Value) :=
  [
    [Str "CRM (generic)"; Int 50; Str "Included"; Str "=B35"];
    [Str "Risk Profiling"; Int 50; Str "Included"; Str "=B36"];
    [Str "Cash Flow (Voyant)"; Int 175; Str "Included"; Str "=B37"];
    [Str "Monte Carlo (Timeline)"; Int 162; Str "Included"; Str "=B38"];
    [Str "Document Generation"; Int 50; Str "Included"; Str "=B39"];
    [Str "E-Signatures"; Int 23; Str "Included"; Str "=B40"];
    [Str "Compliance Tracking"; Int 50; Str "Included"; Str "=B41"]
  ].

(** Lines 245-248. *)
Definition stack_style (row_idx col_idx : positive) (value : Value) : list Attr :=
  [font_ normal_font; border_ thin_border]
  ++ (if row_in col_idx [2; 4]%positive then [number_format_ pounds] else []).

(** Lines 256-262: the styling of the total row. *)
Definition total_row : Worksheet -> Worksheet :=
  for_ (range 1 5)
       (fun col => block [
          assign 42 col (font_ bold_font);
          assign 42 col (fill_ highlight_fill);
          assign 42 col (border_ thin_border);
          if row_in col [2; 4]%positive
          then assign 42 col (number_format_ pounds)
          else (fun ws => ws)]).

(** Lines 265-277: the pie chart of the tool stack. *)
Definition chart2 (ws_comp : Worksheet) : Chart :=
  let data2 := Reference_ ws_comp 2 35 None (Some 41%positive) in
  let labels2 := Reference_ ws_comp 1 35 None (Some 41%positive) in
  chart_block PieChart [
    set_chart (title_ "Tool Stack Cost Breakdown");
    add_data data2 false;
    set_categories labels2;
    set_chart (width_ 11);
    set_chart (height_ 9);
    set_chart (dataLabels_ (mkDataLabelList (Some true) (Some false) (Some false)))
  ].

Definition sources : list string :=
  ["• Voyant: planwithvoyant.com/uk/pricing"; "• Timeline: timeline.co (£135+VAT = £162)"; "• CashCalc: advisoryai.com (£75+VAT = £90)"; "• Intelliflo: trustradius.com (£130-135/user)"].

Definition competitor_pricing (ws_comp : Worksheet) : Result Worksheet :=
  Ok (block [
    setitem (xl Col.A 1) (Str "COMPETITOR PRICING ANALYSIS");
    setattr (xl Col.A 1) (font_ title_font);
    merge_cells "A1:E1";
    setitem (xl Col.A 2) (Str "Verified December 2025 - Sources linked below");
    setattr (xl Col.A 2) (font_ small_font);
    setitem (xl Col.A 4) (Str "UK IFA Software Market - Verified Pricing");
    setattr (xl Col.A 4) (font_ subheader_font);
    write_header_row header_style 6 1 comp_headers;
    write_data_rows competitors_style 7 1 competitors;
    (fun ws => add_chart (chart1 ws) "A15" ws);
    setitem (xl Col.A 32) (Str "Typical IFA Tool Stack vs Plannetic");
    setattr (xl Col.A 32) (font_ subheader_font);
    write_header_row header_style 34 1 stack_headers;
    write_data_rows stack_style 35 1 stack_data;
    setitem (xl Col.A 42) (Str "TOTAL");
    setitem (xl Col.B 42) (Str "=SUM(B35:B41)");
    setitem (xl Col.C 42) (Str "£250/mo");
    setitem (xl Col.D 42) (Str "=B42-250");
    total_row;
    (fun ws => add_chart (chart2 ws) "F32" ws);
    setitem (xl Col.A 45) (Str "Sources:");
    setattr (xl Col.A 45) (font_ section_font);
    for_ (enumerate sources 46)
         (fun '(i, source) => block [
            setitem (xl Col.A i) (Str source);
            setattr (xl Col.A i) (font_ small_font)]);
    set_width "A" 22;
    set_width "B" 15;
    set_width "C" 18;
    set_width "D" 12;
    set_width "E" 18
  ] ws_comp).

(** *** Sheet 3: Revenue Calculator (lines 304-419) *)

Definition calc_headers : list Value :=
  [Str "# Firms"; Str "£250/mo (2yr)"; Str "£300/mo (2yr)"; Str "£250/mo (3yr)"; Str "£300/mo (3yr)"; Str "Difference"; Str "Avg MRR"].

Definition firm_counts : list Z :=
  [1; 2; 3; 4; 5; 10; 15; 20; 25; 50; 75; 100; 150; 200; 250; 300]%Z.

(** Lines 374-377: the alternate fill of the cells still without one. *)
Definition alt_fill_row (row_idx : positive) : Worksheet -> Worksheet :=
  if (mod2 row_idx =? 0)%Z
  then for_ (range 1 6)
            (fun c ws =>
               if negb (Py.truthy (fill_rgb (_get_cell row_idx c ws)))
                  || String.eqb (fill_rgb (_get_cell row_idx c ws)) "00000000"
               then assign row_idx c (fill_ alt_fill) ws
               else ws)
  else (fun ws => ws).

(** Lines 346-377: the body of the loop over the firm counts. *)
Definition revenue_row (row_idx : positive) (firms : Z) : Worksheet -> Worksheet :=
  block [
    put row_idx 1 (Int firms) [border_ thin_border];
    assign row_idx 1 (alignment_ center);
    put row_idx 2 (Str ("=A" +:+ str row_idx +:+ "*$B$5*24"))
        [number_format_ pounds; border_ thin_border];
    put row_idx 3 (Str ("=A" +:+ str row_idx +:+ "*$B$6*24"))
        [number_format_ pounds; border_ thin_border];
    put row_idx 4 (Str ("=A" +:+ str row_idx +:+ "*$B$5*36"))
        [number_format_ pounds; border_ thin_border];
    put row_idx 5 (Str ("=A" +:+ str row_idx +:+ "*$B$6*36"))
        [number_format_ pounds; border_ thin_border];
    put row_idx 6 (Str ("=E" +:+ str row_idx +:+ "-B" +:+ str row_idx))
        [number_format_ pounds; border_ thin_border; fill_ highlight_fill];
    put row_idx 7 (Str ("=A" +:+ str row_idx +:+ "*($B$5+$B$6)/2"))
        [number_format_ pounds; border_ thin_border];
    alt_fill_row row_idx
  ].

(** Lines 345-377. *)
Definition revenue_rows (firm_counts : list Z) : Worksheet -> Worksheet :=
  for_ (enumerate firm_counts 13) (fun '(row_idx, firms) => revenue_row row_idx firms).

(** An input cell: value, number format, fill, border (lines 315-330). *)
Definition input_cell (k : positive * positive) (v : Value) (fmt : string)
  : Worksheet -> Worksheet :=
  block [
    setitem k v;
    setattr k (number_format_ fmt);
    setattr k (fill_ input_fill);
    setattr k (border_ thin_border)
  ].

Definition chart_data_headers : list Value :=
  [Str "Firms"; Str "2yr @ £250"; Str "3yr @ £300"].

(** Line 391: [(firms, row in main table)]. *)
Definition milestones : list (Z * positive) :=
  [(10%Z, 17%positive); (25%Z, 20%positive); (50%Z, 21%positive); (100%Z, 24%positive)].

(** Lines 393-398: the body of the loop over the milestones. *)
Definition milestone_row (i : N) (firms : Z) (src_row : positive) : Worksheet -> Worksheet :=
  let row := plus 12 i in
  block [
    put row 9 (Int firms) [border_ thin_border];
    put row 10 (Str ("=B" +:+ str src_row)) [border_ thin_border];
    assign row 10 (number_format_ pounds);
    put row 11 (Str ("=E" +:+ str src_row)) [border_ thin_border];
    assign row 11 (number_format_ pounds)
  ].

(** Lines 401-413: the line chart of the revenue milestones. *)
Definition chart_rev (ws_calc : Worksheet) : Chart :=
  let data_rev := Reference_ ws_calc 10 11 (Some 11%positive) (Some 15%positive) in
  let cats_rev := Reference_ ws_calc 9 12 None (Some 15%positive) in
  chart_block LineChart [
    set_chart (title_ "Total Contract Value by # of Firms");
    set_chart (style_ 10);
    set_chart (y_title_ "Total Contract Value (£)");
    set_chart (x_title_ (Some "Number of Firms"));
    set_chart (y_numFmt_ pounds);
    add_data data_rev true;
    set_categories cats_rev;
    set_chart (width_ 12);
    set_chart (height_ 9)
  ].

Definition revenue_calculator (ws_calc : Worksheet) : Result Worksheet :=
  let ws_calc := block [
    setitem (xl Col.A 1) (Str "REVENUE CALCULATOR");
    setattr (xl Col.A 1) (font_ title_font);
    merge_cells "A1:G1";
    setitem (xl Col.A 3) (Str "INPUT PARAMETERS (Edit yellow cells)");
    setattr (xl Col.A 3) (font_ subheader_font);
    setitem (xl Col.A 5) (Str "Standard Monthly Rate (£)");
    input_cell (xl Col.B 5) (Int 250) pounds;
    setitem (xl Col.A 6) (Str "Professional Monthly Rate (£)");
    input_cell (xl Col.B 6) (Int 300) pounds;
    setitem (xl Col.A 7) (Str "Monthly Rate (no commitment) (£)");
    input_cell (xl Col.B 7) (Int 350) pounds;
    setitem (xl Col.A 10) (Str "REVENUE BY NUMBER OF FIRMS");
    setattr (xl Col.A 10) (font_ subheader_font);
    write_header_row header_style 12 1 calc_headers;
    revenue_rows firm_counts;
    setitem (xl Col.I 10) (Str "Revenue Milestones (for chart)");
    setattr (xl Col.I 10) (font_ section_font);
    write_header_row plain_header_style 11 9 chart_data_headers;
    for_ (enumerate0 milestones 0)
         (fun '(i, (firms, src_row)) => milestone_row i firms src_row);
    (fun ws => add_chart (chart_rev ws) "I17" ws)
  ] ws_calc in
  for_M (range 1 12) (fun col => set_width_at col 15) ws_calc.

(** *** Sheet 4: Growth Projections (lines 424-575) *)

Definition growth_headers : list Value :=
  [Str "Year"; Str "New Firms"; Str "Churn"; Str "Total Firms"; Str "MRR"; Str "ARR"].

Definition conservative_new : list Z := [10; 10; 15; 20; 25]%Z.
Definition moderate_new : list Z := [25; 35; 45; 60; 75]%Z.
Definition aggressive_new : list Z := [50; 70; 100; 130; 150]%Z.

(** Lines 461-475 (and again 490-504, 519-533): the body of a scenario
    loop, [base] being 11, 20 or 29. *)
Definition scenario_row (base : positive) (i : N) (new_firms : Z) : Worksheet -> Worksheet :=
  let row := plus base i in
  block [
    put row 1 (Int (Z.of_N i + 1)) [border_ thin_border];
    put row 2 (Int new_firms) [border_ thin_border];
    if (i =? 0)%N
    then block [
      put row 3 (Int 0) [border_ thin_border];
      put row 4 (Str ("=B" +:+ str row)) [border_ thin_border]]
    else block [
      put row 3 (Str ("=ROUND(D" +:+ str (Pos.pred row) +:+ "*$B$6,0)")) [border_ thin_border];
      put row 4 (Str ("=D" +:+ str (Pos.pred row) +:+ "+B" +:+ str row +:+ "-C" +:+ str row))
          [border_ thin_border]];
    put row 5 (Str ("=D" +:+ str row +:+ "*$B$5")) [border_ thin_border];
    assign row 5 (number_format_ pounds);
    put row 6 (Str ("=E" +:+ str row +:+ "*12")) [border_ thin_border];
    assign row 6 (number_format_ pounds);
    for_ (range 1 7) (fun col => assign row col (alignment_ center))
  ].

(** Lines 460-475, 489-504, 518-533. *)
Definition scenario_rows (base : positive) (new : list Z) : Worksheet -> Worksheet :=
  for_ (enumerate0 new 0) (fun '(i, new_firms) => scenario_row base i new_firms).

Definition chart_headers : list Value :=
  [Str "Year"; Str "Conservative"; Str "Moderate"; Str "Aggressive"].

(** Lines 547-554: the body of the loop that fills the chart table. *)
Definition chart_row (i : N) : Worksheet -> Worksheet :=
  let row := plus 5 i in
  block [
    put row 8 (Int (Z.of_N i + 1)) [border_ thin_border];
    put row 9 (Str ("=F" +:+ str (plus 11 i))) [border_ thin_border];
    assign row 9 (number_format_ pounds);
    put row 10 (Str ("=F" +:+ str (plus 20 i))) [border_ thin_border];
    assign row 10 (number_format_ pounds);
    put row 11 (Str ("=F" +:+ str (plus 29 i))) [border_ thin_border];
    assign row 11 (number_format_ pounds)
  ].

(** Lines 546-554. *)
Definition chart_rows : Worksheet -> Worksheet :=
  for_ (range0 5) chart_row.

(** Lines 557-569: the line chart of the three scenarios. *)
Definition chart3 (ws_growth : Worksheet) : Chart :=
  let data3 := Reference_ ws_growth 9 4 (Some 11%positive) (Some 9%positive) in
  let cats3 := Reference_ ws_growth 8 5 None (Some 9%positive) in
  chart_block LineChart [
    set_chart (title_ "ARR Growth Projections");
    set_chart (style_ 10);
    set_chart (y_title_ "Annual Recurring Revenue (£)");
    set_chart (x_title_ (Some "Year"));
    set_chart (y_numFmt_ pounds);
    add_data data3 true;
    set_categories cats3;
    set_chart (width_ 14);
    set_chart (height_ 10)
  ].

Definition growth_projections (ws_growth : Worksheet) : Result Worksheet :=
  let ws_growth := block [
    setitem (xl Col.A 1) (Str "GROWTH PROJECTIONS");
    setattr (xl Col.A 1) (font_ title_font);
    merge_cells "A1:F1";
    setitem (xl Col.A 3) (Str "SCENARIO INPUTS (Edit yellow cells)");
    setattr (xl Col.A 3) (font_ subheader_font);
    setitem (xl Col.A 5) (Str "Monthly Rate (£)");
    input_cell (xl Col.B 5) (Int 250) pounds;
    setitem (xl Col.A 6) (Str "Annual Churn Rate (%)");
    input_cell (xl Col.B 6) (Float 5 (-2)) "0%";
    setitem (xl Col.A 9) (Str "CONSERVATIVE (10 new firms/year)");
    setattr (xl Col.A 9) (font_ section_font);
    write_header_row header_style 10 1 growth_headers;
    scenario_rows 11 conservative_new;
    setitem (xl Col.A 18) (Str "MODERATE (25 new firms/year)");
    setattr (xl Col.A 18) (font_ section_font);
    write_header_row header_style 19 1 growth_headers;
    scenario_rows 20 moderate_new;
    setitem (xl Col.A 27) (Str "AGGRESSIVE (50 new firms/year)");
    setattr (xl Col.A 27) (font_ section_font);
    write_header_row header_style 28 1 growth_headers;
    scenario_rows 29 aggressive_new;
    setitem (xl Col.H 3) (Str "ARR Comparison (for chart)");
    setattr (xl Col.H 3) (font_ section_font);
    write_header_row plain_header_style 4 8 chart_headers;
    chart_rows;
    (fun ws => add_chart (chart3 ws) "H12" ws)
  ] ws_growth in
  for_M (range 1 12) (fun col => set_width_at col 14) ws_growth.

(** *** Sheet 5: ROI Calculator (lines 580-773) *)

Definition inputs : list (list Value) :=
  [
    [Str "Tool"; Str "Monthly Cost"; Str "Notes"];
    [Str "CRM (generic)"; Int 50; Str "Salesforce/HubSpot equivalent"];
    [Str "Risk Profiling Tool"; Int 50; Str "Dynamic Planner element"];
    [Str "Cash Flow (Voyant)"; Int 175; Str "Verified Dec 2025"];
    [Str "Monte Carlo (Timeline)"; Int 162; Str "Verified Dec 2025 (£135+VAT)"];
    [Str "Document Generation"; Int 50; Str "Word templates/Templafy"];
    [Str "E-Signatures"; Int 23; Str "DocuSign/Adobe Sign"];
    [Str "Compliance Tracking"; Int 50; Str "Manual/specialist tool"]
  ].

(** Lines 606-614. *)
Definition inputs_style (row_idx col_idx : positive) (value : Value) : list Attr :=
  (if (row_idx =? 6)%positive
   then [font_ header_font; fill_ header_fill]
   else [font_ normal_font]
        ++ (if (col_idx =? 2)%positive
            then [fill_ input_fill; number_format_ pounds] else []))
  ++ [border_ thin_border].

Definition time_inputs : list (list Value) :=
  [
    [Str "Metric"; Str "Value"; Str "Notes"];
    [Str "Hours per client onboarding (current)"; Int 15; Str "Manual process"];
    [Str "Time saved with Plannetic (%)"; Float 6 (-1); Str "60% automation"];
    [Str "Your hourly rate (£)"; Int 100; Str "Advisor charge-out rate"];
    [Str "New clients per month"; Int 4; Str "Average new clients"]
  ].

(** Lines 642-653. *)
Definition time_inputs_style (row_idx col_idx : positive) (value : Value) : list Attr :=
  (if (row_idx =? 19)%positive
   then [font_ header_font; fill_ header_fill]
   else [font_ normal_font]
        ++ (if (col_idx =? 2)%positive
            then [fill_ input_fill]
                 ++ (if (row_idx =? 21)%positive then [number_format_ "0%"]
                     else if (row_idx =? 22)%positive then [number_format_ pounds]
                     else [])
            else []))
  ++ [border_ thin_border].

Definition results : list (list Value) :=
  [
    [Str "Metric"; Str "Monthly"; Str "Annual"];
    [Str "Software Savings"; Str "=B14-B28"; Str "=B33*12"];
    [Str "Hours Saved per Client"; Str "=B20*B21"; Str ""];
    [Str "Total Hours Saved (all clients)"; Str "=B34*B23"; Str "=B35*12"];
    [Str "Value of Time Saved"; Str "=B35*B22"; Str "=B36*12"];
    [Str ""; Str ""; Str ""];
    [Str "TOTAL BENEFIT"; Str "=B33+B36"; Str "=B38*12"];
    [Str "Plannetic Cost"; Str "=B28"; Str "=B28*12"];
    [Str "NET BENEFIT"; Str "=B38-B39"; Str "=B40*12"];
    [Str "ROI %"; Str "=(B40/B39)*100"; Str ""]
  ].

(** Lines 686-702. *)
Definition results_style (row_idx col_idx : positive) (value : Value) : list Attr :=
  (if (row_idx =? 33)%positive
   then [font_ header_font; fill_ header_fill]
   else [font_ normal_font]
        ++ (if row_in col_idx [2; 3]%positive && Val.truthy value
            then (if (row_idx =? 43)%positive then [number_format_ ("0" +:+ DQ +:+ "%" +:+ DQ)]
                  else if row_in row_idx [34; 35; 36]%positive then [number_format_ "0.0"]
                  else [number_format_ pounds])
            else []))
  ++ [border_ thin_border]
  ++ (if row_in row_idx [38; 40; 41; 43]%positive
      then [fill_ highlight_fill; font_ bold_font] else []).

(** Lines 737-745: the styling of the chart table. *)
Definition breakdown_style : Worksheet -> Worksheet :=
  for_ (range 34 39)
       (fun row =>
          for_ (range 5 8)
               (fun col => block [
                  assign row col (border_ thin_border);
                  if row_in col [6; 7]%positive
                  then assign row col (number_format_ pounds)
                  else (fun ws => ws);
                  if (row =? 38)%positive
                  then block [
                    assign row col (fill_ highlight_fill);
                    assign row col (font_ bold_font)]
                  else (fun ws => ws)])).

(** Lines 748-762: the bar chart of benefit and cost. *)
Definition chart_roi (ws_roi : Worksheet) : Chart :=
  let data_roi := Reference_ ws_roi 6 33 None (Some 37%positive) in
  let cats_roi := Reference_ ws_roi 5 34 None (Some 37%positive) in
  chart_block BarChart [
    set_chart (type_ "col");
    set_chart (style_ 10);
    set_chart (title_ "Monthly Value Analysis");
    set_chart (y_title_ "£ per month");
    set_chart (y_numFmt_ pounds);
    add_data data_roi true;
    set_categories cats_roi;
    set_chart (width_ 11);
    set_chart (height_ 9);
    set_chart no_legend_
  ].

Definition roi_calculator (ws_roi : Worksheet) : Result Worksheet :=
  Ok (block [
    setitem (xl Col.A 1) (Str "CLIENT ROI CALCULATOR");
    setattr (xl Col.A 1) (font_ title_font);
    merge_cells "A1:D1";
    setitem (xl Col.A 2) (Str "Calculate the ROI for your prospective clients");
    setattr (xl Col.A 2) (font_ small_font);
    setitem (xl Col.A 4) (Str "CURRENT TOOL COSTS (Edit yellow cells)");
    setattr (xl Col.A 4) (font_ subheader_font);
    write_data_rows inputs_style 6 1 inputs;
    setitem (xl Col.A 14) (Str "TOTAL CURRENT MONTHLY COST");
    setattr (xl Col.A 14) (font_ bold_font);
    setitem (xl Col.B 14) (Str "=SUM(B7:B13)");
    setattr (xl Col.B 14) (number_format_ pounds);
    setattr (xl Col.B 14) (font_ bold_font);
    setattr (xl Col.A 14) (fill_ blue_fill);
    setattr (xl Col.B 14) (fill_ blue_fill);
    setattr (xl Col.A 14) (border_ thin_border);
    setattr (xl Col.B 14) (border_ thin_border);
    setitem (xl Col.A 17) (Str "TIME SAVINGS (Edit yellow cells)");
    setattr (xl Col.A 17) (font_ subheader_font);
    write_data_rows time_inputs_style 19 1 time_inputs;
    setitem (xl Col.A 26) (Str "PLANNETIC COST");
    setattr (xl Col.A 26) (font_ subheader_font);
    setitem (xl Col.A 28) (Str "Plannetic Monthly Cost");
    input_cell (xl Col.B 28) (Int 250) pounds;
    setattr (xl Col.A 28) (border_ thin_border);
    setitem (xl Col.A 31) (Str "ROI ANALYSIS");
    setattr (xl Col.A 31) (font_ subheader_font);
    write_data_rows results_style 33 1 results;
    setitem (xl Col.E 31) (Str "Savings Breakdown");
    setattr (xl Col.E 31) (font_ section_font);
    setitem (xl Col.E 33) (Str "Category");
    setitem (xl Col.F 33) (Str "Monthly");
    setitem (xl Col.G 33) (Str "Annual");
    setattr (xl Col.E 33) (font_ header_font);
    setattr (xl Col.F 33) (font_ header_font);
    setattr (xl Col.G 33) (font_ header_font);
    setattr (xl Col.E 33) (fill_ header_fill);
    setattr (xl Col.F 33) (fill_ header_fill);
    setattr (xl Col.G 33) (fill_ header_fill);
    setattr (xl Col.E 33) (border_ thin_border);
    setattr (xl Col.F 33) (border_ thin_border);
    setattr (xl Col.G 33) (border_ thin_border);
    setitem (xl Col.E 34) (Str "Software Savings");
    setitem (xl Col.F 34) (Str "=B33");
    setitem (xl Col.G 34) (Str "=C33");
    setitem (xl Col.E 35) (Str "Time Value Saved");
    setitem (xl Col.F 35) (Str "=B36");
    setitem (xl Col.G 35) (Str "=C36");
    setitem (xl Col.E 36) (Str "Total Benefit");
    setitem (xl Col.F 36) (Str "=B38");
    setitem (xl Col.G 36) (Str "=C38");
    setitem (xl Col.E 37) (Str "Plannetic Cost");
    setitem (xl Col.F 37) (Str "=B39");
    setitem (xl Col.G 37) (Str "=C39");
    setitem (xl Col.E 38) (Str "Net Benefit");
    setitem (xl Col.F 38) (Str "=B40");
    setitem (xl Col.G 38) (Str "=C40");
    breakdown_style;
    (fun ws => add_chart (chart_roi ws) "E41" ws);
    set_width "A" 32;
    set_width "B" 14;
    set_width "C" 14;
    set_width "D" 8;
    set_width "E" 18;
    set_width "F" 12;
    set_width "G" 12
  ] ws_roi).

(** *** Sheet 6: Tier Comparison (lines 778-845) *)

Definition tier_headers : list Value :=
  [Str "Feature"; Str "Standard £250/mo"; Str "Professional £300/mo"; Str "Enterprise (Custom)"].

Definition features : list (list Value) :=
  [
    [Str "CORE FEATURES"; Str ""; Str ""; Str ""];
    [Str "Client Management Hub"; Str "✓"; Str "✓"; Str "✓"];
    [Str "All 6 Assessment Types"; Str "✓"; Str "✓"; Str "✓"];
    [Str "Unlimited Clients"; Str "✓"; Str "✓"; Str "✓"];
    [Str "Document Generation"; Str "✓"; Str "✓"; Str "✓"];
    [Str "E-Signatures"; Str "Fair Use"; Str "Unlimited"; Str "Unlimited"];
    [Str "FCA Compliance Registers"; Str "✓"; Str "✓"; Str "✓"];
    [Str "Consumer Duty Workflows"; Str "✓"; Str "✓"; Str "✓"];
    [Str ""; Str ""; Str ""; Str ""];
    [Str "PREMIUM FEATURES"; Str ""; Str ""; Str ""];
    [Str "AI Enhancement"; Str "—"; Str "✓"; Str "✓"];
    [Str "Priority Support (4hr SLA)"; Str "—"; Str "✓"; Str "✓"];
    [Str "Phone Support"; Str "—"; Str "✓"; Str "✓"];
    [Str "White-label Client Portal"; Str "—"; Str "✓"; Str "✓"];
    [Str "Advanced Analytics"; Str "—"; Str "✓"; Str "✓"];
    [Str "API Access"; Str "—"; Str "—"; Str "✓"];
    [Str "Custom Integrations"; Str "—"; Str "—"; Str "✓"];
    [Str "Dedicated Account Manager"; Str "—"; Str "—"; Str "✓"];
    [Str ""; Str ""; Str ""; Str ""];
    [Str "ONBOARDING"; Str ""; Str ""; Str ""];
    [Str "Data Migration"; Str "Self-serve"; Str "Assisted"; Str "Full Service"];
    [Str "Training Sessions"; Str "2 calls"; Str "4 calls"; Str "Unlimited"];
    [Str ""; Str ""; Str ""; Str ""];
    [Str "CONTRACT"; Str ""; Str ""; Str ""];
    [Str "Minimum Commitment"; Str "2 years"; Str "2 years"; Str "3 years"];
    [Str "2-Year TCV"; Str "=250*24"; Str "=300*24"; Str "Custom"];
    [Str "3-Year TCV"; Str "=250*36"; Str "=300*36"; Str "Custom"]
  ].

(** Lines 825-839. *)
Definition features_style (row_idx col_idx : positive) (value : Value) : list Attr :=
  [border_ thin_border;
   alignment_ (if (1 <? col_idx)%positive then center else left)]
  ++ (if in_strs value ["CORE FEATURES"; "PREMIUM FEATURES"; "ONBOARDING"; "CONTRACT"]
      then [font_ section_font; fill_ blue_fill]
      else if eq_str value "✓"
      then [font_ (mkFont (Some "Calibri") (Some 10%Z) true (Some "059669"))]
      else if eq_str value "—"
      then [font_ (mkFont (Some "Calibri") (Some 10%Z) false (Some "9CA3AF"))]
      else [font_ normal_font])
  ++ (if row_in row_idx [29; 30]%positive && row_in col_idx [2; 3]%positive
      then [number_format_ pounds] else []).

Definition tier_comparison (ws_tiers : Worksheet) : Result Worksheet :=
  Ok (block [
    setitem (xl Col.A 1) (Str "PLANNETIC PRICING TIERS");
    setattr (xl Col.A 1) (font_ title_font);
    merge_cells "A1:D1";
    write_header_row header_style 3 1 tier_headers;
    write_data_rows features_style 4 1 features;
    set_width "A" 28;
    set_width "B" 20;
    set_width "C" 20;
    set_width "D" 20
  ] ws_tiers).

(** The script up to [wb.save(output_path)]. *)
Definition build (env : Env) : Result Workbook :=
  let wb := Workbook_ in
  let ws_summary := active wb in
  wb ← set_title ws_summary "Summary" wb;
  wb ← on_sheet ws_summary summary wb;
  '(wb, ws_comp) ← create_sheet "Competitor Pricing" wb;
  wb ← on_sheet ws_comp competitor_pricing wb;
  '(wb, ws_calc) ← create_sheet "Revenue Calculator" wb;
  wb ← on_sheet ws_calc revenue_calculator wb;
  '(wb, ws_growth) ← create_sheet "Growth Projections" wb;
  wb ← on_sheet ws_growth growth_projections wb;
  '(wb, ws_roi) ← create_sheet "ROI Calculator" wb;
  wb ← on_sheet ws_roi roi_calculator wb;
  '(wb, ws_tiers) ← create_sheet "Tier Comparison" wb;
  on_sheet ws_tiers tier_comparison wb.

Definition output_path : string :=
  "/Users/adeomosanya/Downloads/Plannetic-Pricing-Analysis-v3.xlsx".

End PricingV3.


(** ** [ifa-platform/plannetic-pricing-analysis.py] *)

Module PricingAnalysis.
Import Openpyxl Table Py Val.

Definition title_font : Font := mkFont (Some "Arial") (Some 18%Z) true (Some "1E40AF").
Definition header_font : Font := mkFont (Some "Arial") (Some 12%Z) true (Some "FFFFFF").
Definition subheader_font : Font := mkFont (Some "Arial") (Some 11%Z) true None.
Definition normal_font : Font := mkFont (Some "Arial") (Some 10%Z) false None.
Definition currency_font : Font := mkFont (Some "Arial") (Some 10%Z) true (Some "059669").
Definition bold : Font := mkFont None None true None.

Definition header_fill : PatternFill := solid "1E40AF".
Definition alt_fill : PatternFill := solid "F3F4F6".
Definition highlight_fill : PatternFill := solid "DCFCE7".
Definition yellow_fill : PatternFill := solid "FEF3C7".

Definition thin_border : Border := box (mkSide (Some "thin") None).
Definition center : Alignment := mkAlignment (Some "center") None false.
Definition left : Alignment := mkAlignment (Some "left") None false.
Definition pounds : string := "£#,##0".

(** The styling every header loop of the script applies. *)
Definition header_style (row col : positive) (header : Value) : list Attr :=
  [font_ header_font; fill_ header_fill; alignment_ center; border_ thin_border].

(** *** Sheet 1: Executive Summary (lines 18-122) *)

Definition summary_text : list string :=
  ["Plannetic is a comprehensive, compliance-focused financial advisory platform"; "designed specifically for UK-regulated Independent Financial Advisors (IFAs)."; ""; "Key Value Proposition:"; "• Replaces 5-7 separate tools with one integrated platform"; "• Saves IFAs £170+/month vs competitor tool stack (£420 → £250)"; "• Saves 10-20 hours per client onboarding"; "• Built-in FCA compliance and Consumer Duty workflows"].

Definition pricing_headers : list Value :=
  [Str "Tier"; Str "Monthly Price"; Str "Commitment"; Str "2-Year TCV"; Str "3-Year TCV"; Str "Best For"].

Definition pricing_data : list (list Value) :=
  [
    [Str "Monthly"; Int 350; Str "Month-to-month"; Str "=B18*24"; Str "=B18*36"; Str "Trial/uncertain firms"];
    [Str "Standard"; Int 250; Str "2-year"; Str "=B19*24"; Str "=B19*36"; Str "Solo advisors, small firms"];
    [Str "Professional"; Int 300; Str "2-year"; Str "=B20*24"; Str "=B20*36"; Str "Growing firms, AI + support"];
    [Str "Enterprise"; Str "Custom"; Str "3-year"; Str "Custom"; Str "Custom"; Str "5+ advisors, white-label"]
  ].

(** Lines 84-90. *)
Definition pricing_style (row_idx col_idx : positive) (value : Value) : list Attr :=
  [font_ normal_font; border_ thin_border; alignment_ center]
  ++ (if (mod2 row_idx =? 0)%Z then [fill_ alt_fill] else [])
  ++ (if row_in col_idx [2; 4; 5]%positive && (is_int value || str_startswith "=" value)
      then [number_format_ pounds] else []).

Definition metrics : list (list Value) :=
  [
    [Str "Metric"; Str "Value"];
    [Str "Competitor Stack Cost"; Str "£420/mo"];
    [Str "Plannetic Standard"; Str "£250/mo"];
    [Str "Monthly Savings"; Str "£170/mo"];
    [Str "Annual Savings"; Str "£2,040/yr"];
    [Str "Break-even Clients"; Str "3-6 clients"]
  ].

(** Lines 108-115. *)
Definition metrics_style (row_idx col_idx : positive) (value : Value) : list Attr :=
  (if (row_idx =? 26)%positive
   then [font_ header_font; fill_ header_fill]
   else [font_ normal_font] ++ (if (mod2 row_idx =? 1)%Z then [fill_ alt_fill] else []))
  ++ [border_ thin_border].

Definition executive_summary (ws_summary : Worksheet) : Result Worksheet :=
  Ok (block [
    setitem (xl Col.A 1) (Str "PLANNETIC PRICING ANALYSIS");
    setattr (xl Col.A 1) (font_ title_font);
    merge_cells "A1:F1";
    setitem (xl Col.A 3) (Str "Executive Summary");
    setattr (xl Col.A 3) (font_ subheader_font);
    for_ (enumerate summary_text 5)
         (fun '(i, text) => block [
            setitem (xl Col.A i) (Str text);
            setattr (xl Col.A i) (font_ normal_font)]);
    setitem (xl Col.A 15) (Str "Recommended Pricing Tiers");
    setattr (xl Col.A 15) (font_ subheader_font);
    write_header_row header_style 17 1 pricing_headers;
    write_data_rows pricing_style 18 1 pricing_data;
    setitem (xl Col.A 24) (Str "Key Metrics");
    setattr (xl Col.A 24) (font_ subheader_font);
    write_data_rows metrics_style 26 1 metrics;
    set_width "A" 25;
    set_width "B" 15;
    set_width "C" 18;
    set_width "D" 15;
    set_width "E" 15;
    set_width "F" 28
  ] ws_summary).

(** *** Sheet 2: Revenue Calculator (lines 128-210) *)

Definition calc_headers : list Value :=
  [Str "# of Firms"; Str "£250/mo (2yr)"; Str "£300/mo (2yr)"; Str "£250/mo (3yr)"; Str "£300/mo (3yr)"; Str "3yr Difference"; Str "Avg MRR"].

Definition firm_counts : list Z :=
  [1; 2; 3; 4; 5; 10; 15; 20; 25; 50; 75; 100; 150; 200; 250; 300]%Z.

(** Lines 203-206: the alternate fill of the cells still without one. *)
Definition alt_fill_row (row_idx : positive) : Worksheet -> Worksheet :=
  if (mod2 row_idx =? 0)%Z
  then for_ (range 1 7)
            (fun c ws =>
               if String.eqb (fill_rgb (_get_cell row_idx c ws)) "00000000"
               then assign row_idx c (fill_ alt_fill) ws
               else ws)
  else (fun ws => ws).

(** Lines 167-206: the body of the loop over the firm counts. *)
Definition revenue_row (row_idx : positive) (firms : Z) : Worksheet -> Worksheet :=
  block [
    put row_idx 1 (Int firms) [border_ thin_border; alignment_ center];
    put row_idx 2 (Str ("=A" +:+ str row_idx +:+ "*$B$5*24"))
        [number_format_ pounds; border_ thin_border];
    put row_idx 3 (Str ("=A" +:+ str row_idx +:+ "*$B$6*24"))
        [number_format_ pounds; border_ thin_border];
    put row_idx 4 (Str ("=A" +:+ str row_idx +:+ "*$B$5*36"))
        [number_format_ pounds; border_ thin_border];
    put row_idx 5 (Str ("=A" +:+ str row_idx +:+ "*$B$6*36"))
        [number_format_ pounds; border_ thin_border];
    put row_idx 6 (Str ("=E" +:+ str row_idx +:+ "-B" +:+ str row_idx))
        [number_format_ pounds; border_ thin_border; fill_ highlight_fill];
    put row_idx 7 (Str ("=A" +:+ str row_idx +:+ "*($B$5+$B$6)/2"))
        [number_format_ pounds; border_ thin_border];
    alt_fill_row row_idx
  ].

(** Lines 166-206. *)
Definition revenue_rows (firm_counts : list Z) : Worksheet -> Worksheet :=
  for_ (enumerate firm_counts 13) (fun '(row_idx, firms) => revenue_row row_idx firms).

(** An input cell: value, number format, fill (lines 138-151, 229-237). *)
Definition input_cell (k : positive * positive) (v : Value) (fmt : string)
  : Worksheet -> Worksheet :=
  block [
    setitem k v;
    setattr k (number_format_ fmt);
    setattr k (fill_ yellow_fill)
  ].

Definition revenue_calculator (ws_calc : Worksheet) : Result Worksheet :=
  let ws_calc := block [
    setitem (xl Col.A 1) (Str "REVENUE CALCULATOR");
    setattr (xl Col.A 1) (font_ title_font);
    merge_cells "A1:G1";
    setitem (xl Col.A 3) (Str "INPUT PARAMETERS");
    setattr (xl Col.A 3) (font_ subheader_font);
    setitem (xl Col.A 5) (Str "Standard Monthly Rate (£)");
    input_cell (xl Col.B 5) (Int 250) pounds;
    setitem (xl Col.A 6) (Str "Professional Monthly Rate (£)");
    input_cell (xl Col.B 6) (Int 300) pounds;
    setitem (xl Col.A 7) (Str "Monthly Rate (no commitment) (£)");
    input_cell (xl Col.B 7) (Int 350) pounds;
    setitem (xl Col.A 10) (Str "REVENUE BY NUMBER OF FIRMS");
    setattr (xl Col.A 10) (font_ subheader_font);
    write_header_row header_style 12 1 calc_headers;
    revenue_rows firm_counts
  ] ws_calc in
  for_M (range 1 8) (fun col => set_width_at col 18) ws_calc.

(** *** Sheet 3: Growth Projections (lines 215-363) *)

Definition growth_headers : list Value :=
  [Str "Year"; Str "New Firms"; Str "Churn"; Str "Total Firms"; Str "MRR"; Str "ARR"].

Definition moderate_new : list Z := [25; 35; 45; 60; 75]%Z.
Definition aggressive_new : list Z := [50; 70; 100; 130; 150]%Z.

(** Lines 288-294 (and 319-324, 352-357): border, alignment and number
    format of the six cells of a row. *)
Definition scenario_row_style (row : positive) : Worksheet -> Worksheet :=
  for_ (range 1 7)
       (fun col => block [
          assign row col (border_ thin_border);
          assign row col (alignment_ center);
          if (5 <=? col)%positive
          then assign row col (number_format_ pounds)
          else (fun ws => ws)]).

(** Lines 248-286: the conservative scenario, written cell by cell. *)
Definition conservative_cells : Worksheet -> Worksheet :=
  block [
    setitem (xl Col.A 12) (Int 1);
    setitem (xl Col.B 12) (Int 10);
    setitem (xl Col.C 12) (Int 0);
    setitem (xl Col.D 12) (Str "=B12-C12");
    setitem (xl Col.E 12) (Str "=D12*$B$5");
    setitem (xl Col.F 12) (Str "=E12*12");
    setitem (xl Col.A 13) (Int 2);
    setitem (xl Col.B 13) (Int 10);
    setitem (xl Col.C 13) (Str "=ROUND(D12*$B$6/100,0)");
    setitem (xl Col.D 13) (Str "=D12+B13-C13");
    setitem (xl Col.E 13) (Str "=D13*$B$5");
    setitem (xl Col.F 13) (Str "=E13*12");
    setitem (xl Col.A 14) (Int 3);
    setitem (xl Col.B 14) (Int 15);
    setitem (xl Col.C 14) (Str "=ROUND(D13*$B$6/100,0)");
    setitem (xl Col.D 14) (Str "=D13+B14-C14");
    setitem (xl Col.E 14) (Str "=D14*$B$5");
    setitem (xl Col.F 14) (Str "=E14*12");
    setitem (xl Col.A 15) (Int 4);
    setitem (xl Col.B 15) (Int 20);
    setitem (xl Col.C 15) (Str "=ROUND(D14*$B$6/100,0)");
    setitem (xl Col.D 15) (Str "=D14+B15-C15");
    setitem (xl Col.E 15) (Str "=D15*$B$5");
    setitem (xl Col.F 15) (Str "=E15*12");
    setitem (xl Col.A 16) (Int 5);
    setitem (xl Col.B 16) (Int 25);
    setitem (xl Col.C 16) (Str "=ROUND(D15*$B$6/100,0)");
    setitem (xl Col.D 16) (Str "=D15+B16-C16");
    setitem (xl Col.E 16) (Str "=D16*$B$5");
    setitem (xl Col.F 16) (Str "=E16*12");
    for_ (range 12 17) scenario_row_style
  ].

(** Lines 309-324 (and again 342-357): the body of a scenario loop over
    [zip(range(1, 6), new)], [base] being 22 or 32. *)
Definition scenario_row (base : positive) (i : N) (year : positive) (new_firms : Z)
  : Worksheet -> Worksheet :=
  let row := plus base i in
  block [
    cell row 1 (Some (Int (Z.pos year)));
    cell row 2 (Some (Int new_firms));
    if (i =? 0)%N
    then block [
      cell row 3 (Some (Int 0));
      cell row 4 (Some (Str ("=B" +:+ str row +:+ "-C" +:+ str row)))]
    else block [
      cell row 3 (Some (Str ("=ROUND(D" +:+ str (Pos.pred row) +:+ "*$B$6/100,0)")));
      cell row 4 (Some (Str ("=D" +:+ str (Pos.pred row) +:+ "+B" +:+ str row
                             +:+ "-C" +:+ str row)))];
    cell row 5 (Some (Str ("=D" +:+ str row +:+ "*$B$5")));
    cell row 6 (Some (Str ("=E" +:+ str row +:+ "*12")));
    scenario_row_style row
  ].

(** Lines 308-324, 341-357. *)
Definition scenario_rows (base : positive) (new : list Z) : Worksheet -> Worksheet :=
  for_ (enumerate0 (zip (range 1 6) new) 0)
       (fun '(i, (year, new_firms)) => scenario_row base i year new_firms).

Definition growth_projections (ws_growth : Worksheet) : Result Worksheet :=
  let ws_growth := block [
    setitem (xl Col.A 1) (Str "GROWTH PROJECTIONS");
    setattr (xl Col.A 1) (font_ title_font);
    merge_cells "A1:F1";
    setitem (xl Col.A 3) (Str "SCENARIO INPUTS");
    setattr (xl Col.A 3) (font_ subheader_font);
    setitem (xl Col.A 5) (Str "Monthly Rate (£)");
    input_cell (xl Col.B 5) (Int 250) pounds;
    setitem (xl Col.A 6) (Str "Churn Rate (%)");
    input_cell (xl Col.B 6) (Int 5) "0%";
    setitem (xl Col.A 9) (Str "CONSERVATIVE GROWTH (10 new firms/year)");
    setattr (xl Col.A 9) (font_ subheader_font);
    write_header_row header_style 11 1 growth_headers;
    conservative_cells;
    setitem (xl Col.A 19) (Str "MODERATE GROWTH (25 new firms/year)");
    setattr (xl Col.A 19) (font_ subheader_font);
    write_header_row header_style 21 1 growth_headers;
    scenario_rows 22 moderate_new;
    setitem (xl Col.A 29) (Str "AGGRESSIVE GROWTH (50 new firms/year)");
    setattr (xl Col.A 29) (font_ subheader_font);
    write_header_row header_style 31 1 growth_headers;
    scenario_rows 32 aggressive_new
  ] ws_growth in
  for_M (range 1 7) (fun col => set_width_at col 15) ws_growth.

(** *** Sheet 4: Competitive Analysis (lines 368-443) *)

Definition comp_headers : list Value :=
  [Str "Competitor"; Str "Monthly Price"; Str "What They Offer"; Str "Plannetic Equivalent"; Str "Our Advantage"].

Definition competitors : list (list Value) :=
  [
    [Str "Intelliflo Office"; Str "£200-400"; Str "Back office, limited planning"; Str "Full platform"; Str "More features, lower price"];
    [Str "Voyant"; Str "£150"; Str "Cash flow only"; Str "Cash Flow module"; Str "Includes CRM + compliance"];
    [Str "Timeline"; Str "£100"; Str "Monte Carlo only"; Str "Monte Carlo module"; Str "Full assessment suite"];
    [Str "CashCalc"; Str "£80"; Str "Cash flow only"; Str "Cash Flow module"; Str "Integrated compliance"];
    [Str "Salesforce"; Str "£150+"; Str "Generic CRM"; Str "Client Hub"; Str "IFA-specific features"];
    [Str "Dynamic Planner"; Str "£200+"; Str "Risk profiling + reports"; Str "ATR/CFL + Docs"; Str "Consumer Duty built-in"];
    [Str "FE Analytics"; Str "£100+"; Str "Fund analysis"; Str "N/A"; Str "Different focus"];
    [Str "Defaqto Engage"; Str "£150+"; Str "Research + suitability"; Str "Suitability module"; Str "Full workflow"]
  ].

(** Lines 398-402. *)
Definition competitors_style (row_idx col_idx : positive) (value : Value) : list Attr :=
  [font_ normal_font; border_ thin_border]
  ++ (if (mod2 row_idx =? 0)%Z then [fill_ alt_fill] else []).

Definition stack_headers : list Value :=
  [Str "Tool Category"; Str "Standalone Cost"; Str "Plannetic"; Str "Savings"].

Definition stack_data : list (list Value) :=
  [
    [Str "CRM"; Int 50; Str "Included"; Str "=B19"];
    [Str "Risk Profiling"; Int 50; Str "Included"; Str "=B20"];
    [Str "Cash Flow"; Int 100; Str "Included"; Str "=B21"];
    [Str "Monte Carlo"; Int 100; Str "Included"; Str "=B22"];
    [Str "Document Generation"; Int 50; Str "Included"; Str "=B23"];
    [Str "E-Signatures"; Int 20; Str "Included"; Str "=B24"];
    [Str "Compliance Tracking"; Int 50; Str "Included"; Str "=B25"];
    [Str "TOTAL"; Str "=SUM(B19:B25)"; Str "£250/mo"; Str "=B26-250"]
  ].

(** Lines 429-436. *)
Definition stack_style (row_idx col_idx : positive) (value : Value) : list Attr :=
  [font_ normal_font; border_ thin_border]
  ++ (if (col_idx =? 2)%positive || (col_idx =? 4)%positive
      then [number_format_ pounds] else [])
  ++ (if (row_idx =? 26)%positive
      then [font_ (mkFont (Some "Arial") (Some 10%Z) true None); fill_ highlight_fill]
      else []).

Definition competitive_analysis (ws_comp : Worksheet) : Result Worksheet :=
  Ok (block [
    setitem (xl Col.A 1) (Str "COMPETITIVE ANALYSIS");
    setattr (xl Col.A 1) (font_ title_font);
    merge_cells "A1:E1";
    setitem (xl Col.A 3) (Str "UK IFA Software Market Comparison");
    setattr (xl Col.A 3) (font_ subheader_font);
    write_header_row header_style 5 1 comp_headers;
    write_data_rows competitors_style 6 1 competitors;
    setitem (xl Col.A 16) (Str "Typical IFA Tool Stack vs Plannetic");
    setattr (xl Col.A 16) (font_ subheader_font);
    write_header_row header_style 18 1 stack_headers;
    write_data_rows stack_style 19 1 stack_data;
    set_width "A" 22;
    set_width "B" 15;
    set_width "C" 25;
    set_width "D" 22;
    set_width "E" 25
  ] ws_comp).

(** *** Sheet 5: Tier Comparison (lines 448-505) *)

Definition tier_headers : list Value :=
  [Str "Feature"; Str "Standard (£250/mo)"; Str "Professional (£300/mo)"; Str "Enterprise (Custom)"].

Definition features : list (list Value) :=
  [
    [Str "Client Management"; Str "✓"; Str "✓"; Str "✓"];
    [Str "All 6 Assessment Types"; Str "✓"; Str "✓"; Str "✓"];
    [Str "Unlimited Clients"; Str "✓"; Str "✓"; Str "✓"];
    [Str "Document Generation"; Str "✓"; Str "✓"; Str "✓"];
    [Str "E-Signatures"; Str "Fair Use"; Str "Unlimited"; Str "Unlimited"];
    [Str "Compliance Registers"; Str "✓"; Str "✓"; Str "✓"];
    [Str "Consumer Duty Workflows"; Str "✓"; Str "✓"; Str "✓"];
    [Str "AI Enhancement"; Str "—"; Str "✓"; Str "✓"];
    [Str "Priority Support"; Str "—"; Str "✓"; Str "✓"];
    [Str "Phone Support"; Str "—"; Str "✓"; Str "✓"];
    [Str "White-label Portal"; Str "—"; Str "✓"; Str "✓"];
    [Str "Advanced Analytics"; Str "—"; Str "✓"; Str "✓"];
    [Str "API Access"; Str "—"; Str "—"; Str "✓"];
    [Str "Custom Integrations"; Str "—"; Str "—"; Str "✓"];
    [Str "Dedicated Account Manager"; Str "—"; Str "—"; Str "✓"];
    [Str "Data Migration Support"; Str "Self-serve"; Str "Assisted"; Str "Full Service"];
    [Str "Onboarding"; Str "2 calls"; Str "4 calls"; Str "Unlimited"];
    [Str ""; Str ""; Str ""; Str ""];
    [Str "Commitment"; Str "2 years"; Str "2 years"; Str "3 years"];
    [Str "2-Year TCV"; Str "=250*24"; Str "=300*24"; Str "Custom"];
    [Str "3-Year TCV"; Str "=250*36"; Str "=300*36"; Str "Custom"]
  ].

(** Lines 488-499. *)
Definition features_style (row_idx col_idx : positive) (value : Value) : list Attr :=
  [font_ normal_font; border_ thin_border;
   alignment_ (if (1 <? col_idx)%positive then center else left)]
  ++ (if (mod2 row_idx =? 0)%Z then [fill_ alt_fill] else [])
  ++ (if eq_str value "✓"
      then [font_ (mkFont (Some "Arial") (Some 10%Z) false (Some "059669"))]
      else if eq_str value "—"
      then [font_ (mkFont (Some "Arial") (Some 10%Z) false (Some "9CA3AF"))]
      else [])
  ++ (if row_in row_idx [22; 23]%positive && row_in col_idx [2; 3]%positive
      then [number_format_ pounds] else []).

Definition tier_comparison (ws_tiers : Worksheet) : Result Worksheet :=
  Ok (block [
    setitem (xl Col.A 1) (Str "PLANNETIC PRICING TIERS");
    setattr (xl Col.A 1) (font_ title_font);
    merge_cells "A1:D1";
    write_header_row header_style 3 1 tier_headers;
    write_data_rows features_style 4 1 features;
    set_width "A" 25;
    set_width "B" 22;
    set_width "C" 22;
    set_width "D" 22
  ] ws_tiers).

(** *** Sheet 6: ROI Calculator (lines 510-581) *)

(** Lines 523-537; the loop unpacks every row into [(label, value)]. *)
Definition inputs : list (Value * Value) :=
  [(Str "Current CRM Cost (£/mo)", Int 50);
   (Str "Current Risk Tool Cost (£/mo)", Int 50);
   (Str "Current Cash Flow Tool (£/mo)", Int 100);
   (Str "Current Monte Carlo Tool (£/mo)", Int 100);
   (Str "Current Doc Gen Tool (£/mo)", Int 50);
   (Str "Current E-Sign Cost (£/mo)", Int 20);
   (Str "Current Compliance Tool (£/mo)", Int 50);
   (Str "", Str "");
   (Str "Hours per client onboarding", Int 15);
   (Str "Hourly rate (£)", Int 100);
   (Str "New clients per month", Int 4);
   (Str "", Str "");
   (Str "Plannetic Monthly Cost (£)", Int 250)].

(** Lines 540-545: the body of the loop over the inputs. *)
Definition input_row (row_idx : positive) (label value : Value) : Worksheet -> Worksheet :=
  block [
    cell row_idx 1 (Some label);
    cell row_idx 2 (if negb (eq_str value "") then Some value else None);
    if negb (eq_str value "") && Val.truthy label
    then block [
      assign row_idx 2 (fill_ yellow_fill);
      assign row_idx 2 (number_format_
        (if has "£" label || has "Cost" label || has "rate" label then pounds else "0"))]
    else (fun ws => ws);
    assign row_idx 2 (border_ thin_border)
  ].

(** Lines 551-565; the loop unpacks every row into [(label, formula)]. *)
Definition results : list (Value * Value) :=
  [(Str "Current Total Monthly Cost", Str "=SUM(B7:B13)");
   (Str "Monthly Software Savings", Str "=B24-B19");
   (Str "Annual Software Savings", Str "=B25*12");
   (Str "", Str "");
   (Str "Time Saved per Client (hrs)", Str "=B15*0.6");
   (Str "Value of Time Saved per Client", Str "=B28*B16");
   (Str "Monthly Time Value Saved", Str "=B29*B17");
   (Str "Annual Time Value Saved", Str "=B30*12");
   (Str "", Str "");
   (Str "Total Annual Savings", Str "=B26+B31");
   (Str "Annual Plannetic Cost", Str "=B19*12");
   (Str "Net Annual Benefit", Str "=B33-B34");
   (Str "ROI %", Str "=(B35/B34)*100")].

(** Lines 568-578: the body of the loop over the results. *)
Definition result_row (row_idx : positive) (label formula : Value) : Worksheet -> Worksheet :=
  block [
    cell row_idx 1 (Some label);
    cell row_idx 2 (if Val.truthy formula then Some formula else None);
    assign row_idx 2 (border_ thin_border);
    if Val.truthy formula && Val.truthy label
    then block [
      assign row_idx 2 (number_format_
        (if has "ROI" label then "0.0" +:+ DQ +:+ "%" +:+ DQ else pounds));
      if in_strs label ["Total Annual Savings"; "Net Annual Benefit"; "ROI %"]
      then block [
        assign row_idx 2 (fill_ highlight_fill);
        assign row_idx 2 (font_ bold)]
      else (fun ws => ws)]
    else (fun ws => ws)
  ].

Definition roi_calculator (ws_roi : Worksheet) : Result Worksheet :=
  Ok (block [
    setitem (xl Col.A 1) (Str "CLIENT ROI CALCULATOR");
    setattr (xl Col.A 1) (font_ title_font);
    merge_cells "A1:D1";
    setitem (xl Col.A 3) (Str "Calculate ROI for your clients");
    setattr (xl Col.A 3) (font_ subheader_font);
    setitem (xl Col.A 5) (Str "INPUTS (edit yellow cells)");
    setattr (xl Col.A 5) (font_ bold);
    for_ (enumerate inputs 7)
         (fun '(row_idx, (label, value)) => input_row row_idx label value);
    setitem (xl Col.A 22) (Str "RESULTS");
    setattr (xl Col.A 22) (font_ bold);
    for_ (enumerate results 24)
         (fun '(row_idx, (label, formula)) => result_row row_idx label formula);
    set_width "A" 35;
    set_width "B" 18
  ] ws_roi).

(** The script up to [wb.save(output_path)]. *)
Definition build (env : Env) : Result Workbook :=
  let wb := Workbook_ in
  let ws_summary := active wb in
  wb ← set_title ws_summary "Executive Summary" wb;
  wb ← on_sheet ws_summary executive_summary wb;
  '(wb, ws_calc) ← create_sheet "Revenue Calculator" wb;
  wb ← on_sheet ws_calc revenue_calculator wb;
  '(wb, ws_growth) ← create_sheet "Growth Projections" wb;
  wb ← on_sheet ws_growth growth_projections wb;
  '(wb, ws_comp) ← create_sheet "Competitive Analysis" wb;
  wb ← on_sheet ws_comp competitive_analysis wb;
  '(wb, ws_tiers) ← create_sheet "Tier Comparison" wb;
  wb ← on_sheet ws_tiers tier_comparison wb;
  '(wb, ws_roi) ← create_sheet "ROI Calculator" wb;
  on_sheet ws_roi roi_calculator wb.

Definition output_path : string :=
  "/Users/adeomosanya/Documents/ifa-professional-portal/ifa-platform/Plannetic-Pricing-Analysis.xlsx".

End PricingAnalysis.


(** ** Observations on sheets, used to state the properties *)

Module Obs.
Import Openpyxl.

(** The position [enumerate(xs, start)] gives to the element of index [j]
    (counted from 0). *)
Definition at_ (start : positive) (j : nat) : positive :=
  Pos.of_nat (Pos.to_nat start + j).

Definition value_at (ws : Worksheet) (row col : positive) : option Value :=
  value (_get_cell row col ws).

Definition fill_at (ws : Worksheet) (row col : positive) : option PatternFill :=
  fill (_get_cell row col ws).

(** The attribute assignments of a loop body, applied to one cell. *)
Definition apply_attrs (attrs : list Attr) (c : Cell) : Cell :=
  foldl (fun c a => set_attr a c) c attrs.

(** What the body of a table loop leaves in the cell it addresses: the
    cell found there (or a fresh one) with the value set and the
    assignments of the body applied. *)
Definition written {A : Type} (inj : A -> Value)
  (style : positive -> positive -> A -> list Attr)
  (ws : Worksheet) (row col : positive) (x : A) : Cell :=
  apply_attrs (style row col x) (set_value (Some (inj x)) (_get_cell row col ws)).



(** The cells a table of [rows] occupies when its first row is [row0] and
    its first column [col0]: row [i] spans as many columns as it has
    entries. *)
Definition covers {A : Type} (row0 col0 : positive) (rows : list (list A))
  (k : positive * positive) : Prop :=
  exists i r, rows !! i = Some r /\ fst k = at_ row0 i /\
              (col0 <= snd k)%positive /\
              (Pos.to_nat (snd k) < Pos.to_nat col0 + length r)%nat.

(** The sheet at position [i] of the workbook a script has built. *)
Definition sheet_at (r : Result Workbook) (i : nat) : option Worksheet :=
  match r with
  | Ok wb => _sheets wb !! i
  | Raise _ => None
  end.

(** Value and fill of a cell of sheet [i] of a built workbook. *)
Definition value_in (r : Result Workbook) (i : nat) (row col : positive) : option Value :=
  ws ← sheet_at r i; value_at ws row col.

Definition fill_in (r : Result Workbook) (i : nat) (row col : positive)
  : option PatternFill :=
  ws ← sheet_at r i; fill_at ws row col.

(** The cells of a reference, column by column. *)
Definition ref_cells (r : Reference) : list (positive * positive) :=
  col ← Py.range (min_col r) (Pos.succ (max_col r));
  row ← Py.range (min_row r) (Pos.succ (max_row r));
  [(row, col)].

(** The cells a series reads: the cell of its title, then its values. *)
Definition series_cells (s : Series) : list (positive * positive) :=
  from_option ref_cells [] (ser_title s) ++ ref_cells (ser_val s).


(** The rows of a column in which a cell holds a value. *)
Definition column_rows (r : Result Workbook) (i : nat) (col : positive) : gset positive :=
  match sheet_at r i with
  | Some ws =>
      set_map fst
        (filter (fun k => snd k = col)
           (dom (filter (fun kv => is_Some (value (snd kv))) (cells ws))))
  | None => ∅
  end.

(** The formulas of columns 2 to 7 of row [r] of a revenue table, as the
    f-strings of the scripts render them. *)
Definition revenue_formulas (r : positive) : list (option Value) :=
  [Some (Str ("=A" +:+ Py.str r +:+ "*$B$5*24"));
   Some (Str ("=A" +:+ Py.str r +:+ "*$B$6*24"));
   Some (Str ("=A" +:+ Py.str r +:+ "*$B$5*36"));
   Some (Str ("=A" +:+ Py.str r +:+ "*$B$6*36"));
   Some (Str ("=E" +:+ Py.str r +:+ "-B" +:+ Py.str r));
   Some (Str ("=A" +:+ Py.str r +:+ "*($B$5+$B$6)/2"))].

(** The values of columns 2 to 7 of a row of a sheet. *)
Definition formula_cells (ws : Worksheet) (r : positive) : list (option Value) :=
  map (value_at ws r) (Py.range 2 8).

(** Row [r] of a revenue table as the body of the loop writes it: the
    firm count in column 1, the six formulas in columns 2 to 7. *)
Definition revenue_row_written (ws : Worksheet) (r : positive) (firms : Z) : Prop :=
  value_at ws r 1 = Some (Int firms) /\ formula_cells ws r = revenue_formulas r.

(** The values of columns 2 to 7 of a row of sheet [i]. *)
Definition columns_2_to_7 (wb : Result Workbook) (i : nat) (r : positive)
  : list (option Value) :=
  map (value_in wb i r) (Py.range 2 8).

(** A table on a sheet: the sheet, the header row and first column, the
    number of headers and the number of data rows beneath. *)
Record TableAt : Type := mkTableAt {
  t_sheet : nat;
  t_row : positive;
  t_col : positive;
  t_headers : nat;
  t_rows : nat
}.

(** Row [r] holds values in exactly the [n] columns from [c0] on: one in
    each of them and none in the next. *)
Definition row_has_width (ws : Worksheet) (r c0 : positive) (n : nat) : bool :=
  forallb (fun j => bool_decide (is_Some (value_at ws r (at_ c0 j)))) (seq 0 n)
  && bool_decide (value_at ws r (at_ c0 n) = None).

(** The header row and every data row of the table have the width of the
    headers. *)
Definition table_ok (wb : Result Workbook) (t : TableAt) : bool :=
  match sheet_at wb (t_sheet t) with
  | Some ws =>
      forallb (fun i => row_has_width ws (at_ (t_row t) i) (t_col t) (t_headers t))
              (seq 0 (S (t_rows t)))
  | None => false
  end.

(** Every row of a literal table has as many entries as there are
    headers. *)
Definition shape_ok {A : Type} (headers : list A) (rows : list (list A)) : bool :=
  forallb (fun r => Nat.eqb (length r) (length headers)) rows.

(** Number of headers and of data rows of a literal whose first row is
    the header. *)
Definition inline_headers {A : Type} (rows : list (list A)) : nat :=
  length (hd [] rows).

Definition inline_rows {A : Type} (rows : list (list A)) : nat :=
  length (tl rows).

(** A table whose literal has the header as its first row. *)
Definition shape_ok_inline {A : Type} (rows : list (list A)) : bool :=
  match rows with
  | [] => true
  | headers :: rows' => shape_ok headers rows'
  end.

(** [sub] occurs in [s]. *)
Definition is_substring (sub s : string) : Prop :=
  exists a b, s = a +:+ sub +:+ b.

(** A conditional-fill mapping in the words of the specification: a list
    of keys with the fill of each; a value is looked up by equality with a
    key. *)
Fixpoint mapped_fill (m : list (string * PatternFill)) (v : string) : option PatternFill :=
  match m with
  | [] => None
  | (k, p) :: m' => if String.eqb v k then Some p else mapped_fill m' v
  end.

(** The mapping of the question-set script (lines 167-174). *)
Definition ce_fill_mapping : list (string * PatternFill) :=
  [("Ready", solid "C6EFCE"); ("Pending", solid "FFEB9C");
   ("Confirm", solid "BDD7EE"); ("Partial", solid "FCE4D6")].

(** The strings the fill rule of the MEMA script names (lines 160-162). *)
Definition mema_fill_keys : list string := ["Ready"; "ACTION"; "Confirm"].

End Obs.


(** ** The tables of the five workbooks *)

(** Every table of every sheet: a header row with data rows beneath it.
    The numbers of headers and rows are the lengths of the lists the loops
    of the scripts iterate over. *)
Module Tables.
Import Obs.

Definition cyber_essentials : list TableAt :=
  [mkTableAt 0 1 1 (length CyberEssentials.headers) (length CyberEssentials.data)].

Definition mema : list TableAt :=
  [mkTableAt 0 1 1 (length Mema.headers) (length Mema.data)].

Definition pricing_v2 : list TableAt :=
  [mkTableAt 0 19 1 (length PricingV2.pricing_headers) (length PricingV2.pricing_data);
   mkTableAt 0 28 1 (inline_headers PricingV2.savings_data) (inline_rows PricingV2.savings_data);
   mkTableAt 1 6 1 (length PricingV2.comp_headers) (length PricingV2.competitors);
   mkTableAt 1 34 1 (length PricingV2.stack_headers) (length PricingV2.stack_data + 1);  (* and the total row 42 *)
   mkTableAt 2 12 1 (length PricingV2.calc_headers) (length PricingV2.firm_counts);
   mkTableAt 3 10 1 (length PricingV2.growth_headers) (length PricingV2.conservative_new);
   mkTableAt 3 19 1 (length PricingV2.growth_headers) (length PricingV2.moderate_new);
   mkTableAt 3 28 1 (length PricingV2.growth_headers) (length PricingV2.aggressive_new);
   (* the loop of lines 513-521 runs over [range(5)] *)
   mkTableAt 3 4 8 (length PricingV2.chart_headers) 5;
   mkTableAt 4 6 1 (inline_headers PricingV2.inputs) (inline_rows PricingV2.inputs);
   mkTableAt 4 19 1 (inline_headers PricingV2.time_inputs) (inline_rows PricingV2.time_inputs);
   mkTableAt 4 33 1 (inline_headers PricingV2.results) (inline_rows PricingV2.results);
   (* F33:G35, written cell by cell (lines 681-686) *)
   mkTableAt 4 33 6 2 2;
   mkTableAt 5 3 1 (length PricingV2.tier_headers) (length PricingV2.features)].

Definition pricing_v3 : list TableAt :=
  [mkTableAt 0 18 1 (length PricingV3.cost_headers) (length PricingV3.cost_data);
   mkTableAt 0 27 1 (length PricingV3.pricing_headers) (length PricingV3.pricing_data);
   mkTableAt 1 6 1 (length PricingV3.comp_headers) (length PricingV3.competitors);
   mkTableAt 1 34 1 (length PricingV3.stack_headers) (length PricingV3.stack_data + 1);  (* and the total row 42 *)
   mkTableAt 2 12 1 (length PricingV3.calc_headers) (length PricingV3.firm_counts);
   mkTableAt 2 11 9 (length PricingV3.chart_data_headers) (length PricingV3.milestones);
   mkTableAt 3 10 1 (length PricingV3.growth_headers) (length PricingV3.conservative_new);
   mkTableAt 3 19 1 (length PricingV3.growth_headers) (length PricingV3.moderate_new);
   mkTableAt 3 28 1 (length PricingV3.growth_headers) (length PricingV3.aggressive_new);
   (* the loop of lines 546-554 runs over [range(5)] *)
   mkTableAt 3 4 8 (length PricingV3.chart_headers) 5;
   mkTableAt 4 6 1 (inline_headers PricingV3.inputs) (inline_rows PricingV3.inputs);
   mkTableAt 4 19 1 (inline_headers PricingV3.time_inputs) (inline_rows PricingV3.time_inputs);
   mkTableAt 4 33 1 (inline_headers PricingV3.results) (inline_rows PricingV3.results);
   (* E33:G38, written cell by cell (lines 708-735) *)
   mkTableAt 4 33 5 3 5;
   mkTableAt 5 3 1 (length PricingV3.tier_headers) (length PricingV3.features)].

Definition pricing_analysis : list TableAt :=
  [mkTableAt 0 17 1 (length PricingAnalysis.pricing_headers)
             (length PricingAnalysis.pricing_data);
   mkTableAt 0 26 1 (inline_headers PricingAnalysis.metrics) (inline_rows PricingAnalysis.metrics);
   mkTableAt 1 12 1 (length PricingAnalysis.calc_headers)
             (length PricingAnalysis.firm_counts);
   (* A12:F16, written cell by cell (lines 248-286) *)
   mkTableAt 2 11 1 (length PricingAnalysis.growth_headers) 5;
   mkTableAt 2 21 1 (length PricingAnalysis.growth_headers)
             (length PricingAnalysis.moderate_new);
   mkTableAt 2 31 1 (length PricingAnalysis.growth_headers)
             (length PricingAnalysis.aggressive_new);
   mkTableAt 3 5 1 (length PricingAnalysis.comp_headers)
             (length PricingAnalysis.competitors);
   mkTableAt 3 18 1 (length PricingAnalysis.stack_headers)
             (length PricingAnalysis.stack_data);
   mkTableAt 4 3 1 (length PricingAnalysis.tier_headers)
             (length PricingAnalysis.features)].

End Tables.


(** ** Statements on one row, and further observations *)

Module Frame.
Import Openpyxl Obs.

(** A statement that reads and writes cells of row [r] only: the cells of
    every other row are as before, and the cells of row [r] afterwards are
    a function of the cells of row [r] before. *)
Definition touches_row (r : positive) (f : Worksheet -> Worksheet) : Prop :=
  (forall ws r' c, r' <> r -> _get_cell r' c (f ws) = _get_cell r' c ws) /\
  (forall ws1 ws2,
     (forall c, _get_cell r c ws1 = _get_cell r c ws2) ->
     forall c, _get_cell r c (f ws1) = _get_cell r c (f ws2)).

(** A statement that changes cells only: the title, the merged ranges, the
    widths, the panes and the charts of the sheet are as before. *)
Definition cells_only (f : Worksheet -> Worksheet) : Prop :=
  forall ws, exists m, f ws = with_cells m ws.

(** A statement that changes no value and removes no cell. *)
Definition keeps_values (f : Worksheet -> Worksheet) : Prop :=
  forall ws r c, value (_get_cell r c (f ws)) = value (_get_cell r c ws).

(** The width set for a column letter, if any. *)
Definition width_of (ws : Worksheet) (letter : string) : option Z :=
  column_dimensions ws !! letter.

(** The index a column name stands for: [A] is 1, [Z] 26, [AA] 27. *)
Definition column_index (s : string) : N :=
  foldl (fun acc c => (acc * 26 + (Ascii.N_of_ascii c - 64))%N) 0%N
        (String.list_ascii_of_string s).

(** A capital letter. *)
Definition is_capital (c : Ascii.ascii) : bool :=
  let n := Ascii.N_of_ascii c in (65 <=? n)%N && (n <=? 90)%N.

(** A string that is a formula: it starts with [=]. *)
Definition is_formula (v : Value) : Prop :=
  exists s, v = Str ("=" +:+ s).

(** The values the body of a scenario loop of the v2 and v3 scripts writes
    in the columns 1 to 6 of the row [r] of a year: the year, the new firms,
    the churn and the total (of the first year, or over the row [prev] of
    the year before), the monthly and the annual revenue. *)
Definition scenario_values (year new_firms : Z) (r : positive) (prev : option positive)
  : list Value :=
  [Int year;
   Int new_firms;
   match prev with
   | None => Int 0
   | Some p => Str ("=ROUND(D" +:+ Py.str p +:+ "*$B$6,0)")
   end;
   match prev with
   | None => Str ("=B" +:+ Py.str r)
   | Some p => Str ("=D" +:+ Py.str p +:+ "+B" +:+ Py.str r +:+ "-C" +:+ Py.str r)
   end;
   Str ("=D" +:+ Py.str r +:+ "*$B$5");
   Str ("=E" +:+ Py.str r +:+ "*12")].

(** The row of the year before the year of index [i]. *)
Definition row_before (base : positive) (i : nat) : option positive :=
  match i with
  | O => None
  | S k => Some (at_ base k)
  end.

(** The same for the scenario loops of the analysis script, where the churn
    is a percentage and the total of the first year subtracts it. *)
Definition pa_scenario_values (year new_firms : Z) (r : positive) (prev : option positive)
  : list Value :=
  [Int year;
   Int new_firms;
   match prev with
   | None => Int 0
   | Some p => Str ("=ROUND(D" +:+ Py.str p +:+ "*$B$6/100,0)")
   end;
   match prev with
   | None => Str ("=B" +:+ Py.str r +:+ "-C" +:+ Py.str r)
   | Some p => Str ("=D" +:+ Py.str p +:+ "+B" +:+ Py.str r +:+ "-C" +:+ Py.str r)
   end;
   Str ("=D" +:+ Py.str r +:+ "*$B$5");
   Str ("=E" +:+ Py.str r +:+ "*12")].

(** The number format of a cell of sheet [i] of a built workbook. *)
Definition number_format_in (r : Result Workbook) (i : nat) (row col : positive)
  : option string :=
  ws ← sheet_at r i; number_format (_get_cell row col ws).

(** The coordinates of the cells of sheet [i] that carry the number format
    [fmt]. *)
Definition cells_with_format (r : Result Workbook) (i : nat) (fmt : string)
  : list (positive * positive) :=
  match sheet_at r i with
  | Some ws =>
      (map_to_list (filter (fun kv => number_format (snd kv) = Some fmt) (cells ws))).*1
  | None => []
  end.

(** [get_column_letter] gives a name of one to three capital letters that
    stands for the index. *)
Definition names_column (idx : positive) : bool :=
  match get_column_letter idx with
  | Ok l =>
      (1 <=? String.length l)%nat && (String.length l <=? 3)%nat
      && forallb is_capital (String.list_ascii_of_string l)
      && (column_index l =? Npos idx)%N
  | Raise _ => false
  end.

(** The same for the [n] indices from [idx] on. *)
Fixpoint names_columns (n : nat) (idx : positive) : bool :=
  match n with
  | O => true
  | S n' => names_column idx && names_columns n' (Pos.succ idx)
  end.

(** The sheet "Actions Required" of the MEMA script (lines 174-198) as a
    function of the list of actions the loop of line 183 iterates over. *)
Definition actions_required_with (actions : list string) (ws2 : Worksheet) : Worksheet :=
  block [
    setitem (xl Col.A 1) (Str "MEMA Financial Services - Cyber Essentials Actions");
    setattr (xl Col.A 1) (font_ (mkFont None (Some 14%Z) true None));
    setitem (xl Col.A 3) (Str "Before Submission - Verify:");
    setattr (xl Col.A 3) (font_ (mkFont None None true None));
    Py.for_ (Py.enumerate actions 4)
            (fun '(i, action) => setitem (xl Col.A i) (Str action));
    setitem (xl Col.A 10) (Str "Company Details Confirmed:");
    setattr (xl Col.A 10) (font_ (mkFont None None true None));
    setitem (xl Col.A 11) (Str "MEMA Financial Services Ltd");
    setitem (xl Col.A 12) (Str "Company Number: 15382445");
    setitem (xl Col.A 13) (Str "34-35 Hatton Garden, London, EC1N 8DX");
    setitem (xl Col.A 14) (Str "IT Contact: Ade Omosanya, Director");
    set_width "A" 80
  ] ws2.

(** The five lines of the company details, in the rows 10 to 14. *)
Definition company_details : list string :=
  ["Company Details Confirmed:";
   "MEMA Financial Services Ltd";
   "Company Number: 15382445";
   "34-35 Hatton Garden, London, EC1N 8DX";
   "IT Contact: Ade Omosanya, Director"].

(** The sheet "Summary" of the question-set script (lines 186-227) as a
    function of the list of pending items the loop of line 223 iterates
    over. *)
Definition summary_with (pending_items : list string) (ws2 : Worksheet) : Worksheet :=
  block [
    setitem (xl Col.A 1) (Str "Cyber Essentials Certification - Status Summary");
    setattr (xl Col.A 1) (font_ (mkFont None (Some 14%Z) true None));
    setitem (xl Col.A 3) (Str "Status Legend:");
    setitem (xl Col.A 4) (Str "Ready");
    setattr (xl Col.A 4) (fill_ (solid "C6EFCE"));
    setitem (xl Col.B 4) (Str "Answer complete and verified");
    setitem (xl Col.A 5) (Str "Confirm");
    setattr (xl Col.A 5) (fill_ (solid "BDD7EE"));
    setitem (xl Col.B 5) (Str "Needs your confirmation");
    setitem (xl Col.A 6) (Str "Pending");
    setattr (xl Col.A 6) (fill_ (solid "FFEB9C"));
    setitem (xl Col.B 6) (Str "Requires your input (TBC)");
    setitem (xl Col.A 7) (Str "Partial");
    setattr (xl Col.A 7) (fill_ (solid "FCE4D6"));
    setitem (xl Col.B 7) (Str "Partially complete, needs review");
    setitem (xl Col.A 9) (Str "Items Requiring Your Input:");
    setattr (xl Col.A 9) (font_ (mkFont None None true None));
    Py.for_ (Py.enumerate pending_items 10)
            (fun '(i, item) => setitem (xl Col.A i) (Str item));
    set_width "A" 40;
    set_width "B" 40
  ] ws2.

(** A cell of the sheet holds a value. *)
Definition has_value (ws : Worksheet) (k : positive * positive) : bool :=
  bool_decide (is_Some (value (_get_cell (fst k) (snd k) ws))).

(** A reference names the sheet and reads only cells that hold a value. *)
Definition reads_values (ws : Worksheet) (r : Reference) : bool :=
  String.eqb (ref_sheet r) (title ws) && forallb (has_value ws) (ref_cells r).

(** A series of a chart of the sheet: its values and its categories are
    single columns over the same rows, its title (if any) is the cell right
    above its values, and every cell it reads holds a value. *)
Definition series_aligned (ws : Worksheet) (s : Series) : bool :=
  let v := ser_val s in
  (min_col v =? max_col v)%positive && reads_values ws v
  && match ser_cat s with
     | Some cat =>
         (min_col cat =? max_col cat)%positive
         && (min_row cat =? min_row v)%positive && (max_row cat =? max_row v)%positive
         && reads_values ws cat
     | None => false
     end
  && match ser_title s with
     | Some t =>
         (min_col t =? min_col v)%positive && (max_col t =? min_col v)%positive
         && (min_row t =? max_row t)%positive && (Pos.succ (min_row t) =? min_row v)%positive
         && reads_values ws t
     | None => true
     end.

(** Every series of every chart of every sheet of a built workbook is
    aligned. *)
Definition charts_aligned (r : Result Workbook) : bool :=
  match r with
  | Ok wb =>
      forallb (fun ws => forallb (fun ch => forallb (series_aligned ws) (ser ch)) (_charts ws))
              (_sheets wb)
  | Raise _ => false
  end.

(** The numbers of series of the charts of a built workbook, sheet by
    sheet. *)
Definition chart_series (r : Result Workbook) : list (list nat) :=
  match r with
  | Ok wb => map (fun ws => map (fun ch => length (ser ch)) (_charts ws)) (_sheets wb)
  | Raise _ => []
  end.

End Frame.


(** * Properties *)

Import Openpyxl Obs.

(** ** Python's [enumerate] *)

Section Enumerate.
Context {A : Type}.
Implicit Types (xs : list A) (start p : positive).

Lemma at_0 start : at_ start 0 = start.
Proof. unfold at_. lia. Qed.

Lemma at_succ start j : at_ (Pos.succ start) j = at_ start (S j).
Proof. unfold at_. lia. Qed.

Lemma at_inj start i j : at_ start i = at_ start j -> i = j.
Proof. unfold at_. lia. Qed.

Lemma enumerate_lookup xs start j :
  Py.enumerate xs start !! j = (fun x => (at_ start j, x)) <$> xs !! j.
Proof.
  revert start j. induction xs as [|x xs IH]; intros start j; [done|].
  destruct j as [|j]; simpl.
  - by rewrite at_0.
  - rewrite IH. by rewrite at_succ.
Qed.

Lemma elem_of_enumerate xs start p x :
  (p, x) ∈ Py.enumerate xs start <-> exists j, xs !! j = Some x /\ p = at_ start j.
Proof.
  rewrite list_elem_of_lookup. split.
  - intros [j Hj]. rewrite enumerate_lookup in Hj.
    destruct (xs !! j) as [y|] eqn:E; simplify_eq/=. eauto.
  - intros (j & Hj & ->). exists j. by rewrite enumerate_lookup, Hj.
Qed.

Lemma enumerate_fst_range xs start p :
  p ∈ (Py.enumerate xs start).*1 <->
  (start <= p)%positive /\ (Pos.to_nat p < Pos.to_nat start + length xs)%nat.
Proof.
  revert start. induction xs as [|x xs IH]; intros start; simpl.
  - rewrite elem_of_nil. lia.
  - rewrite elem_of_cons, IH. lia.
Qed.

Lemma enumerate_fst_NoDup xs start : NoDup (Py.enumerate xs start).*1.
Proof.
  revert start. induction xs as [|x xs IH]; intros start; simpl.
  - constructor.
  - constructor; [|apply IH]. rewrite enumerate_fst_range. lia.
Qed.
End Enumerate.

(** ** One cell *)

Lemma value_set_attr a c : value (set_attr a c) = value c.
Proof. by destruct a. Qed.

Lemma value_apply_attrs attrs c : value (apply_attrs attrs c) = value c.
Proof.
  unfold apply_attrs. revert c. induction attrs as [|a attrs IH]; intros c; [done|].
  simpl. by rewrite IH, value_set_attr.
Qed.

Lemma cells_assign_all row col attrs ws x :
  cells ws !! (row, col) = Some x ->
  cells (assign_all row col attrs ws) = <[(row, col) := apply_attrs attrs x]> (cells ws).
Proof.
  revert ws x. induction attrs as [|a attrs IH]; intros ws x Hx; simpl.
  - by rewrite insert_id.
  - unfold assign_all, Py.for_ in *. simpl.
    erewrite IH; last first.
    { simpl. apply lookup_insert_eq. }
    simpl. unfold _get_cell. rewrite Hx. simpl.
    by rewrite insert_insert_eq.
Qed.

Section Loops.
Context {A : Type} (inj : A -> Value).
Implicit Types (style : positive -> positive -> A -> list Attr).

Local Abbreviation written := (Obs.written inj).

Lemma value_written style ws row col x : value (written style ws row col x) = Some (inj x).
Proof. unfold written. by rewrite value_apply_attrs. Qed.

Lemma cells_styled_cell row col x attrs ws :
  cells (Table.styled_cell inj row col x attrs ws) =
  <[(row, col) := apply_attrs attrs (set_value (Some (inj x)) (_get_cell row col ws))]> (cells ws).
Proof.
  unfold Table.styled_cell.
  erewrite cells_assign_all; last by (simpl; apply lookup_insert_eq).
  simpl. by rewrite insert_insert_eq.
Qed.

(** A row loop over any list of (column, element) pairs with distinct
    columns. *)
Lemma row_loop_spec style row (l : list (positive * A)) ws :
  NoDup l.*1 ->
  let ws' := Py.for_ l (fun '(col, x) => Table.styled_cell inj row col x (style row col x)) ws in
  (forall col x, (col, x) ∈ l -> cells ws' !! (row, col) = Some (written style ws row col x)) /\
  (forall k, (fst k <> row \/ snd k ∉ l.*1) -> cells ws' !! k = cells ws !! k).
Proof.
  revert ws. induction l as [|[c y] l IH]; intros ws Hnd; simpl.
  - split; [intros ?? H; by apply elem_of_nil in H | done].
  - apply NoDup_cons in Hnd as [Hc Hnd].
    unfold Py.for_ in *. simpl.
    destruct (IH (Table.styled_cell inj row c y (style row c y) ws) Hnd) as [IH1 IH2].
    split.
    + intros col x [[= -> ->] | Hin]%elem_of_cons.
      * rewrite IH2 by (right; done).
        rewrite cells_styled_cell. apply lookup_insert_eq.
      * rewrite (IH1 _ _ Hin). f_equal. unfold written, _get_cell.
        rewrite cells_styled_cell, lookup_insert_ne; [done|].
        intros [= <-]. apply Hc. apply list_elem_of_fmap. by exists (c, x).
    + intros [kr kc] Hk. rewrite IH2.
      * rewrite cells_styled_cell. apply lookup_insert_ne. intros [= <- <-].
        simpl in Hk. destruct Hk as [Hk | Hk]; [done|]. apply Hk. by left.
      * destruct Hk as [Hk | Hk]; [by left|]. right. simpl in *.
        intros Hin. apply Hk. by right.
Qed.

Lemma write_row_lookup style row col0 xs ws j x :
  xs !! j = Some x ->
  cells (Table.write_row inj style row col0 xs ws) !! (row, at_ col0 j)
  = Some (written style ws row (at_ col0 j) x).
Proof.
  intros Hj. unfold Table.write_row.
  apply (row_loop_spec style row (Py.enumerate xs col0) ws (enumerate_fst_NoDup _ _)).
  apply elem_of_enumerate. eauto.
Qed.

Lemma write_row_frame style row col0 xs ws k :
  (fst k <> row \/
   ~ ((col0 <= snd k)%positive /\ (Pos.to_nat (snd k) < Pos.to_nat col0 + length xs)%nat)) ->
  cells (Table.write_row inj style row col0 xs ws) !! k = cells ws !! k.
Proof.
  intros Hk. unfold Table.write_row.
  apply (row_loop_spec style row (Py.enumerate xs col0) ws (enumerate_fst_NoDup _ _)).
  destruct Hk as [Hk | Hk]; [by left|]. right. by rewrite enumerate_fst_range.
Qed.

(** The data loop over any list of (row, entries) pairs with distinct
    rows. *)
Lemma rows_loop_spec style col0 (l : list (positive * list A)) ws :
  NoDup l.*1 ->
  let ws' := Py.for_ l (fun '(row, xs) => Table.write_row inj style row col0 xs) ws in
  (forall row xs j x, (row, xs) ∈ l -> xs !! j = Some x ->
     cells ws' !! (row, at_ col0 j) = Some (written style ws row (at_ col0 j) x)) /\
  (forall k, (forall row xs, (row, xs) ∈ l -> fst k = row ->
               ~ ((col0 <= snd k)%positive /\
                  (Pos.to_nat (snd k) < Pos.to_nat col0 + length xs)%nat)) ->
     cells ws' !! k = cells ws !! k).
Proof.
  revert ws. induction l as [|[r ys] l IH]; intros ws Hnd; simpl.
  - split; [intros ???? H; by apply elem_of_nil in H | done].
  - apply NoDup_cons in Hnd as [Hr Hnd].
    unfold Py.for_ in *. simpl.
    destruct (IH (Table.write_row inj style r col0 ys ws) Hnd) as [IH1 IH2].
    split.
    + intros row xs j x [[= -> ->] | Hin]%elem_of_cons Hj.
      * rewrite IH2.
        { by apply write_row_lookup. }
        intros row' xs' Hin' Heq'. simpl in Heq'. subst row'.
        exfalso. apply Hr. apply list_elem_of_fmap. by exists (r, xs').
      * rewrite (IH1 _ _ _ _ Hin Hj). f_equal. unfold written, _get_cell.
        rewrite write_row_frame; [done|]. left. simpl. intros <-.
        apply Hr. apply list_elem_of_fmap. by exists (row, xs).
    + intros k Hk. rewrite IH2.
      * apply write_row_frame.
        destruct (decide (fst k = r)) as [Heq | Hne]; [|by left].
        right. apply (Hk r ys); [by left | done].
      * intros row xs Hin Heq. apply (Hk row xs); [by right | done].
Qed.

Lemma write_rows_lookup style row0 col0 rows ws i r j x :
  rows !! i = Some r -> r !! j = Some x ->
  cells (Table.write_rows inj style row0 col0 rows ws) !! (at_ row0 i, at_ col0 j)
  = Some (written style ws (at_ row0 i) (at_ col0 j) x).
Proof.
  intros Hi Hj. unfold Table.write_rows.
  eapply (rows_loop_spec style col0 (Py.enumerate rows row0) ws (enumerate_fst_NoDup _ _));
    [|done].
  apply elem_of_enumerate. eauto.
Qed.

Lemma write_rows_frame style row0 col0 rows ws k :
  ~ covers row0 col0 rows k ->
  cells (Table.write_rows inj style row0 col0 rows ws) !! k = cells ws !! k.
Proof.
  intros Hk. unfold Table.write_rows.
  apply (rows_loop_spec style col0 (Py.enumerate rows row0) ws (enumerate_fst_NoDup _ _)).
  intros row xs (i & Hi & ->)%elem_of_enumerate Heq [H1 H2].
  apply Hk. exists i, xs. done.
Qed.
End Loops.


(** ** The table as a whole *)

Section WriteTable.
Context {A : Type} (inj : A -> Value).
Implicit Types (hstyle bstyle : positive -> positive -> A -> list Attr).

Lemma covers_cons_iff row0 col0 (xs : list A) rows k :
  covers row0 col0 (xs :: rows) k <->
  (fst k = row0 /\ (col0 <= snd k)%positive /\
   (Pos.to_nat (snd k) < Pos.to_nat col0 + length xs)%nat)
  \/ covers (Pos.succ row0) col0 rows k.
Proof.
  unfold covers. split.
  - intros (i & r & Hi & Hk & Hc). destruct i as [|i]; simpl in Hi.
    + left. simplify_eq. by rewrite at_0 in Hk.
    + right. exists i, r. by rewrite at_succ.
  - intros [(Hk & Hc) | (i & r & Hi & Hk & Hc)].
    + exists 0, xs. by rewrite at_0.
    + exists (S i), r. by rewrite <- at_succ.
Qed.

Lemma covers_row_ge row0 col0 (rows : list (list A)) k :
  covers row0 col0 rows k ->
  (row0 <= fst k)%positive /\ (Pos.to_nat (fst k) < Pos.to_nat row0 + length rows)%nat.
Proof.
  intros (i & r & Hi & Hk & _). apply lookup_lt_Some in Hi.
  rewrite Hk. unfold at_. lia.
Qed.

Lemma write_table_header hstyle bstyle ar ac headers rows ws j h :
  headers !! j = Some h ->
  cells (Table.write_table inj hstyle bstyle ar ac headers rows ws) !! (ar, at_ ac j)
  = Some (written inj hstyle ws ar (at_ ac j) h).
Proof.
  intros Hj. unfold Table.write_table.
  rewrite write_rows_frame.
  - by apply write_row_lookup.
  - intros Hc%covers_row_ge. simpl in Hc. lia.
Qed.

Lemma write_table_data hstyle bstyle ar ac headers rows ws i r j x :
  rows !! i = Some r -> r !! j = Some x ->
  cells (Table.write_table inj hstyle bstyle ar ac headers rows ws)
    !! (at_ ar (S i), at_ ac j)
  = Some (written inj bstyle (Table.write_row inj hstyle ar ac headers ws)
                  (at_ ar (S i)) (at_ ac j) x).
Proof.
  intros Hi Hj. unfold Table.write_table. rewrite <- at_succ.
  by eapply write_rows_lookup.
Qed.

Lemma write_table_frame hstyle bstyle ar ac headers rows ws k :
  ~ covers ar ac (headers :: rows) k ->
  cells (Table.write_table inj hstyle bstyle ar ac headers rows ws) !! k = cells ws !! k.
Proof.
  rewrite covers_cons_iff. intros Hk. unfold Table.write_table.
  rewrite write_rows_frame by tauto.
  apply write_row_frame.
  destruct (decide (fst k = ar)); [right; tauto | by left].
Qed.

Lemma value_at_lookup ws row col c :
  cells ws !! (row, col) = Some c -> value_at ws row col = value c.
Proof. intros H. unfold value_at, _get_cell. by rewrite H. Qed.


End WriteTable.



Global Instance at_Inj start : Inj (=) (=) (at_ start).
Proof. intros i j. apply at_inj. Qed.





(** The two loops of the question-set script are the table loops at the
    anchor [(1, 1)]. *)
Lemma ce_loops_are_write_table headers data ws :
  CyberEssentials.write_data data (CyberEssentials.write_headers headers ws)
  = Table.write_table Str CyberEssentials.header_style CyberEssentials.data_style
      1 1 headers data ws.
Proof. reflexivity. Qed.



(** ** Conditional fills *)

Lemma fill_at_lookup ws row col c :
  cells ws !! (row, col) = Some c -> fill_at ws row col = fill c.
Proof. intros H. unfold fill_at, _get_cell. by rewrite H. Qed.

Lemma write_rows_fill {A : Type} (inj : A -> Value) style row0 col0
  (rows : list (list A)) ws i r j x :
  rows !! i = Some r -> r !! j = Some x ->
  fill_at (Table.write_rows inj style row0 col0 rows ws) (at_ row0 i) (at_ col0 j)
  = fill (apply_attrs (style (at_ row0 i) (at_ col0 j) x)
            (set_value (Some (inj x)) (_get_cell (at_ row0 i) (at_ col0 j) ws))).
Proof.
  intros Hi Hj. erewrite fill_at_lookup by by eapply write_rows_lookup.
  reflexivity.
Qed.

Lemma fill_set_value v c : fill (set_value v c) = fill c.
Proof. by destruct v. Qed.

(** The fill the body of the question-set data loop leaves in a cell. *)
Lemma ce_data_style_fill row col v c :
  fill (apply_attrs (CyberEssentials.data_style row col v) c)
  = match (if (col =? 7)%positive then mapped_fill ce_fill_mapping v else None) with
    | Some p => Some p
    | None => fill c
    end.
Proof.
  unfold CyberEssentials.data_style, CyberEssentials.status_fill, ce_fill_mapping,
    mapped_fill, apply_attrs.
  destruct (col =? 1)%positive, (col =? 7)%positive; simpl; try reflexivity;
    repeat (destruct (String.eqb v _); simpl; try reflexivity).
Qed.

Lemma mapped_fill_is_Some m v :
  is_Some (mapped_fill m v) <-> v ∈ m.*1.
Proof.
  induction m as [|[k p] m IH]; simpl.
  - rewrite elem_of_nil. split; [intros [? ?]; done | done].
  - rewrite elem_of_cons. destruct (String.eqb v k) eqn:E.
    + apply String.eqb_eq in E. split; [by left | eauto].
    + apply String.eqb_neq in E. rewrite IH. split; [by right | by intros [?|?]].
Qed.

(** C3, as the code has it.  In the question-set script every entry of
    every data row is written; the cell receives a status colour exactly
    when it lies in column 7 and its value equals one of the four keys
    Ready, Pending, Confirm, Partial, and then it is the colour of that key;
    any other cell keeps the fill it had, which on the sheet of the script
    is none. *)
Theorem ce_fill_iff_status_key (data : list (list string)) (ws : Worksheet)
  (i j : nat) (r : list string) (v : string) :
  data !! i = Some r -> r !! j = Some v ->
  let ws' := CyberEssentials.write_data data ws in
  let row := at_ 2 i in
  let col := at_ 1 j in
  value_at ws' row col = Some (Str v) /\
  (forall p, col = 7%positive -> mapped_fill ce_fill_mapping v = Some p ->
     fill_at ws' row col = Some p) /\
  (col <> 7%positive \/ v ∉ ce_fill_mapping.*1 ->
     fill_at ws' row col = fill_at ws row col) /\
  (fill_at ws row col = None ->
     (is_Some (fill_at ws' row col) <-> col = 7%positive /\ v ∈ ce_fill_mapping.*1)).
Proof.
  intros Hi Hj ws' row col.
  assert (Hfill : fill_at ws' row col
                  = match (if (col =? 7)%positive then mapped_fill ce_fill_mapping v else None) with
                    | Some p => Some p
                    | None => fill_at ws row col
                    end).
  { subst ws' row col. unfold CyberEssentials.write_data.
    erewrite write_rows_fill by done.
    rewrite ce_data_style_fill. by rewrite fill_set_value. }
  split; [|split; [|split]].
  - subst ws' row col. unfold CyberEssentials.write_data.
    erewrite value_at_lookup by by eapply write_rows_lookup.
    apply value_written.
  - intros p Hc Hp. by rewrite Hfill, Hc, Pos.eqb_refl, Hp.
  - intros Hno. rewrite Hfill.
    destruct (col =? 7)%positive eqn:E; [|done].
    apply Pos.eqb_eq in E. destruct Hno as [Hno | Hno]; [done|].
    destruct (mapped_fill ce_fill_mapping v) as [p|] eqn:Ep; [|done].
    exfalso. apply Hno. apply mapped_fill_is_Some. by rewrite Ep.
  - intros Hnone. rewrite Hfill, Hnone.
    destruct (col =? 7)%positive eqn:E.
    + apply Pos.eqb_eq in E. rewrite <- mapped_fill_is_Some.
      destruct (mapped_fill ce_fill_mapping v) as [p|]; split; try done.
      all: try (intros [_ [? ?]]; done); try (intros [? ?]; done).
    + apply Pos.eqb_neq in E. split; [intros [? ?]; done | intros [? _]; done].
Qed.

(** Witness for C3: the status of question A1.6 is "Confirm" and is
    coloured; its draft answer in column 6 is not. *)
Lemma ce_fill_iff_status_key_witness :
  let ws := CyberEssentials.write_headers CyberEssentials.headers (new_sheet "CE Question Set") in
  let ws' := CyberEssentials.write_data CyberEssentials.data ws in
  fill_at ws' 7 7 = Some (solid "BDD7EE") /\
  fill_at ws' 7 6 = None.
Proof.
  split.
  - refine (proj1 (proj2 (ce_fill_iff_status_key CyberEssentials.data _ 5 6 _ "Confirm" _ _))
              (solid "BDD7EE") _ _); reflexivity.
  - etransitivity.
    + refine (proj1 (proj2 (proj2 (ce_fill_iff_status_key CyberEssentials.data _ 5 5 _
                                     "https://plannetic.com" _ _))) _);
        [reflexivity | reflexivity | left; discriminate].
    + reflexivity.
Defined.

(** C3 as stated fails.  In the question-set loop a value equal to a key
    is not coloured outside column 7; and in the MEMA workbook the cell E27
    is coloured although its value, "Confirm email", equals none of the
    strings the rule names. *)
Lemma fill_is_not_by_key_equality :
  (let ws' := CyberEssentials.write_data [["Ready"; "A1.9"; "Q"; "G"; "Yes/No"; "Yes"; "Other"]]
                (new_sheet "CE Question Set") in
   value_at ws' 2 1 = Some (Str "Ready") /\
   ("Ready" ∈ ce_fill_mapping.*1) /\
   fill_at ws' 2 1 = None) /\
  (value_in (Mema.build (mkEnv [] [])) 0 27 5 = Some (Str "Confirm email") /\
   ("Confirm email" ∉ mema_fill_keys) /\
   fill_in (Mema.build (mkEnv [] [])) 0 27 5 = Some Mema.action_fill).
Proof.
  split.
  - split; [vm_compute; reflexivity|]. split; [|vm_compute; reflexivity].
    apply mapped_fill_is_Some. vm_compute. eauto.
  - split; [vm_compute; reflexivity|]. split; [|vm_compute; reflexivity].
    intros H. repeat (apply elem_of_cons in H as [H | H]; [discriminate|]).
    by apply elem_of_nil in H.
Qed.


(** ** Substring tests *)

Lemma prefix_spec p s : String.prefix p s = true <-> exists b, s = p +:+ b.
Proof.
  revert s. induction p as [|a p IH]; intros s.
  - destruct s; simpl; split; eauto.
  - destruct s as [|c s]; simpl.
    + split; [done | intros [b Hb]; done].
    + destruct (Ascii.ascii_dec a c) as [-> | Hne].
      * rewrite IH. split; intros [b Hb]; exists b; [by rewrite Hb | by injection Hb].
      * split; [done | intros [b Hb]; injection Hb; intros; by subst].
Qed.

Lemma contains_nil sub : Py.contains sub "" = String.prefix sub "".
Proof. simpl. apply orb_false_r. Qed.

Lemma contains_cons sub c s :
  Py.contains sub (String c s) = String.prefix sub (String c s) || Py.contains sub s.
Proof. reflexivity. Qed.

Lemma contains_spec sub s : Py.contains sub s = true <-> is_substring sub s.
Proof.
  unfold is_substring. induction s as [|c s IH].
  - rewrite contains_nil, prefix_spec. split.
    + intros [b Hb]. by exists "", b.
    + intros (a & b & Hab). destruct a; [by exists b|done].
  - rewrite contains_cons, orb_true_iff, prefix_spec, IH. split.
    + intros [[b Hb] | (a & b & Hab)].
      * by exists "", b.
      * exists (String c a), b. simpl. by rewrite Hab.
    + intros (a & b & Hab). destruct a as [|c' a]; simpl in Hab.
      * left. by exists b.
      * right. injection Hab as -> ->. by exists a, b.
Qed.

(** The fill the body of the MEMA data loop leaves in a cell of column 5. *)
Lemma mema_data_style_fill row v c :
  fill (apply_attrs (Mema.data_style row 5 v) c)
  = if String.eqb v "Ready" then Some Mema.ready_fill
    else if Py.contains "ACTION" v || Py.contains "Confirm" v then Some Mema.action_fill
    else fill c.
Proof.
  unfold Mema.data_style, Mema.status_fill, apply_attrs. simpl.
  destruct (String.eqb v "Ready"); [reflexivity|].
  destruct (Py.contains "ACTION" v || Py.contains "Confirm" v); reflexivity.
Qed.

(** C8.  In the MEMA script the status (the fifth entry of a data row, in
    column 5) is coloured green exactly when it is "Ready" and yellow exactly
    when it contains "ACTION" or "Confirm"; any other status leaves the cell
    without fill.  The cell is taken to have no fill before the loop, as on
    the sheet of the script. *)
Theorem mema_status_fill (data : list (list string)) (ws : Worksheet)
  (i : nat) (r : list string) (v : string) :
  data !! i = Some r -> r !! 4 = Some v ->
  fill_at ws (at_ 2 i) 5 = None ->
  let ws' := Mema.write_data data ws in
  value_at ws' (at_ 2 i) 5 = Some (Str v) /\
  (fill_at ws' (at_ 2 i) 5 = Some Mema.ready_fill <-> v = "Ready") /\
  (fill_at ws' (at_ 2 i) 5 = Some Mema.action_fill <->
     is_substring "ACTION" v \/ is_substring "Confirm" v) /\
  (v <> "Ready" -> ~ is_substring "ACTION" v -> ~ is_substring "Confirm" v ->
     fill_at ws' (at_ 2 i) 5 = None).
Proof.
  intros Hi Hj Hnone ws'.
  assert (Hfill : fill_at ws' (at_ 2 i) 5
                  = if String.eqb v "Ready" then Some Mema.ready_fill
                    else if Py.contains "ACTION" v || Py.contains "Confirm" v
                         then Some Mema.action_fill
                         else None).
  { subst ws'. unfold Mema.write_data.
    change 5%positive with (at_ 1 4).
    erewrite write_rows_fill by done.
    change (at_ 1 4) with 5%positive.
    by rewrite mema_data_style_fill, fill_set_value, <- Hnone. }
  assert (Hsub : Py.contains "ACTION" v || Py.contains "Confirm" v = true <->
                 is_substring "ACTION" v \/ is_substring "Confirm" v).
  { by rewrite orb_true_iff, !contains_spec. }
  split; [|split; [|split]].
  - subst ws'. unfold Mema.write_data.
    change 5%positive with (at_ 1 4).
    erewrite value_at_lookup by by eapply write_rows_lookup.
    apply value_written.
  - rewrite Hfill. destruct (String.eqb v "Ready") eqn:E.
    + apply String.eqb_eq in E. done.
    + apply String.eqb_neq in E.
      destruct (Py.contains "ACTION" v || Py.contains "Confirm" v); split; done.
  - rewrite Hfill, <- Hsub. destruct (String.eqb v "Ready") eqn:E.
    + apply String.eqb_eq in E. subst v. split; [done|]. vm_compute. done.
    + destruct (Py.contains "ACTION" v || Py.contains "Confirm" v); split; done.
  - intros Hne H1 H2. rewrite Hfill.
    destruct (String.eqb v "Ready") eqn:E.
    + apply String.eqb_eq in E. done.
    + destruct (Py.contains "ACTION" v || Py.contains "Confirm" v); [|done].
      destruct Hsub as [Hs _]. specialize (Hs eq_refl). tauto.
Qed.

(** Witness for C8, on the data of the script: "Confirm email" (row 27)
    and "ACTION: Verify both firewalls are ON" (row 29) are coloured yellow,
    "Ready" (row 2) green, and "N/A" (row 14) not at all. *)
Lemma mema_status_fill_witness :
  let ws := Mema.write_headers Mema.headers (new_sheet "CE Answers") in
  let ws' := Mema.write_data Mema.data ws in
  fill_at ws' 27 5 = Some Mema.action_fill /\
  fill_at ws' 29 5 = Some Mema.action_fill /\
  fill_at ws' 2 5 = Some Mema.ready_fill /\
  fill_at ws' 14 5 = None.
Proof.
  set (ws := Mema.write_headers Mema.headers (new_sheet "CE Answers")).
  split; [|split; [|split]].
  - apply (proj2 (proj1 (proj2 (proj2
      (mema_status_fill Mema.data ws 25 _ "Confirm email" eq_refl eq_refl eq_refl))))).
    right. by exists "", " email".
  - apply (proj2 (proj1 (proj2 (proj2
      (mema_status_fill Mema.data ws 27 _ "ACTION: Verify both firewalls are ON"
         eq_refl eq_refl eq_refl))))).
    left. by exists "", ": Verify both firewalls are ON".
  - apply (proj2 (proj1 (proj2
      (mema_status_fill Mema.data ws 0 _ "Ready" eq_refl eq_refl eq_refl)))).
    reflexivity.
  - apply (proj2 (proj2 (proj2
      (mema_status_fill Mema.data ws 12 _ "N/A" eq_refl eq_refl eq_refl)))).
    + discriminate.
    + intros H%contains_spec. vm_compute in H. discriminate.
    + intros H%contains_spec. vm_compute in H. discriminate.
Defined.


(** ** Sheets of a workbook *)





(** ** Charts *)

(** C5.  A chart given the data reference column 2, rows 6-12 (titles from
    the data) and the categories reference column 1, rows 7-12: the series
    it gains reads exactly the cells of the data reference, B6 for its title
    and B7 to B12 for its values, and has exactly the categories reference;
    attaching the chart appends it to the charts of the sheet and changes no
    cell; and the chart is the same whatever the cells of the sheet hold.
    The bar charts of the competitor prices of the v2 and v3 scripts are
    built in this way and have this one series. *)
Theorem chart_references_exactly_its_ranges (ws : Worksheet) (ch : Chart) (at_cell : string) :
  let data := Reference_ ws 2 6 None (Some 12%positive) in
  let cats := Reference_ ws 1 7 None (Some 12%positive) in
  let ch' := set_categories cats (add_data data true ch) in
  let ws' := add_chart ch' at_cell ws in
  (exists s,
     ser ch' = (map (fun s0 => mkSeries (ser_title s0) (ser_val s0) (Some cats)) (ser ch)
                ++ [s])%list /\
     ser_title s = Some (mkReference (title ws) 2 6 2 6) /\
     ser_val s = mkReference (title ws) 2 7 2 12 /\
     series_cells s = ref_cells data /\
     ser_cat s = Some cats) /\
  cats = mkReference (title ws) 1 7 1 12 /\
  (exists c, _charts ws' = (_charts ws ++ [c])%list /\ ser c = ser ch' /\ anchor c = Some at_cell) /\
  cells ws' = cells ws /\
  (forall m : gmap (positive * positive) Cell,
     set_categories (Reference_ (with_cells m ws) 1 7 None (Some 12%positive))
       (add_data (Reference_ (with_cells m ws) 2 6 None (Some 12%positive)) true ch)
     = ch') /\
  (let s := mkSeries (Some (mkReference (title ws) 2 6 2 6))
                     (mkReference (title ws) 2 7 2 12)
                     (Some (mkReference (title ws) 1 7 1 12)) in
   ser (PricingV2.chart1 ws) = [s] /\ ser (PricingV3.chart1 ws) = [s] /\
   cells (add_chart (PricingV2.chart1 ws) "A15" ws) = cells ws /\
   cells (add_chart (PricingV3.chart1 ws) "A15" ws) = cells ws).
Proof.
  intros data cats ch' ws'.
  split; [|split; [|split; [|split; [|split]]]].
  - eexists. split.
    + subst ch' data cats. unfold set_categories, add_data. simpl.
      rewrite map_app. reflexivity.
    + repeat split; reflexivity.
  - reflexivity.
  - eexists. repeat split; reflexivity.
  - reflexivity.
  - intros m. reflexivity.
  - repeat split; reflexivity.
Qed.


(** ** The workbooks the scripts build *)

(** Splits a conjunction of closed facts and computes each. *)
Ltac compute_all :=
  repeat match goal with
         | |- _ /\ _ => split
         | |- Forall _ (_ :: _) => constructor
         | |- Forall _ [] => constructor
         end;
  vm_compute; reflexivity.

(** C6.  Every table of the five workbooks keeps the table invariant.  Each
    literal list of rows has rows of the length of its header list (7 for
    the question set, 5 for the MEMA answers, and so on; where the header
    is the first row of the literal, the other rows have its length); and
    on the sheets as built, the header row and every data row beneath it,
    also of the tables written cell by cell, hold values in exactly as many
    columns as the table has headers. *)
Theorem every_table_keeps_its_shape (env : Env) :
  (length CyberEssentials.headers = 7 /\
   shape_ok CyberEssentials.headers CyberEssentials.data = true /\
   length Mema.headers = 5 /\
   shape_ok Mema.headers Mema.data = true) /\
  (shape_ok PricingV2.pricing_headers PricingV2.pricing_data = true /\
   shape_ok_inline PricingV2.savings_data = true /\
   shape_ok PricingV2.comp_headers PricingV2.competitors = true /\
   shape_ok PricingV2.stack_headers PricingV2.stack_data = true /\
   shape_ok_inline PricingV2.inputs = true /\
   shape_ok_inline PricingV2.time_inputs = true /\
   shape_ok_inline PricingV2.results = true /\
   shape_ok PricingV2.tier_headers PricingV2.features = true) /\
  (shape_ok PricingV3.pricing_headers PricingV3.pricing_data = true /\
   shape_ok PricingV3.comp_headers PricingV3.competitors = true /\
   shape_ok PricingV3.stack_headers PricingV3.stack_data = true /\
   shape_ok_inline PricingV3.inputs = true /\
   shape_ok_inline PricingV3.time_inputs = true /\
   shape_ok_inline PricingV3.results = true /\
   shape_ok PricingV3.tier_headers PricingV3.features = true) /\
  (shape_ok PricingAnalysis.pricing_headers PricingAnalysis.pricing_data = true /\
   shape_ok_inline PricingAnalysis.metrics = true /\
   shape_ok PricingAnalysis.comp_headers PricingAnalysis.competitors = true /\
   shape_ok PricingAnalysis.stack_headers PricingAnalysis.stack_data = true /\
   shape_ok PricingAnalysis.tier_headers PricingAnalysis.features = true) /\
  (Forall (fun t => table_ok (CyberEssentials.build env) t = true) Tables.cyber_essentials /\
   Forall (fun t => table_ok (Mema.build env) t = true) Tables.mema /\
   Forall (fun t => table_ok (PricingV2.build env) t = true) Tables.pricing_v2 /\
   Forall (fun t => table_ok (PricingV3.build env) t = true) Tables.pricing_v3 /\
   Forall (fun t => table_ok (PricingAnalysis.build env) t = true) Tables.pricing_analysis).
Proof.
  assert (Hsame : forall e : Env,
            CyberEssentials.build e = CyberEssentials.build env /\
            Mema.build e = Mema.build env /\
            PricingV2.build e = PricingV2.build env /\
            PricingV3.build e = PricingV3.build env /\
            PricingAnalysis.build e = PricingAnalysis.build env)
    by (intros e; repeat split; reflexivity).
  destruct (Hsame (mkEnv [] [])) as (<- & <- & <- & <- & <-).
  unfold Tables.cyber_essentials, Tables.mema, Tables.pricing_v2, Tables.pricing_v3,
    Tables.pricing_analysis.
  compute_all.
Qed.


(** *** Loops that write one row per element *)

(** A loop over [enumerate(xs, start)] whose body establishes a property of
    its own row and keeps the property of every other row. *)
Lemma for_enumerate_rows {A S : Type} (body : positive -> A -> S -> S)
  (P : positive -> A -> S -> Prop) :
  (forall r x s, P r x (body r x s)) ->
  (forall r x r' x' s, r <> r' -> P r x s -> P r x (body r' x' s)) ->
  forall xs start s i x,
    xs !! i = Some x ->
    P (at_ start i) x (Py.for_ (Py.enumerate xs start) (fun '(r, x) => body r x) s).
Proof.
  intros Hown Hother.
  assert (Hkeep : forall r x xs start s,
            (r < start)%positive -> P r x s ->
            P r x (Py.for_ (Py.enumerate xs start) (fun '(r, x) => body r x) s)).
  { intros r x xs. induction xs as [|y xs IH]; intros start s Hlt HP; [done|].
    unfold Py.for_ in *. simpl. apply IH; [lia|]. apply Hother; [lia | done]. }
  intros xs. induction xs as [|y xs IH]; intros start s i x Hi; [done|].
  unfold Py.for_ in *. simpl. destruct i as [|i]; simpl in Hi.
  - injection Hi as ->. rewrite at_0. apply Hkeep; [lia|]. apply Hown.
  - rewrite <- at_succ. by apply IH.
Qed.

Lemma value_at_cell r c v ws r' c' :
  value_at (cell r c (Some v) ws) r' c'
  = if decide ((r, c) = (r', c')) then Some v else value_at ws r' c'.
Proof.
  unfold value_at, _get_cell, cell. simpl. case_decide as Hk.
  - injection Hk as <- <-. by rewrite lookup_insert_eq.
  - by rewrite lookup_insert_ne.
Qed.

Lemma value_at_assign r c a ws r' c' :
  value_at (assign r c a ws) r' c' = value_at ws r' c'.
Proof.
  unfold value_at, _get_cell, assign. simpl.
  destruct (decide ((r, c) = (r', c'))) as [Hk | Hk].
  - injection Hk as <- <-. rewrite lookup_insert_eq. simpl. apply value_set_attr.
  - by rewrite lookup_insert_ne.
Qed.

Lemma value_at_assign_all r c attrs ws r' c' :
  value_at (assign_all r c attrs ws) r' c' = value_at ws r' c'.
Proof.
  unfold assign_all, Py.for_. revert ws.
  induction attrs as [|a attrs IH]; intros ws; [done|].
  simpl. by rewrite IH, value_at_assign.
Qed.

Lemma value_at_put r c v attrs ws r' c' :
  value_at (put r c v attrs ws) r' c'
  = if decide ((r, c) = (r', c')) then Some v else value_at ws r' c'.
Proof.
  unfold put, Table.styled_cell. by rewrite value_at_assign_all, value_at_cell.
Qed.

(** A loop of conditional attribute assignments changes no value. *)
Lemma value_at_for_assign {B : Type} (l : list B) (test : B -> Worksheet -> bool)
  (pos : B -> positive * positive) (a : Attr) ws r' c' :
  value_at (Py.for_ l (fun b ws =>
              if test b ws then assign (fst (pos b)) (snd (pos b)) a ws else ws) ws) r' c'
  = value_at ws r' c'.
Proof.
  unfold Py.for_. revert ws. induction l as [|b l IH]; intros ws; [done|].
  simpl. rewrite IH. destruct (test b ws); [apply value_at_assign | done].
Qed.

Lemma value_at_v2_alt_fill_row r ws r' c' :
  value_at (PricingV2.alt_fill_row r ws) r' c' = value_at ws r' c'.
Proof.
  unfold PricingV2.alt_fill_row. destruct (Val.mod2 r =? 0)%Z; [|done].
  apply (value_at_for_assign (Py.range 1 6)
           (fun c ws => negb (Py.truthy (fill_rgb (_get_cell r c ws)))
                        || String.eqb (fill_rgb (_get_cell r c ws)) "00000000")
           (fun c => (r, c))).
Qed.

Lemma value_at_pa_alt_fill_row r ws r' c' :
  value_at (PricingAnalysis.alt_fill_row r ws) r' c' = value_at ws r' c'.
Proof.
  unfold PricingAnalysis.alt_fill_row. destruct (Val.mod2 r =? 0)%Z; [|done].
  apply (value_at_for_assign (Py.range 1 7)
           (fun c ws => String.eqb (fill_rgb (_get_cell r c ws)) "00000000")
           (fun c => (r, c))).
Qed.

(** Rewrites the value of a cell through the statements of a loop body. *)
Ltac value_through :=
  repeat first
    [ rewrite value_at_v2_alt_fill_row
    | rewrite value_at_pa_alt_fill_row
    | rewrite value_at_put
    | rewrite value_at_assign
    | rewrite value_at_cell ];
  repeat case_decide; simplify_eq; try reflexivity.

Lemma v2_revenue_row_own r firms ws :
  revenue_row_written (PricingV2.revenue_row r firms ws) r firms.
Proof.
  unfold revenue_row_written, formula_cells, revenue_formulas.
  change (Py.range 2 8) with [2; 3; 4; 5; 6; 7]%positive.
  unfold PricingV2.revenue_row, block, Py.for_. simpl.
  split; [|repeat f_equal]; value_through.
Qed.

Lemma v2_revenue_row_other r firms ws r' c :
  r' <> r -> value_at (PricingV2.revenue_row r firms ws) r' c = value_at ws r' c.
Proof.
  intros Hne. unfold PricingV2.revenue_row, block, Py.for_. simpl. value_through.
Qed.

Lemma pa_revenue_row_own r firms ws :
  revenue_row_written (PricingAnalysis.revenue_row r firms ws) r firms.
Proof.
  unfold revenue_row_written, formula_cells, revenue_formulas.
  change (Py.range 2 8) with [2; 3; 4; 5; 6; 7]%positive.
  unfold PricingAnalysis.revenue_row, block, Py.for_. simpl.
  split; [|repeat f_equal]; value_through.
Qed.

Lemma pa_revenue_row_other r firms ws r' c :
  r' <> r -> value_at (PricingAnalysis.revenue_row r firms ws) r' c = value_at ws r' c.
Proof.
  intros Hne. unfold PricingAnalysis.revenue_row, block, Py.for_. simpl. value_through.
Qed.

Lemma revenue_row_written_ext ws ws' r firms :
  (forall c, value_at ws' r c = value_at ws r c) ->
  revenue_row_written ws r firms -> revenue_row_written ws' r firms.
Proof.
  intros Hext [H1 H2]. unfold revenue_row_written, formula_cells in *.
  rewrite Hext. split; [done|]. rewrite <- H2. apply map_ext. intros c. apply Hext.
Qed.

(** C9.  The loop over the firm counts of the three pricing scripts, run on
    any list of counts and any sheet, leaves in the row [r] of each count
    the count in column 1 and in columns 2 to 7 the six formulas over [r]
    itself and the input cells [$B$5] and [$B$6]: [=A{r}*$B$5*24],
    [=A{r}*$B$6*24], [=A{r}*$B$5*36], [=A{r}*$B$6*36], [=E{r}-B{r}] and
    [=A{r}*($B$5+$B$6)/2].  The three scripts iterate over the same sixteen
    counts, and in the Revenue Calculator sheet of each workbook as built
    the rows 13 to 28 hold these values. *)
Theorem revenue_rows_reference_their_own_row (env : Env) :
  (forall (firm_counts : list Z) (ws : Worksheet) (i : nat) (firms : Z),
     firm_counts !! i = Some firms ->
     revenue_row_written (PricingV2.revenue_rows firm_counts ws) (at_ 13 i) firms /\
     revenue_row_written (PricingV3.revenue_rows firm_counts ws) (at_ 13 i) firms /\
     revenue_row_written (PricingAnalysis.revenue_rows firm_counts ws) (at_ 13 i) firms) /\
  (length PricingV2.firm_counts = 16 /\
   PricingV3.firm_counts = PricingV2.firm_counts /\
   PricingAnalysis.firm_counts = PricingV2.firm_counts) /\
  (forall (i : nat) (firms : Z),
     PricingV2.firm_counts !! i = Some firms ->
     let r := at_ 13 i in
     (13 <= r <= 28)%positive /\
     (value_in (PricingV2.build env) 2 r 1 = Some (Int firms) /\
      columns_2_to_7 (PricingV2.build env) 2 r = revenue_formulas r) /\
     (value_in (PricingV3.build env) 2 r 1 = Some (Int firms) /\
      columns_2_to_7 (PricingV3.build env) 2 r = revenue_formulas r) /\
     (value_in (PricingAnalysis.build env) 1 r 1 = Some (Int firms) /\
      columns_2_to_7 (PricingAnalysis.build env) 1 r = revenue_formulas r)).
Proof.
  split; [|split].
  - intros firm_counts ws i firms Hi.
    assert (Hv2 : revenue_row_written (PricingV2.revenue_rows firm_counts ws) (at_ 13 i) firms).
    { unfold PricingV2.revenue_rows.
      apply (for_enumerate_rows PricingV2.revenue_row
               (fun r firms ws => revenue_row_written ws r firms)); [| |done].
      - intros r x s. apply v2_revenue_row_own.
      - intros r x r' x' s Hne. apply revenue_row_written_ext.
        intros c. by apply v2_revenue_row_other. }
    split; [exact Hv2|]. split; [exact Hv2|].
    unfold PricingAnalysis.revenue_rows.
    apply (for_enumerate_rows PricingAnalysis.revenue_row
             (fun r firms ws => revenue_row_written ws r firms)); [| |done].
    + intros r x s. apply pa_revenue_row_own.
    + intros r x r' x' s Hne. apply revenue_row_written_ext.
      intros c. by apply pa_revenue_row_other.
  - repeat split; reflexivity.
  - intros i firms Hi r. subst r.
    do 16 (destruct i as [|i];
           [injection Hi as <-; split; [unfold at_; lia|]; compute_all|]).
    discriminate.
Qed.

(** Witness for C9: row 13, the first of the sixteen, with its formulas
    written out. *)
Lemma revenue_rows_reference_their_own_row_witness :
  PricingV2.firm_counts !! 0 = Some 1%Z /\
  formula_cells (PricingV2.revenue_rows PricingV2.firm_counts (new_sheet "Revenue Calculator")) 13
  = [Some (Str "=A13*$B$5*24"); Some (Str "=A13*$B$6*24"); Some (Str "=A13*$B$5*36");
     Some (Str "=A13*$B$6*36"); Some (Str "=E13-B13"); Some (Str "=A13*($B$5+$B$6)/2")] /\
  columns_2_to_7 (PricingV2.build (mkEnv [] [])) 2 13
  = [Some (Str "=A13*$B$5*24"); Some (Str "=A13*$B$6*24"); Some (Str "=A13*$B$5*36");
     Some (Str "=A13*$B$6*36"); Some (Str "=E13-B13"); Some (Str "=A13*($B$5+$B$6)/2")].
Proof.
  destruct (revenue_rows_reference_their_own_row (mkEnv [] [])) as (Hloop & _ & Hbuilt).
  split; [reflexivity|]. split.
  - exact (proj2 (proj1 (Hloop PricingV2.firm_counts (new_sheet "Revenue Calculator")
                           0 1%Z eq_refl))).
  - exact (proj2 (proj1 (proj2 (Hbuilt 0 1%Z eq_refl)))).
Defined.

(** C10.  In the Growth Projections sheet of the v2 and v3 scripts, for
    [i] from 0 to 4 the cells of row [5 + i] in columns 9, 10 and 11 hold
    [=F{11+i}], [=F{20+i}] and [=F{29+i}]; column 6 is the column F and is
    headed "ARR" in rows 10, 19 and 28; the rows [11 + i], [20 + i] and
    [29 + i] are those in which the scenario loops write the ARR formula
    [=E{row}*12]; and column 6 holds values in the rows 10-15, 19-24 and
    28-33 only, so the rows the helper formulas name are exactly the ARR
    rows of the three scenarios. *)
Theorem chart_helper_rows_are_the_arr_rows (env : Env) (i : nat) :
  i < 5 ->
  Forall (fun wb =>
    (value_in wb 3 (at_ 5 i) 9 = Some (Str ("=F" +:+ Py.str (at_ 11 i))) /\
     value_in wb 3 (at_ 5 i) 10 = Some (Str ("=F" +:+ Py.str (at_ 20 i))) /\
     value_in wb 3 (at_ 5 i) 11 = Some (Str ("=F" +:+ Py.str (at_ 29 i)))) /\
    (value_in wb 3 (at_ 11 i) 6 = Some (Str ("=E" +:+ Py.str (at_ 11 i) +:+ "*12")) /\
     value_in wb 3 (at_ 20 i) 6 = Some (Str ("=E" +:+ Py.str (at_ 20 i) +:+ "*12")) /\
     value_in wb 3 (at_ 29 i) 6 = Some (Str ("=E" +:+ Py.str (at_ 29 i) +:+ "*12"))) /\
    (value_in wb 3 10 6 = Some (Str "ARR") /\
     value_in wb 3 19 6 = Some (Str "ARR") /\
     value_in wb 3 28 6 = Some (Str "ARR")) /\
    column_rows wb 3 6
    = list_to_set [10; 11; 12; 13; 14; 15; 19; 20; 21; 22; 23; 24;
                   28; 29; 30; 31; 32; 33]%positive)
    [PricingV2.build env; PricingV3.build env] /\
  get_column_letter 6 = Ok "F".
Proof.
  intros Hi.
  do 5 (destruct i as [|i]; [split; [|reflexivity]; compute_all|]).
  lia.
Qed.

(** Witness for C10: the last helper row, with its formulas written out. *)
Lemma chart_helper_rows_are_the_arr_rows_witness :
  4 < 5 /\
  value_in (PricingV2.build (mkEnv [] [])) 3 9 9 = Some (Str "=F15") /\
  value_in (PricingV2.build (mkEnv [] [])) 3 9 10 = Some (Str "=F24") /\
  value_in (PricingV2.build (mkEnv [] [])) 3 9 11 = Some (Str "=F33") /\
  value_in (PricingV2.build (mkEnv [] [])) 3 15 6 = Some (Str "=E15*12").
Proof.
  split; [lia|].
  pose proof (chart_helper_rows_are_the_arr_rows (mkEnv [] []) 4 (le_n 5)) as [H _].
  apply Forall_cons in H as [((H9 & H10 & H11) & (H15 & _) & _) _].
  split; [exact H9|]. split; [exact H10|]. split; [exact H11 | exact H15].
Defined.


(** ** Cells after a statement *)

Import Frame.

Lemma get_cell_lookup ws r c x : cells ws !! (r, c) = Some x -> _get_cell r c ws = x.
Proof. intros H. unfold _get_cell. by rewrite H. Qed.

Lemma get_cell_cell r c v ws r' c' :
  _get_cell r' c' (cell r c v ws)
  = if decide ((r, c) = (r', c')) then set_value v (_get_cell r c ws) else _get_cell r' c' ws.
Proof.
  unfold _get_cell, cell. simpl. case_decide as Hk.
  - injection Hk as <- <-. by rewrite lookup_insert_eq.
  - by rewrite lookup_insert_ne.
Qed.

Lemma get_cell_assign r c a ws r' c' :
  _get_cell r' c' (assign r c a ws)
  = if decide ((r, c) = (r', c')) then set_attr a (_get_cell r c ws) else _get_cell r' c' ws.
Proof.
  unfold _get_cell, assign. simpl. case_decide as Hk.
  - injection Hk as <- <-. by rewrite lookup_insert_eq.
  - by rewrite lookup_insert_ne.
Qed.

Lemma get_cell_assign_all r c attrs ws r' c' :
  _get_cell r' c' (assign_all r c attrs ws)
  = if decide ((r, c) = (r', c')) then apply_attrs attrs (_get_cell r c ws)
    else _get_cell r' c' ws.
Proof.
  unfold assign_all, Py.for_, apply_attrs. revert ws.
  induction attrs as [|a attrs IH]; intros ws; simpl.
  - by case_decide; simplify_eq.
  - rewrite IH, !get_cell_assign. case_decide; [|done]. by rewrite decide_True.
Qed.

Lemma get_cell_put r c v attrs ws r' c' :
  _get_cell r' c' (put r c v attrs ws)
  = if decide ((r, c) = (r', c'))
    then apply_attrs attrs (set_value (Some v) (_get_cell r c ws))
    else _get_cell r' c' ws.
Proof.
  unfold put, Table.styled_cell. rewrite get_cell_assign_all, !get_cell_cell.
  case_decide; [|done]. by rewrite decide_True.
Qed.

Lemma get_cell_setitem k v ws r' c' :
  _get_cell r' c' (setitem k v ws)
  = if decide (k = (r', c')) then set_value (Some v) (_get_cell (fst k) (snd k) ws)
    else _get_cell r' c' ws.
Proof. destruct k as [r c]. apply get_cell_cell. Qed.

Lemma get_cell_setattr k a ws r' c' :
  _get_cell r' c' (setattr k a ws)
  = if decide (k = (r', c')) then set_attr a (_get_cell (fst k) (snd k) ws)
    else _get_cell r' c' ws.
Proof. destruct k as [r c]. apply get_cell_assign. Qed.

Lemma get_cell_same_cells ws1 ws2 r c :
  cells ws1 = cells ws2 -> _get_cell r c ws1 = _get_cell r c ws2.
Proof. unfold _get_cell. by intros ->. Qed.

Lemma write_rows_get_cell {A : Type} (inj : A -> Value) style row0 col0
  (rows : list (list A)) ws i r j x :
  rows !! i = Some r -> r !! j = Some x ->
  _get_cell (at_ row0 i) (at_ col0 j) (Table.write_rows inj style row0 col0 rows ws)
  = apply_attrs (style (at_ row0 i) (at_ col0 j) x)
      (set_value (Some (inj x)) (_get_cell (at_ row0 i) (at_ col0 j) ws)).
Proof.
  intros Hi Hj. erewrite get_cell_lookup by by eapply write_rows_lookup. reflexivity.
Qed.

Lemma write_row_get_cell {A : Type} (inj : A -> Value) style row col0 (xs : list A) ws j x :
  xs !! j = Some x ->
  _get_cell row (at_ col0 j) (Table.write_row inj style row col0 xs ws)
  = apply_attrs (style row (at_ col0 j) x)
      (set_value (Some (inj x)) (_get_cell row (at_ col0 j) ws)).
Proof.
  intros Hj. erewrite get_cell_lookup by by eapply write_row_lookup. reflexivity.
Qed.

(** *** Statements on one row *)

Lemma touches_row_id r : touches_row r (fun ws => ws).
Proof. by split. Qed.

Lemma touches_row_cell r c v : touches_row r (cell r c v).
Proof.
  split.
  - intros ws r' c' Hne. rewrite get_cell_cell. case_decide; simplify_eq; done.
  - intros ws1 ws2 H c'. rewrite !get_cell_cell. case_decide; by rewrite H.
Qed.

Lemma touches_row_assign r c a : touches_row r (assign r c a).
Proof.
  split.
  - intros ws r' c' Hne. rewrite get_cell_assign. case_decide; simplify_eq; done.
  - intros ws1 ws2 H c'. rewrite !get_cell_assign. case_decide; by rewrite H.
Qed.

Lemma touches_row_put r c v attrs : touches_row r (put r c v attrs).
Proof.
  split.
  - intros ws r' c' Hne. rewrite get_cell_put. case_decide; simplify_eq; done.
  - intros ws1 ws2 H c'. rewrite !get_cell_put. case_decide; by rewrite H.
Qed.

Lemma touches_row_compose r f g :
  touches_row r f -> touches_row r g -> touches_row r (fun ws => g (f ws)).
Proof.
  intros [Hf1 Hf2] [Hg1 Hg2]. split.
  - intros ws r' c Hne. by rewrite Hg1, Hf1.
  - intros ws1 ws2 H c. apply Hg2. by apply Hf2.
Qed.

Lemma touches_row_for {B : Type} r (l : list B) body :
  (forall x, touches_row r (body x)) -> touches_row r (Py.for_ l body).
Proof.
  intros Hb. unfold Py.for_. split.
  - induction l as [|x l IH]; intros ws r' c Hne; simpl; [done|].
    rewrite IH by done. by apply (Hb x).
  - induction l as [|x l IH]; intros ws1 ws2 H c; simpl; [done|].
    apply IH. by apply (Hb x).
Qed.

Lemma touches_row_block r (stmts : list (Worksheet -> Worksheet)) :
  Forall (touches_row r) stmts -> touches_row r (block stmts).
Proof.
  intros Hs. unfold block, Py.for_. split.
  - induction Hs as [|f l Hf _ IH]; intros ws r' c Hne; simpl; [done|].
    rewrite IH by done. by apply Hf.
  - induction Hs as [|f l Hf _ IH]; intros ws1 ws2 H c; simpl; [done|].
    apply IH. by apply Hf.
Qed.

Lemma touches_row_if r (b : bool) f g :
  touches_row r f -> touches_row r g -> touches_row r (if b then f else g).
Proof. by destruct b. Qed.

(** A statement guarded by a test on the cells of the row. *)
Lemma touches_row_guard r (test : Worksheet -> bool) f :
  (forall ws1 ws2, (forall c, _get_cell r c ws1 = _get_cell r c ws2) -> test ws1 = test ws2) ->
  touches_row r f ->
  touches_row r (fun ws => if test ws then f ws else ws).
Proof.
  intros Ht [Hf1 Hf2]. split.
  - intros ws r' c Hne. destruct (test ws); [by apply Hf1 | done].
  - intros ws1 ws2 H c. rewrite (Ht ws1 ws2 H). destruct (test ws2); [by apply Hf2 | done].
Qed.

(** A loop whose body, for the element [(k, x)], is a statement on the row
    [rowf k], the rows of distinct elements being distinct: the row of an
    element is, after the loop, as its own iteration leaves it on the sheet
    the loop started from; no other row changes. *)
Lemma for_rows_local {K A : Type} (rowf : K -> positive)
  (body : K -> A -> Worksheet -> Worksheet) (l : list (K * A)) ws :
  (forall k x, touches_row (rowf k) (body k x)) ->
  NoDup (rowf <$> l.*1) ->
  let ws' := Py.for_ l (fun '(k, x) => body k x) ws in
  (forall k x c, (k, x) ∈ l ->
     _get_cell (rowf k) c ws' = _get_cell (rowf k) c (body k x ws)) /\
  (forall r c, r ∉ (rowf <$> l.*1) -> _get_cell r c ws' = _get_cell r c ws).
Proof.
  intros Hb. revert ws. unfold Py.for_.
  induction l as [|[k0 x0] l IH]; intros ws Hnd; simpl.
  - split; [intros ??? H; by apply elem_of_nil in H | done].
  - apply NoDup_cons in Hnd as [Hk0 Hnd].
    destruct (IH (body k0 x0 ws) Hnd) as [IH1 IH2]. split.
    + intros k x c [[= -> ->] | Hin]%elem_of_cons.
      * by apply IH2.
      * rewrite (IH1 _ _ _ Hin).
        assert (Hne : rowf k <> rowf k0).
        { intros Heq. apply Hk0. simpl.
          apply list_elem_of_fmap. exists k. split; [done|].
          apply list_elem_of_fmap. by exists (k, x). }
        apply (proj2 (Hb k x)). intros c'. by apply (proj1 (Hb k0 x0)).
    + intros r c Hr. rewrite IH2.
      * apply (proj1 (Hb k0 x0)). intros ->. apply Hr. by left.
      * intros Hin. apply Hr. by right.
Qed.

(** The rows of [enumerate(xs, start)] are distinct, and so are those of a
    loop that adds its counter to a first row. *)
Lemma enumerate_rows_NoDup {A : Type} (xs : list A) start :
  NoDup ((fun r : positive => r) <$> (Py.enumerate xs start).*1).
Proof. rewrite list_fmap_id. apply enumerate_fst_NoDup. Qed.

Lemma for_enumerate_local {A : Type} (body : positive -> A -> Worksheet -> Worksheet)
  (xs : list A) start ws i x c :
  (forall r x, touches_row r (body r x)) ->
  xs !! i = Some x ->
  _get_cell (at_ start i) c (Py.for_ (Py.enumerate xs start) (fun '(r, x) => body r x) ws)
  = _get_cell (at_ start i) c (body (at_ start i) x ws).
Proof.
  intros Hb Hi.
  apply (for_rows_local (fun r => r) body (Py.enumerate xs start) ws Hb
           (enumerate_rows_NoDup xs start)).
  apply elem_of_enumerate. eauto.
Qed.

Lemma for_enumerate_frame {A : Type} (body : positive -> A -> Worksheet -> Worksheet)
  (xs : list A) start ws r c :
  (forall r x, touches_row r (body r x)) ->
  ~ ((start <= r)%positive /\ (Pos.to_nat r < Pos.to_nat start + length xs)%nat) ->
  _get_cell r c (Py.for_ (Py.enumerate xs start) (fun '(r, x) => body r x) ws)
  = _get_cell r c ws.
Proof.
  intros Hb Hr.
  apply (for_rows_local (fun r => r) body (Py.enumerate xs start) ws Hb
           (enumerate_rows_NoDup xs start)).
  rewrite list_fmap_id, enumerate_fst_range. done.
Qed.


(** ** Rows written cell by cell *)

Lemma fill_set_attr_other a c :
  match a with fill_ _ => False | _ => True end -> fill (set_attr a c) = fill c.
Proof. by destruct a. Qed.

Lemma fill_rgb_ext c1 c2 : fill c1 = fill c2 -> fill_rgb c1 = fill_rgb c2.
Proof. unfold fill_rgb. by intros ->. Qed.

(** Rewrites the cell at a coordinate through the statements of a loop
    body. *)
Ltac cell_through :=
  repeat first
    [ rewrite get_cell_put
    | rewrite get_cell_assign
    | rewrite get_cell_cell
    | rewrite get_cell_setitem
    | rewrite get_cell_setattr ];
  repeat case_decide; simplify_eq; try reflexivity.

(** Computes the fields of a cell after assignments. *)
Ltac cell_fields :=
  unfold apply_attrs;
  cbn [foldl set_attr set_value value font fill border alignment number_format];
  try reflexivity.

(** Proves that a loop body is a statement on its row. *)
Ltac row_statement :=
  repeat first
    [ apply touches_row_id
    | apply touches_row_put
    | apply touches_row_assign
    | apply touches_row_cell
    | apply touches_row_block
    | apply touches_row_for; intros ?
    | apply touches_row_if
    | apply touches_row_guard;
      [let H := fresh in intros ? ? H; by rewrite H |]
    | apply Forall_cons; split
    | apply Forall_nil_2 ].

(** A loop over columns that fills the cells of a row which pass a test on
    the cell itself. *)
Lemma get_cell_fill_where (test : Cell -> bool) r (cols : list positive) p ws c :
  NoDup cols ->
  _get_cell r c
    (Py.for_ cols (fun c ws => if test (_get_cell r c ws)
                               then assign r c (fill_ p) ws else ws) ws)
  = if bool_decide (c ∈ cols) && test (_get_cell r c ws)
    then set_attr (fill_ p) (_get_cell r c ws)
    else _get_cell r c ws.
Proof.
  unfold Py.for_. revert ws. induction cols as [|c0 cols IH]; intros ws Hnd; simpl.
  - done.
  - apply NoDup_cons in Hnd as [Hc0 Hnd]. rewrite IH by done.
    destruct (decide (c = c0)) as [-> | Hne].
    + rewrite (bool_decide_eq_false_2 (c0 ∈ cols)) by done.
      rewrite (bool_decide_eq_true_2 (c0 ∈ c0 :: cols)) by (by left). simpl.
      destruct (test (_get_cell r c0 ws)); [|done].
      rewrite get_cell_assign. by rewrite decide_True.
    + assert (Hsame : _get_cell r c
                        (if test (_get_cell r c0 ws) then assign r c0 (fill_ p) ws else ws)
                      = _get_cell r c ws).
      { destruct (test (_get_cell r c0 ws)); [|done].
        rewrite get_cell_assign. rewrite decide_False; [done|]. by intros [= ->]. }
      rewrite Hsame.
      assert (Hin : bool_decide (c ∈ c0 :: cols) = bool_decide (c ∈ cols)).
      { apply bool_decide_ext. rewrite elem_of_cons. tauto. }
      by rewrite Hin.
Qed.

Lemma touches_row_fill_where (test : Cell -> bool) r (cols : list positive) p :
  touches_row r
    (Py.for_ cols (fun c ws => if test (_get_cell r c ws)
                               then assign r c (fill_ p) ws else ws)).
Proof.
  apply touches_row_for. intros c.
  apply (touches_row_guard r (fun ws => test (_get_cell r c ws))).
  - intros ws1 ws2 H. by rewrite H.
  - apply touches_row_assign.
Qed.

(** The test of the v2 and v3 scripts on the colour of a cell: it has none,
    or the default one. *)
Lemma touches_row_v2_revenue_row r firms : touches_row r (PricingV2.revenue_row r firms).
Proof.
  unfold PricingV2.revenue_row. row_statement.
Qed.

Lemma touches_row_v3_revenue_row r firms : touches_row r (PricingV3.revenue_row r firms).
Proof.
  unfold PricingV3.revenue_row. row_statement.
Qed.

Lemma touches_row_pa_revenue_row r firms : touches_row r (PricingAnalysis.revenue_row r firms).
Proof.
  unfold PricingAnalysis.revenue_row. row_statement.
Qed.

Lemma block_cons (f : Worksheet -> Worksheet) l ws : block (f :: l) ws = block l (f ws).
Proof. reflexivity. Qed.

Lemma block_nil (ws : Worksheet) : block [] ws = ws.
Proof. reflexivity. Qed.

Lemma NoDup_range_1_6 : NoDup (Py.range 1 6).
Proof. apply (bool_decide_unpack _). vm_compute. exact I. Qed.

Lemma NoDup_range_1_7 : NoDup (Py.range 1 7).
Proof. apply (bool_decide_unpack _). vm_compute. exact I. Qed.

Lemma fill_apply_attrs_no_fill attrs c :
  Forall (fun a => match a with fill_ _ => False | _ => True end) attrs ->
  fill (apply_attrs attrs c) = fill c.
Proof.
  unfold apply_attrs. intros H. revert c.
  induction H as [|a attrs Ha _ IH]; intros c; simpl; [done|].
  rewrite IH. by apply fill_set_attr_other.
Qed.

(** The fill of a cell of a revenue row after the iteration of its row, in
    terms of the cell before. *)
Lemma v2_revenue_row_fill r firms ws c :
  fill (_get_cell r c (PricingV2.revenue_row r firms ws))
  = if (c =? 6)%positive then Some PricingV2.highlight_fill
    else if (Val.mod2 r =? 0)%Z && bool_decide (c ∈ Py.range 1 6)
            && (negb (Py.truthy (fill_rgb (_get_cell r c ws)))
                || String.eqb (fill_rgb (_get_cell r c ws)) "00000000")
    then Some PricingV2.alt_fill
    else fill (_get_cell r c ws).
Proof.
  unfold PricingV2.revenue_row. rewrite !block_cons, block_nil.
  unfold PricingV2.alt_fill_row.
  destruct (Val.mod2 r =? 0)%Z.
  - rewrite (get_cell_fill_where (fun c => negb (Py.truthy (fill_rgb c)) || String.eqb (fill_rgb c) "00000000"))
      by apply NoDup_range_1_6.
    match goal with |- context [set_attr _ ?x] => set (c1 := x) end.
    assert (Hc1 : fill c1 = if (c =? 6)%positive then Some PricingV2.highlight_fill
                            else fill (_get_cell r c ws)).
    { subst c1. cell_through; cell_fields.
      destruct (c =? 6)%positive eqn:E; [|done].
      apply Pos.eqb_eq in E. congruence. }
    clearbody c1. destruct (c =? 6)%positive eqn:E.
    + apply Pos.eqb_eq in E. subst c.
      assert (Hrgb : fill_rgb c1 = "00DCFCE7") by (unfold fill_rgb; by rewrite Hc1).
      rewrite Hrgb.
      change (negb (Py.truthy "00DCFCE7") || String.eqb "00DCFCE7" "00000000") with false.
      rewrite andb_false_r. exact Hc1.
    + rewrite (fill_rgb_ext c1 (_get_cell r c ws) Hc1). rewrite andb_true_l.
      destruct (bool_decide (c ∈ Py.range 1 6) && _); [reflexivity | exact Hc1].
  - rewrite !andb_false_l. cell_through; cell_fields.
    destruct (c =? 6)%positive eqn:E; [|done].
    apply Pos.eqb_eq in E. congruence.
Qed.

Lemma v3_revenue_row_fill r firms ws c :
  fill (_get_cell r c (PricingV3.revenue_row r firms ws))
  = if (c =? 6)%positive then Some PricingV3.highlight_fill
    else if (Val.mod2 r =? 0)%Z && bool_decide (c ∈ Py.range 1 6)
            && (negb (Py.truthy (fill_rgb (_get_cell r c ws)))
                || String.eqb (fill_rgb (_get_cell r c ws)) "00000000")
    then Some PricingV3.alt_fill
    else fill (_get_cell r c ws).
Proof.
  unfold PricingV3.revenue_row. rewrite !block_cons, block_nil.
  unfold PricingV3.alt_fill_row.
  destruct (Val.mod2 r =? 0)%Z.
  - rewrite (get_cell_fill_where (fun c => negb (Py.truthy (fill_rgb c)) || String.eqb (fill_rgb c) "00000000"))
      by apply NoDup_range_1_6.
    match goal with |- context [set_attr _ ?x] => set (c1 := x) end.
    assert (Hc1 : fill c1 = if (c =? 6)%positive then Some PricingV3.highlight_fill
                            else fill (_get_cell r c ws)).
    { subst c1. cell_through; cell_fields.
      destruct (c =? 6)%positive eqn:E; [|done].
      apply Pos.eqb_eq in E. congruence. }
    clearbody c1. destruct (c =? 6)%positive eqn:E.
    + apply Pos.eqb_eq in E. subst c.
      assert (Hrgb : fill_rgb c1 = "00DCFCE7") by (unfold fill_rgb; by rewrite Hc1).
      rewrite Hrgb.
      change (negb (Py.truthy "00DCFCE7") || String.eqb "00DCFCE7" "00000000") with false.
      rewrite andb_false_r. exact Hc1.
    + rewrite (fill_rgb_ext c1 (_get_cell r c ws) Hc1). rewrite andb_true_l.
      destruct (bool_decide (c ∈ Py.range 1 6) && _); [reflexivity | exact Hc1].
  - rewrite !andb_false_l. cell_through; cell_fields.
    destruct (c =? 6)%positive eqn:E; [|done].
    apply Pos.eqb_eq in E. congruence.
Qed.

Lemma pa_revenue_row_fill r firms ws c :
  fill (_get_cell r c (PricingAnalysis.revenue_row r firms ws))
  = if (c =? 6)%positive then Some PricingAnalysis.highlight_fill
    else if (Val.mod2 r =? 0)%Z && bool_decide (c ∈ Py.range 1 7)
            && (String.eqb (fill_rgb (_get_cell r c ws)) "00000000")
    then Some PricingAnalysis.alt_fill
    else fill (_get_cell r c ws).
Proof.
  unfold PricingAnalysis.revenue_row. rewrite !block_cons, block_nil.
  unfold PricingAnalysis.alt_fill_row.
  destruct (Val.mod2 r =? 0)%Z.
  - rewrite (get_cell_fill_where (fun c => String.eqb (fill_rgb c) "00000000"))
      by apply NoDup_range_1_7.
    match goal with |- context [set_attr _ ?x] => set (c1 := x) end.
    assert (Hc1 : fill c1 = if (c =? 6)%positive then Some PricingAnalysis.highlight_fill
                            else fill (_get_cell r c ws)).
    { subst c1. cell_through; cell_fields.
      destruct (c =? 6)%positive eqn:E; [|done].
      apply Pos.eqb_eq in E. congruence. }
    clearbody c1. destruct (c =? 6)%positive eqn:E.
    + apply Pos.eqb_eq in E. subst c.
      assert (Hrgb : fill_rgb c1 = "00DCFCE7") by (unfold fill_rgb; by rewrite Hc1).
      rewrite Hrgb.
      change (String.eqb "00DCFCE7" "00000000") with false.
      rewrite andb_false_r. exact Hc1.
    + rewrite (fill_rgb_ext c1 (_get_cell r c ws) Hc1). rewrite andb_true_l.
      destruct (bool_decide (c ∈ Py.range 1 7) && _); [reflexivity | exact Hc1].
  - rewrite !andb_false_l. cell_through; cell_fields.
    destruct (c =? 6)%positive eqn:E; [|done].
    apply Pos.eqb_eq in E. congruence.
Qed.

(** X10.  The alternate fill of the revenue rows (the loop over the firm
    counts of the three pricing scripts, on any list of counts and any
    sheet).  In the row [r] of a count, column 6 has the highlight fill and
    the columns right of it keep the fill they had.  The columns 1 to 5
    keep their fill in an odd row; in an even row a cell of them that had no
    fill gets the alternate fill, and a cell that had a fill of another
    colour than the default [00000000] keeps it. *)
Theorem revenue_rows_alternate_fill (firm_counts : list Z) (ws : Worksheet)
  (i : nat) (firms : Z) :
  firm_counts !! i = Some firms ->
  let r := at_ 13 i in
  Forall (fun revenue_rows : list Z -> Worksheet -> Worksheet =>
    let ws' := revenue_rows firm_counts ws in
    fill_at ws' r 6 = Some (solid "DCFCE7") /\
    (forall c, (6 < c)%positive -> fill_at ws' r c = fill_at ws r c) /\
    (forall c, (c <= 5)%positive ->
       (Val.mod2 r <> 0%Z -> fill_at ws' r c = fill_at ws r c) /\
       (Val.mod2 r = 0%Z -> fill_at ws r c = None ->
          fill_at ws' r c = Some (solid "F3F4F6")) /\
       (Val.mod2 r = 0%Z ->
          fill_rgb (_get_cell r c ws) <> "00000000" -> fill_rgb (_get_cell r c ws) <> "" ->
          fill_at ws' r c = fill_at ws r c)))
    [PricingV2.revenue_rows; PricingV3.revenue_rows; PricingAnalysis.revenue_rows].
Proof.
  intros Hi r.
  assert (Hin5 : forall c, (c <= 5)%positive -> bool_decide (c ∈ Py.range 1 6) = true).
  { intros c Hc. apply bool_decide_eq_true_2.
    assert (Hcs : (c = 1 \/ c = 2 \/ c = 3 \/ c = 4 \/ c = 5)%positive) by lia.
    change (Py.range 1 6) with [1; 2; 3; 4; 5]%positive.
    destruct Hcs as [-> | [-> | [-> | [-> | ->]]]]; set_solver. }
  assert (Hin5' : forall c, (c <= 5)%positive -> bool_decide (c ∈ Py.range 1 7) = true).
  { intros c Hc. apply bool_decide_eq_true_2.
    assert (Hcs : (c = 1 \/ c = 2 \/ c = 3 \/ c = 4 \/ c = 5)%positive) by lia.
    change (Py.range 1 7) with [1; 2; 3; 4; 5; 6]%positive.
    destruct Hcs as [-> | [-> | [-> | [-> | ->]]]]; set_solver. }
  assert (Hout : forall c n, (6 < c)%positive -> (n <= 7)%positive ->
                   bool_decide (c ∈ Py.range 1 n) = false).
  { intros c n Hc Hn. apply bool_decide_eq_false_2. unfold Py.range.
    rewrite list_elem_of_fmap. intros (k & -> & Hk%elem_of_seq). lia. }
  assert (Hnone : forall c, fill_at ws r c = None -> fill_rgb (_get_cell r c ws) = "00000000").
  { intros c Hc. unfold fill_rgb. unfold fill_at in Hc. by rewrite Hc. }
  assert (Hne6 : forall c, (c <= 5)%positive \/ (6 < c)%positive -> (c =? 6)%positive = false).
  { intros c Hc. apply Pos.eqb_neq. lia. }
  repeat apply Forall_cons_2; [| | |apply Forall_nil_2].
  - assert (Hfill : forall c, fill_at (PricingV2.revenue_rows firm_counts ws) r c
                              = fill (_get_cell r c (PricingV2.revenue_row r firms ws))).
    { intros c. unfold fill_at, PricingV2.revenue_rows.
      exact (f_equal fill (for_enumerate_local PricingV2.revenue_row firm_counts 13 ws i firms c
                             touches_row_v2_revenue_row Hi)). }
    simpl. split; [|split].
    + by rewrite Hfill, v2_revenue_row_fill.
    + intros c Hc. rewrite Hfill, v2_revenue_row_fill, Hne6 by auto.
      by rewrite (Hout c 6%positive Hc), andb_false_r by lia.
    + intros c Hc. rewrite Hfill, v2_revenue_row_fill, Hne6, Hin5 by auto.
      split; [|split].
      * intros Hodd. by rewrite (proj2 (Z.eqb_neq _ _) Hodd).
      * intros Heven Hno. rewrite Heven, (Hnone c Hno). reflexivity.
      * intros Heven H1 H2. rewrite Heven. simpl.
        rewrite (proj2 (String.eqb_neq _ _) H1).
        unfold Py.truthy. by rewrite (proj2 (String.eqb_neq _ _) H2).
  - assert (Hfill : forall c, fill_at (PricingV3.revenue_rows firm_counts ws) r c
                              = fill (_get_cell r c (PricingV3.revenue_row r firms ws))).
    { intros c. unfold fill_at, PricingV3.revenue_rows.
      exact (f_equal fill (for_enumerate_local PricingV3.revenue_row firm_counts 13 ws i firms c
                             touches_row_v3_revenue_row Hi)). }
    simpl. split; [|split].
    + by rewrite Hfill, v3_revenue_row_fill.
    + intros c Hc. rewrite Hfill, v3_revenue_row_fill, Hne6 by auto.
      by rewrite (Hout c 6%positive Hc), andb_false_r by lia.
    + intros c Hc. rewrite Hfill, v3_revenue_row_fill, Hne6, Hin5 by auto.
      split; [|split].
      * intros Hodd. by rewrite (proj2 (Z.eqb_neq _ _) Hodd).
      * intros Heven Hno. rewrite Heven, (Hnone c Hno). reflexivity.
      * intros Heven H1 H2. rewrite Heven. simpl.
        rewrite (proj2 (String.eqb_neq _ _) H1).
        unfold Py.truthy. by rewrite (proj2 (String.eqb_neq _ _) H2).
  - assert (Hfill : forall c, fill_at (PricingAnalysis.revenue_rows firm_counts ws) r c
                              = fill (_get_cell r c (PricingAnalysis.revenue_row r firms ws))).
    { intros c. unfold fill_at, PricingAnalysis.revenue_rows.
      exact (f_equal fill (for_enumerate_local PricingAnalysis.revenue_row firm_counts 13 ws i firms c
                             touches_row_pa_revenue_row Hi)). }
    simpl. split; [|split].
    + by rewrite Hfill, pa_revenue_row_fill.
    + intros c Hc. rewrite Hfill, pa_revenue_row_fill, Hne6 by auto.
      by rewrite (Hout c 7%positive Hc), andb_false_r by lia.
    + intros c Hc. rewrite Hfill, pa_revenue_row_fill, Hne6, Hin5' by auto.
      split; [|split].
      * intros Hodd. by rewrite (proj2 (Z.eqb_neq _ _) Hodd).
      * intros Heven Hno. rewrite Heven, (Hnone c Hno). reflexivity.
      * intros Heven H1 H2. rewrite Heven. simpl.
        by rewrite (proj2 (String.eqb_neq _ _) H1).
Qed.

(** Witness for X10: row 14, the second of the v2 sheet. *)
Lemma revenue_rows_alternate_fill_witness :
  let ws := new_sheet "Revenue Calculator" in
  PricingV2.firm_counts !! 1 = Some 2%Z /\
  fill_at (PricingV2.revenue_rows PricingV2.firm_counts ws) 14 6 = Some (solid "DCFCE7") /\
  fill_at (PricingV2.revenue_rows PricingV2.firm_counts ws) 14 3 = Some (solid "F3F4F6") /\
  fill_at (PricingV2.revenue_rows PricingV2.firm_counts ws) 14 7 = None.
Proof.
  pose proof (revenue_rows_alternate_fill PricingV2.firm_counts
                (new_sheet "Revenue Calculator") 1 2%Z eq_refl) as H.
  apply Forall_cons in H as [(H6 & Hright & Hleft) _].
  split; [reflexivity|]. split; [exact H6|]. split.
  - apply (proj1 (proj2 (Hleft 3%positive ltac:(lia)))); reflexivity.
  - exact (Hright 7%positive ltac:(lia)).
Defined.

(** ** Loops over a counter from 0 *)

Lemma plus_at base (j : nat) : Py.plus base (N.of_nat j) = at_ base j.
Proof. unfold Py.plus, at_. destruct j as [|j]; simpl; lia. Qed.

Lemma enumerate0_lookup {A : Type} (xs : list A) (start : N) j :
  Py.enumerate0 xs start !! j = (fun x => ((start + N.of_nat j)%N, x)) <$> xs !! j.
Proof.
  revert start j. induction xs as [|x xs IH]; intros start j; [done|].
  destruct j as [|j]; simpl.
  - by rewrite N.add_0_r.
  - rewrite IH. destruct (xs !! j); simpl; [|done]. do 2 f_equal. lia.
Qed.

Lemma elem_of_enumerate0 {A : Type} (xs : list A) k x :
  (k, x) ∈ Py.enumerate0 xs 0 <-> exists j, xs !! j = Some x /\ k = N.of_nat j.
Proof.
  rewrite list_elem_of_lookup. split.
  - intros [j Hj]. rewrite enumerate0_lookup in Hj.
    destruct (xs !! j) as [y|] eqn:E; simplify_eq/=. eauto.
  - intros (j & Hj & ->). exists j. by rewrite enumerate0_lookup, Hj.
Qed.

Lemma enumerate0_rows {A : Type} (xs : list A) base :
  Py.plus base <$> (Py.enumerate0 xs 0).*1 = at_ base <$> seq 0 (length xs).
Proof.
  apply list_eq. intros j. rewrite !list_lookup_fmap, enumerate0_lookup.
  destruct (xs !! j) as [x|] eqn:E; simpl.
  - rewrite lookup_seq_lt by (by eapply lookup_lt_Some). simpl.
    by rewrite N.add_0_l, plus_at.
  - apply lookup_ge_None in E. by rewrite lookup_seq_ge.
Qed.

Lemma enumerate0_rows_NoDup {A : Type} (xs : list A) base :
  NoDup (Py.plus base <$> (Py.enumerate0 xs 0).*1).
Proof.
  rewrite enumerate0_rows. apply NoDup_fmap_2; [apply _ | apply NoDup_seq].
Qed.

Lemma elem_of_enumerate0_rows {A : Type} (xs : list A) base r :
  r ∈ Py.plus base <$> (Py.enumerate0 xs 0).*1 <->
  (base <= r)%positive /\ (Pos.to_nat r < Pos.to_nat base + length xs)%nat.
Proof.
  rewrite enumerate0_rows, list_elem_of_fmap. split.
  - intros (j & -> & Hj%elem_of_seq). unfold at_. lia.
  - intros [H1 H2]. exists (Pos.to_nat r - Pos.to_nat base). split.
    + unfold at_. lia.
    + apply elem_of_seq. lia.
Qed.

(** A loop over [enumerate(xs)] whose body writes the row [base + i]. *)
Lemma for_enumerate0_local {A : Type} (body : N -> A -> Worksheet -> Worksheet)
  base (xs : list A) ws i x c :
  (forall k x, touches_row (Py.plus base k) (body k x)) ->
  xs !! i = Some x ->
  _get_cell (at_ base i) c (Py.for_ (Py.enumerate0 xs 0) (fun '(k, x) => body k x) ws)
  = _get_cell (at_ base i) c (body (N.of_nat i) x ws).
Proof.
  intros Hb Hi. rewrite <- plus_at.
  apply (for_rows_local (Py.plus base) body (Py.enumerate0 xs 0) ws Hb
           (enumerate0_rows_NoDup xs base)).
  apply elem_of_enumerate0. eauto.
Qed.

Lemma for_enumerate0_frame {A : Type} (body : N -> A -> Worksheet -> Worksheet)
  base (xs : list A) ws r c :
  (forall k x, touches_row (Py.plus base k) (body k x)) ->
  ~ ((base <= r)%positive /\ (Pos.to_nat r < Pos.to_nat base + length xs)%nat) ->
  _get_cell r c (Py.for_ (Py.enumerate0 xs 0) (fun '(k, x) => body k x) ws)
  = _get_cell r c ws.
Proof.
  intros Hb Hr.
  apply (for_rows_local (Py.plus base) body (Py.enumerate0 xs 0) ws Hb
           (enumerate0_rows_NoDup xs base)).
  by rewrite elem_of_enumerate0_rows.
Qed.

(** A loop that makes the same assignment to several cells of a row. *)
Lemma get_cell_for_assign r (cols : list positive) a ws c :
  _get_cell r c (Py.for_ cols (fun col => assign r col a) ws)
  = if bool_decide (c ∈ cols) then set_attr a (_get_cell r c ws) else _get_cell r c ws.
Proof.
  assert (Hidem : forall x, set_attr a (set_attr a x) = set_attr a x) by (by destruct a).
  unfold Py.for_. revert ws. induction cols as [|c0 cols IH]; intros ws; simpl; [done|].
  rewrite IH, get_cell_assign.
  destruct (decide (c = c0)) as [-> | Hne].
  - rewrite decide_True by done.
    rewrite (bool_decide_eq_true_2 (c0 ∈ c0 :: cols)) by (by left).
    rewrite Hidem. by destruct (bool_decide (c0 ∈ cols)).
  - rewrite decide_False by (by intros [= ->]).
    apply (f_equal (fun b : bool => if b then _ else _)).
    apply bool_decide_ext. rewrite elem_of_cons. tauto.
Qed.


Lemma touches_row_v2_scenario_row base k new_firms :
  touches_row (Py.plus base k) (PricingV2.scenario_row base k new_firms).
Proof. unfold PricingV2.scenario_row. row_statement. Qed.

Lemma touches_row_v3_scenario_row base k new_firms :
  touches_row (Py.plus base k) (PricingV3.scenario_row base k new_firms).
Proof. unfold PricingV3.scenario_row. row_statement. Qed.

Lemma pred_at_succ base k : Pos.pred (at_ base (S k)) = at_ base k.
Proof. unfold at_. lia. Qed.

(** The cell of a row after a statement on a cell of the same row. *)
Lemma get_cell_put_row r c v attrs ws c' :
  _get_cell r c' (put r c v attrs ws)
  = if (c =? c')%positive
    then apply_attrs attrs (set_value (Some v) (_get_cell r c ws))
    else _get_cell r c' ws.
Proof.
  rewrite get_cell_put. destruct (c =? c')%positive eqn:E.
  - apply Pos.eqb_eq in E. subst. by rewrite decide_True.
  - apply Pos.eqb_neq in E. rewrite decide_False; [done|]. by intros [= ->].
Qed.

Lemma get_cell_assign_row r c a ws c' :
  _get_cell r c' (assign r c a ws)
  = if (c =? c')%positive then set_attr a (_get_cell r c ws) else _get_cell r c' ws.
Proof.
  rewrite get_cell_assign. destruct (c =? c')%positive eqn:E.
  - apply Pos.eqb_eq in E. subst. by rewrite decide_True.
  - apply Pos.eqb_neq in E. rewrite decide_False; [done|]. by intros [= ->].
Qed.

Lemma get_cell_cell_row r c v ws c' :
  _get_cell r c' (cell r c v ws)
  = if (c =? c')%positive then set_value v (_get_cell r c ws) else _get_cell r c' ws.
Proof.
  rewrite get_cell_cell. destruct (c =? c')%positive eqn:E.
  - apply Pos.eqb_eq in E. subst. by rewrite decide_True.
  - apply Pos.eqb_neq in E. rewrite decide_False; [done|]. by intros [= ->].
Qed.

(** Rewrites the cell at a known column through the statements on its
    row, one statement at a time. *)
Ltac row_cell_through :=
  repeat (first [ rewrite get_cell_put_row
                | rewrite get_cell_assign_row
                | rewrite get_cell_cell_row ];
          cbn [Pos.eqb]; cbv iota).

(** Reduces the column [at_ 1 j] of a known index to its number. *)
Ltac column_number :=
  repeat match goal with
         | |- context [at_ 1 ?j] =>
             let c := eval vm_compute in (at_ 1 j) in change (at_ 1 j) with c
         end.

(** Computes the closed tests of a goal. *)
Ltac decide_closed :=
  repeat match goal with
         | |- context [bool_decide ?P] =>
             let b := eval vm_compute in (bool_decide P) in
             change (bool_decide P) with b
         end;
  cbv iota.

Lemma range_1_7 : Py.range 1 7 = [1; 2; 3; 4; 5; 6]%positive.
Proof. reflexivity. Qed.

Lemma v2_scenario_row_cell base i new_firms ws j v :
  scenario_values (Z.of_nat i + 1) new_firms (at_ base i) (row_before base i) !! j = Some v ->
  _get_cell (at_ base i) (at_ 1 j) (PricingV2.scenario_row base (N.of_nat i) new_firms ws)
  = let c0 := _get_cell (at_ base i) (at_ 1 j) ws in
    mkCell (Some v) (font c0) (fill c0) (Some PricingV2.thin_border) (Some PricingV2.center)
           (if bool_decide (4 <= j) then Some PricingV2.pounds else number_format c0).
Proof.
  intros Hv. unfold PricingV2.scenario_row. rewrite plus_at, nat_N_Z.
  destruct i as [|k].
  - change (N.of_nat 0 =? 0)%N with true. cbv iota.
    generalize dependent (at_ base 0). intros r Hv.
    do 6 (destruct j as [|j];
          [injection Hv as <-; column_number;
           rewrite !block_cons, !block_nil, get_cell_for_assign, range_1_7;
           decide_closed; row_cell_through; cell_fields|]).
    done.
  - change (N.of_nat (S k) =? 0)%N with false. cbv iota.
    rewrite pred_at_succ. simpl row_before in Hv.
    generalize dependent (at_ base k). intros prev.
    generalize dependent (at_ base (S k)). intros r Hv.
    do 6 (destruct j as [|j];
          [injection Hv as <-; column_number;
           rewrite !block_cons, !block_nil, get_cell_for_assign, range_1_7;
           decide_closed; row_cell_through; cell_fields|]).
    done.
Qed.

Lemma v3_scenario_row_cell base i new_firms ws j v :
  scenario_values (Z.of_nat i + 1) new_firms (at_ base i) (row_before base i) !! j = Some v ->
  _get_cell (at_ base i) (at_ 1 j) (PricingV3.scenario_row base (N.of_nat i) new_firms ws)
  = let c0 := _get_cell (at_ base i) (at_ 1 j) ws in
    mkCell (Some v) (font c0) (fill c0) (Some PricingV3.thin_border) (Some PricingV3.center)
           (if bool_decide (4 <= j) then Some PricingV3.pounds else number_format c0).
Proof.
  intros Hv. unfold PricingV3.scenario_row. rewrite plus_at, nat_N_Z.
  destruct i as [|k].
  - change (N.of_nat 0 =? 0)%N with true. cbv iota.
    generalize dependent (at_ base 0). intros r Hv.
    do 6 (destruct j as [|j];
          [injection Hv as <-; column_number;
           rewrite !block_cons, !block_nil, get_cell_for_assign, range_1_7;
           decide_closed; row_cell_through; cell_fields|]).
    done.
  - change (N.of_nat (S k) =? 0)%N with false. cbv iota.
    rewrite pred_at_succ. simpl row_before in Hv.
    generalize dependent (at_ base k). intros prev.
    generalize dependent (at_ base (S k)). intros r Hv.
    do 6 (destruct j as [|j];
          [injection Hv as <-; column_number;
           rewrite !block_cons, !block_nil, get_cell_for_assign, range_1_7;
           decide_closed; row_cell_through; cell_fields|]).
    done.
Qed.


(** X11.  The scenario loops of the Growth Projections sheet (v2 and v3),
    on any list of new firms per year, any first row [base] and any sheet.
    The year of index [i] is written in the row [base + i]: the year number
    [i + 1], the new firms, the churn and the total, the monthly and the
    annual revenue.  The first year has the churn 0 and the total [=B{r}];
    every later year takes both from the row of the year before, which is
    the row [base + i - 1] the loop has written for that year.  The six
    cells get the border and the centred alignment, the revenue cells the
    pound format, and font and fill are left alone.  No row outside
    [base .. base + len(new) - 1] changes. *)
Theorem scenario_rows_chain (base : positive) (new : list Z) (ws : Worksheet) :
  Forall (fun scenario_rows : positive -> list Z -> Worksheet -> Worksheet =>
    let ws' := scenario_rows base new ws in
    (forall i new_firms j v,
       new !! i = Some new_firms ->
       scenario_values (Z.of_nat i + 1) new_firms (at_ base i) (row_before base i) !! j
       = Some v ->
       let c0 := _get_cell (at_ base i) (at_ 1 j) ws in
       _get_cell (at_ base i) (at_ 1 j) ws'
       = mkCell (Some v) (font c0) (fill c0)
                (Some (box (mkSide (Some "thin") (Some "D1D5DB"))))
                (Some (mkAlignment (Some "center") None false))
                (if bool_decide (4 <= j) then Some "£#,##0" else number_format c0)) /\
    (forall r c,
       ~ ((base <= r)%positive /\ (Pos.to_nat r < Pos.to_nat base + length new)%nat) ->
       _get_cell r c ws' = _get_cell r c ws))
    [PricingV2.scenario_rows; PricingV3.scenario_rows].
Proof.
  repeat apply Forall_cons_2; [| |apply Forall_nil_2]; simpl.
  - split.
    + intros i new_firms j v Hi Hv. unfold PricingV2.scenario_rows.
      rewrite (for_enumerate0_local (PricingV2.scenario_row base) base new ws i new_firms _
                 (touches_row_v2_scenario_row base) Hi).
      by apply v2_scenario_row_cell.
    + intros r c Hr. unfold PricingV2.scenario_rows.
      by apply (for_enumerate0_frame (PricingV2.scenario_row base) base new ws r c
                  (touches_row_v2_scenario_row base)).
  - split.
    + intros i new_firms j v Hi Hv. unfold PricingV3.scenario_rows.
      rewrite (for_enumerate0_local (PricingV3.scenario_row base) base new ws i new_firms _
                 (touches_row_v3_scenario_row base) Hi).
      by apply v3_scenario_row_cell.
    + intros r c Hr. unfold PricingV3.scenario_rows.
      by apply (for_enumerate0_frame (PricingV3.scenario_row base) base new ws r c
                  (touches_row_v3_scenario_row base)).
Qed.

(** Witness for X11: the second year of the conservative scenario. *)
Lemma scenario_rows_chain_witness :
  let ws' := PricingV2.scenario_rows 11 PricingV2.conservative_new
               (new_sheet "Growth Projections") in
  value_at ws' 12 3 = Some (Str "=ROUND(D11*$B$6,0)") /\
  value_at ws' 12 4 = Some (Str "=D11+B12-C12") /\
  number_format (_get_cell 12 6 ws') = Some "£#,##0" /\
  _get_cell 16 1 ws' = new_cell.
Proof.
  pose proof (scenario_rows_chain 11 PricingV2.conservative_new
                (new_sheet "Growth Projections")) as H.
  apply Forall_cons in H as [[Hrow Hframe] _].
  split; [|split; [|split]].
  - exact (f_equal value (Hrow 1 10%Z 2 _ eq_refl eq_refl)).
  - exact (f_equal value (Hrow 1 10%Z 3 _ eq_refl eq_refl)).
  - exact (f_equal number_format (Hrow 1 10%Z 5 _ eq_refl eq_refl)).
  - rewrite Hframe; [reflexivity|]. simpl. lia.
Defined.


Lemma for_cons {B S : Type} (x : B) l (body : B -> S -> S) s :
  Py.for_ (x :: l) body s = Py.for_ l body (body x s).
Proof. reflexivity. Qed.

Lemma for_nil {B S : Type} (body : B -> S -> S) s : Py.for_ [] body s = s.
Proof. reflexivity. Qed.

Lemma touches_row_pa_scenario_row base k year new_firms :
  touches_row (Py.plus base k) (PricingAnalysis.scenario_row base k year new_firms).
Proof.
  unfold PricingAnalysis.scenario_row, PricingAnalysis.scenario_row_style. row_statement.
Qed.

Lemma zip_range_lookup (new : list Z) i :
  zip (Py.range 1 6) new !! i
  = if bool_decide (i < 5) then (fun n => (at_ 1 i, n)) <$> new !! i else None.
Proof.
  change (Py.range 1 6) with [1; 2; 3; 4; 5]%positive.
  do 5 (destruct i as [|i]; [by destruct new as [|? [|? [|? [|? [|? ?]]]]]|]).
  rewrite bool_decide_eq_false_2 by lia.
  by destruct new as [|? [|? [|? [|? [|? ?]]]]].
Qed.

Lemma zip_range_length (new : list Z) : length (zip (Py.range 1 6) new) = 5 `min` length new.
Proof. rewrite length_zip. reflexivity. Qed.

Lemma pa_scenario_row_cell base i new_firms ws j v :
  pa_scenario_values (Z.of_nat i + 1) new_firms (at_ base i) (row_before base i) !! j = Some v ->
  _get_cell (at_ base i) (at_ 1 j)
    (PricingAnalysis.scenario_row base (N.of_nat i) (at_ 1 i) new_firms ws)
  = let c0 := _get_cell (at_ base i) (at_ 1 j) ws in
    mkCell (Some v) (font c0) (fill c0) (Some PricingAnalysis.thin_border)
           (Some PricingAnalysis.center)
           (if bool_decide (4 <= j) then Some PricingAnalysis.pounds else number_format c0).
Proof.
  intros Hv. unfold PricingAnalysis.scenario_row, PricingAnalysis.scenario_row_style.
  rewrite plus_at.
  assert (Hyear : Z.pos (at_ 1 i) = (Z.of_nat i + 1)%Z) by (unfold at_; lia).
  rewrite Hyear.
  destruct i as [|k].
  - change (N.of_nat 0 =? 0)%N with true. cbv iota.
    generalize dependent (at_ base 0). intros r Hv.
    do 6 (destruct j as [|j];
          [injection Hv as <-; column_number;
           rewrite !block_cons, !block_nil, range_1_7, !for_cons, for_nil;
           cbv beta; cbn [Pos.leb Pos.compare Pos.compare_cont]; cbv iota;
           rewrite !block_cons, !block_nil;
           decide_closed; row_cell_through; cell_fields|]).
    done.
  - change (N.of_nat (S k) =? 0)%N with false. cbv iota.
    rewrite pred_at_succ. simpl row_before in Hv.
    generalize dependent (at_ base k). intros prev.
    generalize dependent (at_ base (S k)). intros r Hv.
    do 6 (destruct j as [|j];
          [injection Hv as <-; column_number;
           rewrite !block_cons, !block_nil, range_1_7, !for_cons, for_nil;
           cbv beta; cbn [Pos.leb Pos.compare Pos.compare_cont]; cbv iota;
           rewrite !block_cons, !block_nil;
           decide_closed; row_cell_through; cell_fields|]).
    done.
Qed.

(** X12.  The scenario loops of the analysis script run over
    [zip(range(1, 6), new)], which stops at the shorter of the two: of any
    list of new firms per year at most the first five entries are written.
    The entry of index [i < 5] is written in the row [base + i] with the
    year [i + 1], its formulas over its own row and the row of the year
    before, the border and the centred alignment on its six cells and the
    pound format on the revenue cells; the rows from [base + 5] on, and all
    rows outside the loop's, are as before, however long the list is. *)
Theorem pa_scenario_rows_five_years (base : positive) (new : list Z) (ws : Worksheet) :
  let ws' := PricingAnalysis.scenario_rows base new ws in
  (forall i new_firms j v,
     i < 5 -> new !! i = Some new_firms ->
     pa_scenario_values (Z.of_nat i + 1) new_firms (at_ base i) (row_before base i) !! j
     = Some v ->
     let c0 := _get_cell (at_ base i) (at_ 1 j) ws in
     _get_cell (at_ base i) (at_ 1 j) ws'
     = mkCell (Some v) (font c0) (fill c0)
              (Some (box (mkSide (Some "thin") None)))
              (Some (mkAlignment (Some "center") None false))
              (if bool_decide (4 <= j) then Some "£#,##0" else number_format c0)) /\
  (forall r c,
     ~ ((base <= r)%positive /\
        (Pos.to_nat r < Pos.to_nat base + 5 `min` length new)%nat) ->
     _get_cell r c ws' = _get_cell r c ws).
Proof.
  set (body := fun (k : N) (x : positive * Z) =>
                 let '(year, new_firms) := x in
                 PricingAnalysis.scenario_row base k year new_firms).
  assert (Hb : forall k x, touches_row (Py.plus base k) (body k x)).
  { intros k [year nf]. apply touches_row_pa_scenario_row. }
  simpl. split.
  - intros i new_firms j v Hlt Hi Hv.
    assert (Hz : zip (Py.range 1 6) new !! i = Some (at_ 1 i, new_firms)).
    { rewrite zip_range_lookup, bool_decide_eq_true_2 by done. by rewrite Hi. }
    unfold PricingAnalysis.scenario_rows.
    etransitivity.
    + exact (for_enumerate0_local body base (zip (Py.range 1 6) new) ws i
               (at_ 1 i, new_firms) (at_ 1 j) Hb Hz).
    + by apply pa_scenario_row_cell.
  - intros r c Hr. unfold PricingAnalysis.scenario_rows.
    apply (for_enumerate0_frame body base (zip (Py.range 1 6) new) ws r c Hb).
    by rewrite zip_range_length.
Qed.

(** Witness for X12: seven entries, of which the sixth is not written. *)
Lemma pa_scenario_rows_five_years_witness :
  let ws' := PricingAnalysis.scenario_rows 22 [25; 35; 45; 60; 75; 90; 100]%Z
               (new_sheet "Growth Projections") in
  value_at ws' 26 1 = Some (Int 5) /\
  value_at ws' 26 3 = Some (Str "=ROUND(D25*$B$6/100,0)") /\
  _get_cell 27 1 ws' = new_cell.
Proof.
  pose proof (pa_scenario_rows_five_years 22 [25; 35; 45; 60; 75; 90; 100]%Z
                (new_sheet "Growth Projections")) as [Hrow Hframe].
  split; [|split].
  - exact (f_equal value (Hrow 4 75%Z 0 _ ltac:(lia) eq_refl eq_refl)).
  - exact (f_equal value (Hrow 4 75%Z 2 _ ltac:(lia) eq_refl eq_refl)).
  - rewrite Hframe; [reflexivity|]. simpl. lia.
Defined.

(** ** The rows of the ROI calculator of the analysis script *)









Lemma in_list_spec x (l : list string) : Py.in_list x l = true <-> x ∈ l.
Proof.
  unfold Py.in_list. induction l as [|y l IH]; simpl.
  - split; [done | by intros ?%elem_of_nil].
  - rewrite orb_true_iff, IH, String.eqb_eq, elem_of_cons. done.
Qed.




(** ** The styles of the table loops *)

Lemma at_1_eqb j k : (at_ 1 j =? Pos.of_nat (S k))%positive = bool_decide (j = k).
Proof.
  destruct (decide (j = k)) as [-> | Hne].
  - rewrite bool_decide_eq_true_2 by done. apply Pos.eqb_eq. unfold at_. lia.
  - rewrite bool_decide_eq_false_2 by done. apply Pos.eqb_neq. unfold at_. lia.
Qed.

Lemma get_cell_new_sheet t r c : _get_cell r c (new_sheet t) = new_cell.
Proof. reflexivity. Qed.

(** X6.  The question-set sheet, for any headers and any data rows written
    by the two loops on a new sheet.  A header cell holds its header with
    the header font, fill, border and wrapped alignment.  A data cell holds
    its entry with the border and the wrapped alignment; it has the bold
    section font exactly in column 1, a fill exactly when it is a status of
    column 7 with one of the four coloured values, and no number format.
    No cell exists outside the rows the loops have written. *)
Theorem ce_question_set_cells (t : string) (headers : list string) (data : list (list string)) :
  let ws' := CyberEssentials.write_data data
               (CyberEssentials.write_headers headers (new_sheet t)) in
  (forall j h, headers !! j = Some h ->
     _get_cell 1 (at_ 1 j) ws'
     = mkCell (Some (Str h))
              (Some (mkFont None (Some 11%Z) true (Some "FFFFFF")))
              (Some (solid "4472C4"))
              (Some (box (mkSide (Some "thin") None)))
              (Some (mkAlignment None (Some "top") true))
              None) /\
  (forall i r j v, data !! i = Some r -> r !! j = Some v ->
     _get_cell (at_ 2 i) (at_ 1 j) ws'
     = mkCell (Some (Str v))
              (if bool_decide (j = 0) then Some (mkFont None (Some 11%Z) true None) else None)
              (if bool_decide (j = 6) then mapped_fill ce_fill_mapping v else None)
              (Some (box (mkSide (Some "thin") None)))
              (Some (mkAlignment None (Some "top") true))
              None) /\
  (forall k, ~ covers 1 1 (headers :: data) k -> cells ws' !! k = None).
Proof.
  intros ws'. subst ws'. rewrite ce_loops_are_write_table.
  split; [|split].
  - intros j h Hj.
    erewrite get_cell_lookup by by apply write_table_header.
    reflexivity.
  - intros i r j v Hi Hj.
    erewrite get_cell_lookup by by eapply write_table_data.
    unfold written.
    assert (Hfresh : forall r0 c, r0 <> 1%positive ->
              _get_cell r0 c (Table.write_row Str CyberEssentials.header_style 1 1 headers
                                (new_sheet t)) = new_cell).
    { intros r0 c Hr0. unfold _get_cell at 1. rewrite write_row_frame; [done|]. by left. }
    rewrite Hfresh by (unfold at_; lia). unfold CyberEssentials.data_style.
    change 1%positive with (Pos.of_nat 1) at 2. change 7%positive with (Pos.of_nat 7).
    rewrite !at_1_eqb.
    destruct (bool_decide (j = 0)); destruct (bool_decide (j = 6));
      unfold CyberEssentials.status_fill, ce_fill_mapping, mapped_fill;
      repeat (destruct (String.eqb v _)); reflexivity.
  - intros k Hk. rewrite write_table_frame by done. reflexivity.
Qed.

Lemma at_1_eqb_nat j p : (at_ 1 j =? p)%positive = Nat.eqb j (Nat.pred (Pos.to_nat p)).
Proof.
  destruct (Nat.eqb_spec j (Nat.pred (Pos.to_nat p))) as [-> | Hne].
  - apply Pos.eqb_eq. unfold at_. lia.
  - apply Pos.eqb_neq. unfold at_. lia.
Qed.

Lemma at_1_ltb j : (1 <? at_ 1 j)%positive = negb (Nat.eqb j 0).
Proof.
  destruct (Nat.eqb_spec j 0) as [-> | Hne]; simpl.
  - reflexivity.
  - apply Pos.ltb_lt. unfold at_. lia.
Qed.

(** Turns the tests of a style on the column [at_ 1 j] into tests on [j]. *)
Ltac column_tests :=
  unfold Val.row_in; cbn [existsb];
  rewrite ?at_1_eqb_nat, ?at_1_ltb;
  repeat match goal with
         | |- context [Nat.pred (Pos.to_nat ?p)] =>
             let n := eval vm_compute in (Nat.pred (Pos.to_nat p)) in
             change (Nat.pred (Pos.to_nat p)) with n
         end.

(** Computes the fields of a cell after the assignments of a style. *)
Ltac style_fields :=
  unfold apply_attrs;
  cbn [app foldl set_attr set_value value font fill border alignment number_format
       orb andb negb Z.eqb Pos.eqb];
  try reflexivity.

Lemma is_formula_prefix s : is_formula (Str s) <-> String.prefix "=" s = true.
Proof.
  unfold is_formula. rewrite prefix_spec. split.
  - intros (b & [= ->]). eauto.
  - intros (b & ->). eauto.
Qed.

Lemma mod2_cases r : Val.mod2 r = 0%Z \/ Val.mod2 r = 1%Z.
Proof. unfold Val.mod2. pose proof (Z.mod_pos_bound (Z.pos r) 2). lia. Qed.

(** X7.  The pricing tiers table of the summary sheet (v2 and v3), for any
    rows written from any first row on any sheet.  Every cell gets the
    normal font, the border and the centred alignment, and the alternate
    fill in the odd rows.  The pound format is given by the type of the
    value: to a whole number in the second column and to a formula in the
    fourth or fifth column; any other cell, such as the text "Custom" in a
    price column, keeps the format it had. *)
Theorem pricing_rows_format_by_type (row0 : positive) (pricing_data : list (list Value))
  (ws : Worksheet) (i j : nat) (r : list Value) (x : Value) :
  pricing_data !! i = Some r -> r !! j = Some x ->
  Forall (fun pricing_style : positive -> positive -> Value -> list Attr =>
    let row := at_ row0 i in
    let col := at_ 1 j in
    let c0 := _get_cell row col ws in
    let c := _get_cell row col (write_data_rows pricing_style row0 1 pricing_data ws) in
    value c = Some x /\
    font c = Some (mkFont (Some "Calibri") (Some 10%Z) false None) /\
    border c = Some (box (mkSide (Some "thin") (Some "D1D5DB"))) /\
    alignment c = Some (mkAlignment (Some "center") None false) /\
    (Val.mod2 row = 1%Z -> fill c = Some (solid "F3F4F6")) /\
    (Val.mod2 row = 0%Z -> fill c = fill c0) /\
    ((j = 1 /\ (exists n, x = Int n)) \/ ((j = 3 \/ j = 4) /\ is_formula x) ->
       number_format c = Some "£#,##0") /\
    (~ ((j = 1 /\ (exists n, x = Int n)) \/ ((j = 3 \/ j = 4) /\ is_formula x)) ->
       number_format c = number_format c0))
    [PricingV2.pricing_style; PricingV3.pricing_style].
Proof.
  intros Hi Hj.
  assert (Hint : forall n, (exists m, Int n = Int m)) by eauto.
  assert (Hnf : forall m e, ~ is_formula (Float m e)) by (intros m e [s Hs]; done).
  assert (Hni : forall n, ~ is_formula (Int n)) by (intros n [s Hs]; done).
  repeat apply Forall_cons_2; [| |apply Forall_nil_2]; cbv zeta; unfold write_data_rows;
    rewrite (write_rows_get_cell (fun v => v) _ row0 1 pricing_data ws i r j x Hi Hj).
  - unfold PricingV2.pricing_style. column_tests.
    destruct (mod2_cases (at_ row0 i)) as [-> | ->];
      destruct (Nat.eqb_spec j 1); destruct (Nat.eqb_spec j 3); destruct (Nat.eqb_spec j 4);
      try lia;
      destruct x as [s|z|fm fe]; unfold Val.is_int, Val.str_startswith, Py.startswith;
      try (pose proof (is_formula_prefix s) as Hs; destruct (String.prefix "=" s));
      style_fields; repeat match goal with |- _ /\ _ => split end;
      try done; intros Hc; try done; exfalso;
      solve [ apply Hc; first [ left; split; [done | eauto]
                              | right; split; [tauto | by apply Hs] ]
            | destruct Hc as [[? [? ?]] | [[?|?] Hf]]; try lia; try discriminate;
              first [ by apply Hnf in Hf | by apply Hni in Hf
                    | apply Hs in Hf; discriminate ] ].
  - unfold PricingV3.pricing_style. column_tests.
    destruct (mod2_cases (at_ row0 i)) as [-> | ->];
      destruct (Nat.eqb_spec j 1); destruct (Nat.eqb_spec j 3); destruct (Nat.eqb_spec j 4);
      try lia;
      destruct x as [s|z|fm fe]; unfold Val.is_int, Val.str_startswith, Py.startswith;
      try (pose proof (is_formula_prefix s) as Hs; destruct (String.prefix "=" s));
      style_fields; repeat match goal with |- _ /\ _ => split end;
      try done; intros Hc; try done; exfalso;
      solve [ apply Hc; first [ left; split; [done | eauto]
                              | right; split; [tauto | by apply Hs] ]
            | destruct Hc as [[? [? ?]] | [[?|?] Hf]]; try lia; try discriminate;
              first [ by apply Hnf in Hf | by apply Hni in Hf
                    | apply Hs in Hf; discriminate ] ].
Qed.

(** Witness for X7: the monthly price 350 and the enterprise price
    "Custom" of the v2 script, both in the second column. *)
Lemma pricing_rows_format_by_type_witness :
  let ws' := write_data_rows PricingV2.pricing_style 20 1 PricingV2.pricing_data
               (new_sheet "Summary") in
  value (_get_cell 20 2 ws') = Some (Int 350) /\
  number_format (_get_cell 20 2 ws') = Some "£#,##0" /\
  value (_get_cell 23 2 ws') = Some (Str "Custom") /\
  number_format (_get_cell 23 2 ws') = None.
Proof.
  pose proof (pricing_rows_format_by_type 20 PricingV2.pricing_data (new_sheet "Summary")
                0 1 _ (Int 350) eq_refl eq_refl) as H0.
  pose proof (pricing_rows_format_by_type 20 PricingV2.pricing_data (new_sheet "Summary")
                3 1 _ (Str "Custom") eq_refl eq_refl) as H3.
  apply Forall_cons in H0 as [(Hv0 & _ & _ & _ & _ & _ & Hf0 & _) _].
  apply Forall_cons in H3 as [(Hv3 & _ & _ & _ & _ & _ & _ & Hf3) _].
  split; [exact Hv0|]. split; [|split; [exact Hv3|]].
  - apply Hf0. left. split; [reflexivity | by exists 350%Z].
  - etransitivity; [apply Hf3 | reflexivity].
    intros [[_ [n Hn]] | [[Hj | Hj] _]]; discriminate.
Defined.

Lemma at_eqb_nat start i p :
  (at_ start i =? p)%positive = Nat.eqb (Pos.to_nat start + i) (Pos.to_nat p).
Proof.
  destruct (Nat.eqb_spec (Pos.to_nat start + i) (Pos.to_nat p)) as [He | Hne].
  - apply Pos.eqb_eq. unfold at_. lia.
  - apply Pos.eqb_neq. unfold at_. lia.
Qed.

(** Turns the tests of a style on the row [at_ start i], for a known
    [start], into tests on [i]. *)
Ltac row_tests start :=
  rewrite ?(at_eqb_nat start);
  repeat match goal with
         | |- context [Pos.to_nat ?p] =>
             let n := eval vm_compute in (Pos.to_nat p) in
             change (Pos.to_nat p) with n
         end;
  cbn [Nat.add Init.Nat.add Nat.eqb Init.Nat.eqb].

(** X8.  The competitor table of the v2 and v3 scripts, for any rows
    written from row 7 on any sheet.  Every cell gets the border, and the
    pound format in the second column whatever the value is.  The sixth
    row of the list lands on row 12 and is the one that is highlighted and
    set in bold, whatever it holds; every other row gets the normal font,
    and the alternate fill when its row is even. *)
Theorem competitor_rows_highlight_the_sixth (competitors : list (list Value))
  (ws : Worksheet) (i j : nat) (r : list Value) (x : Value) :
  competitors !! i = Some r -> r !! j = Some x ->
  Forall (fun competitors_style : positive -> positive -> Value -> list Attr =>
    let row := at_ 7 i in
    let col := at_ 1 j in
    let c0 := _get_cell row col ws in
    let c := _get_cell row col (write_data_rows competitors_style 7 1 competitors ws) in
    value c = Some x /\
    border c = Some (box (mkSide (Some "thin") (Some "D1D5DB"))) /\
    alignment c = alignment c0 /\
    (j = 1 -> number_format c = Some "£#,##0") /\
    (j <> 1 -> number_format c = number_format c0) /\
    (i = 5 ->
       row = 12%positive /\
       font c = Some (mkFont (Some "Calibri") (Some 10%Z) true None) /\
       fill c = Some (solid "DCFCE7")) /\
    (i <> 5 ->
       font c = Some (mkFont (Some "Calibri") (Some 10%Z) false None) /\
       (Val.mod2 row = 0%Z -> fill c = Some (solid "F3F4F6")) /\
       (Val.mod2 row = 1%Z -> fill c = fill c0)))
    [PricingV2.competitors_style; PricingV3.competitors_style].
Proof.
  intros Hi Hj.
  repeat apply Forall_cons_2; [| |apply Forall_nil_2]; cbv zeta; unfold write_data_rows;
    rewrite (write_rows_get_cell (fun v => v) _ 7 1 competitors ws i r j x Hi Hj).
  - unfold PricingV2.competitors_style. column_tests. row_tests 7%positive.
    destruct (Nat.eqb_spec j 1); destruct (Nat.eqb_spec i 5);
      [subst i; change (Val.mod2 (at_ 7 5)) with 0%Z | | subst i; change (Val.mod2 (at_ 7 5)) with 0%Z | ];
      try (destruct (mod2_cases (at_ 7 i)) as [-> | ->]);
      style_fields; repeat match goal with |- _ /\ _ => split end;
      try done; intros; done.
  - unfold PricingV3.competitors_style. column_tests. row_tests 7%positive.
    destruct (Nat.eqb_spec j 1); destruct (Nat.eqb_spec i 5);
      [subst i; change (Val.mod2 (at_ 7 5)) with 0%Z | | subst i; change (Val.mod2 (at_ 7 5)) with 0%Z | ];
      try (destruct (mod2_cases (at_ 7 i)) as [-> | ->]);
      style_fields; repeat match goal with |- _ /\ _ => split end;
      try done; intros; done.
Qed.

(** Witness for X8: the sixth competitor of the v2 script is the Plannetic
    row. *)
Lemma competitor_rows_highlight_the_sixth_witness :
  let ws' := write_data_rows PricingV2.competitors_style 7 1 PricingV2.competitors
               (new_sheet "Competitor Pricing") in
  value (_get_cell 12 1 ws') = Some (Str "Plannetic Standard") /\
  font (_get_cell 12 1 ws') = Some (mkFont (Some "Calibri") (Some 10%Z) true None) /\
  fill (_get_cell 12 1 ws') = Some (solid "DCFCE7").
Proof.
  pose proof (competitor_rows_highlight_the_sixth PricingV2.competitors
                (new_sheet "Competitor Pricing") 5 0 _ (Str "Plannetic Standard")
                eq_refl eq_refl) as H.
  apply Forall_cons in H as [(Hv & _ & _ & _ & _ & H5 & _) _].
  destruct (H5 eq_refl) as (_ & Hfont & Hfill).
  split; [exact Hv|]. split; [exact Hfont | exact Hfill].
Defined.


(** X13.  The number formats of the ROI results table.  In the v2 script a
    cell of the table gets the percent format [0.0"%"] only in row 44, that
    is in the twelfth row of the list written from row 33; in the v3 script
    the format [0"%"] only in row 43, the eleventh row of the list.  The
    list of the v2 script has eleven rows and that of the v3 script ten, so
    that the test never holds: in the workbooks as built no cell of the ROI
    sheet carries the percent format, and the monthly value of the last row,
    "ROI %", has the pound format. *)
Theorem roi_percent_format_needs_one_more_row (env : Env) :
  (forall (results : list (list Value)) (ws : Worksheet) (i j : nat) (r : list Value) (x : Value),
     results !! i = Some r -> r !! j = Some x ->
     let pct := "0.0" +:+ Py.DQ +:+ "%" +:+ Py.DQ in
     let c0 := _get_cell (at_ 33 i) (at_ 1 j) ws in
     let c := _get_cell (at_ 33 i) (at_ 1 j)
                (write_data_rows PricingV2.results_style 33 1 results ws) in
     number_format c0 <> Some pct ->
     number_format c = Some pct -> i = 11 /\ at_ 33 i = 44%positive) /\
  (forall (results : list (list Value)) (ws : Worksheet) (i j : nat) (r : list Value) (x : Value),
     results !! i = Some r -> r !! j = Some x ->
     let pct := "0" +:+ Py.DQ +:+ "%" +:+ Py.DQ in
     let c0 := _get_cell (at_ 33 i) (at_ 1 j) ws in
     let c := _get_cell (at_ 33 i) (at_ 1 j)
                (write_data_rows PricingV3.results_style 33 1 results ws) in
     number_format c0 <> Some pct ->
     number_format c = Some pct -> i = 10 /\ at_ 33 i = 43%positive) /\
  (length PricingV2.results = 11 /\ length PricingV3.results = 10) /\
  (cells_with_format (PricingV2.build env) 4 ("0.0" +:+ Py.DQ +:+ "%" +:+ Py.DQ) = [] /\
   value_in (PricingV2.build env) 4 43 1 = Some (Str "ROI %") /\
   number_format_in (PricingV2.build env) 4 43 2 = Some "£#,##0") /\
  (cells_with_format (PricingV3.build env) 4 ("0" +:+ Py.DQ +:+ "%" +:+ Py.DQ) = [] /\
   value_in (PricingV3.build env) 4 42 1 = Some (Str "ROI %") /\
   number_format_in (PricingV3.build env) 4 42 2 = Some "£#,##0").
Proof.
  split; [|split; [|split; [|split]]].
  - intros results ws i j r x Hi Hj. cbv zeta. unfold write_data_rows.
    rewrite (write_rows_get_cell (fun v => v) _ 33 1 results ws i r j x Hi Hj).
    unfold PricingV2.results_style. unfold Val.row_in. cbn [existsb].
    row_tests 33%positive.
    destruct (Nat.eqb_spec i 0); destruct (Nat.eqb_spec i 11);
      [lia | | |];
      repeat match goal with |- context [if ?b then _ else _] => destruct b end;
      style_fields;
      try (intros H0 H1; first [done | by (split; [done | subst i; unfold at_; lia])]).
  - intros results ws i j r x Hi Hj. cbv zeta. unfold write_data_rows.
    rewrite (write_rows_get_cell (fun v => v) _ 33 1 results ws i r j x Hi Hj).
    unfold PricingV3.results_style. unfold Val.row_in. cbn [existsb].
    row_tests 33%positive.
    destruct (Nat.eqb_spec i 0); destruct (Nat.eqb_spec i 10);
      [lia | | |];
      repeat match goal with |- context [if ?b then _ else _] => destruct b end;
      style_fields;
      try (intros H0 H1; first [done | by (split; [done | subst i; unfold at_; lia])]).
  - split; reflexivity.
  - repeat split; vm_compute; reflexivity.
  - repeat split; vm_compute; reflexivity.
Qed.

(** X14.  The feature table of the tier sheet (v2 and v3), for any rows
    written from row 4 on any sheet.  The font of a cell is given by its
    value: the section font with the blue fill for one of the four section
    names, a bold green font for the tick, a grey font for the dash, and the
    normal font for anything else; only a section name changes the fill.
    The first column is aligned left and the others are centred; the pound
    format goes to the second and third column of the rows 29 and 30, the
    26th and 27th row of the list, whatever they hold. *)
Theorem feature_rows_font_by_value (features : list (list Value)) (ws : Worksheet)
  (i j : nat) (r : list Value) (x : Value) :
  features !! i = Some r -> r !! j = Some x ->
  let sections := ["CORE FEATURES"; "PREMIUM FEATURES"; "ONBOARDING"; "CONTRACT"] in
  Forall (fun features_style : positive -> positive -> Value -> list Attr =>
    let c0 := _get_cell (at_ 4 i) (at_ 1 j) ws in
    let c := _get_cell (at_ 4 i) (at_ 1 j)
               (write_data_rows features_style 4 1 features ws) in
    value c = Some x /\
    border c = Some (box (mkSide (Some "thin") (Some "D1D5DB"))) /\
    alignment c = Some (mkAlignment (Some (if bool_decide (j = 0) then "left" else "center"))
                                    None false) /\
    ((exists s, x = Str s /\ s ∈ sections) ->
       font c = Some (mkFont (Some "Calibri") (Some 11%Z) true (Some "374151")) /\
       fill c = Some (solid "DBEAFE")) /\
    (x = Str "✓" ->
       font c = Some (mkFont (Some "Calibri") (Some 10%Z) true (Some "059669")) /\
       fill c = fill c0) /\
    (x = Str "—" ->
       font c = Some (mkFont (Some "Calibri") (Some 10%Z) false (Some "9CA3AF")) /\
       fill c = fill c0) /\
    ((forall s, x = Str s -> s ∉ (sections ++ ["✓"; "—"])%list) ->
       font c = Some (mkFont (Some "Calibri") (Some 10%Z) false None) /\
       fill c = fill c0) /\
    ((i = 25 \/ i = 26) /\ (j = 1 \/ j = 2) -> number_format c = Some "£#,##0") /\
    (~ ((i = 25 \/ i = 26) /\ (j = 1 \/ j = 2)) -> number_format c = number_format c0))
    [PricingV2.features_style; PricingV3.features_style].
Proof.
  intros Hi Hj sections.
  assert (Hnot : forall s, (forall s', Str s = Str s' -> s' ∉ (sections ++ ["✓"; "—"])%list) ->
                   Py.in_list s sections = false /\ String.eqb s "✓" = false
                   /\ String.eqb s "—" = false).
  { intros s Hs. specialize (Hs s eq_refl). repeat split.
    - destruct (Py.in_list s sections) eqn:E; [|done].
      apply in_list_spec in E. exfalso. apply Hs. apply elem_of_app. by left.
    - apply String.eqb_neq. intros ->. apply Hs. apply elem_of_app. right. repeat constructor.
    - apply String.eqb_neq. intros ->. apply Hs. apply elem_of_app. right. repeat constructor. }
  assert (Hsec : forall s, s ∈ sections -> Py.in_list s sections = true).
  { intros s. apply in_list_spec. }
  assert (Htick : Py.in_list "✓" sections = false) by reflexivity.
  assert (Hdash : Py.in_list "—" sections = false) by reflexivity.
  repeat apply Forall_cons_2; [| |apply Forall_nil_2]; cbv zeta; unfold write_data_rows;
    rewrite (write_rows_get_cell (fun v => v) _ 4 1 features ws i r j x Hi Hj).
  - unfold PricingV2.features_style. column_tests. row_tests 4%positive.
    fold sections.
    destruct (Nat.eqb_spec i 25); destruct (Nat.eqb_spec i 26); try lia;
      destruct (Nat.eqb_spec j 0); destruct (Nat.eqb_spec j 1); destruct (Nat.eqb_spec j 2);
      try lia;
      rewrite ?bool_decide_eq_true_2 by done; rewrite ?bool_decide_eq_false_2 by done;
      (destruct x as [s|z|fm fe]; unfold Val.in_strs, Val.eq_str;
       [ destruct (Py.in_list s sections) eqn:Es;
         [| destruct (String.eqb_spec s "✓");
            [| destruct (String.eqb_spec s "—")]] | | ]);
      style_fields; repeat match goal with |- _ /\ _ => split end;
      try done; intros Hc; try done; try lia;
      try (destruct Hc as (s' & [= <-] & Hin); apply Hsec in Hin; congruence);
      try (injection Hc as ->; congruence);
      try (destruct (Hnot s Hc) as (H1 & H2 & H3); try subst s;
           rewrite ?String.eqb_refl in *; congruence);
      try (destruct Hc as (s' & Hs' & _); discriminate).
  - unfold PricingV3.features_style. column_tests. row_tests 4%positive.
    fold sections.
    destruct (Nat.eqb_spec i 25); destruct (Nat.eqb_spec i 26); try lia;
      destruct (Nat.eqb_spec j 0); destruct (Nat.eqb_spec j 1); destruct (Nat.eqb_spec j 2);
      try lia;
      rewrite ?bool_decide_eq_true_2 by done; rewrite ?bool_decide_eq_false_2 by done;
      (destruct x as [s|z|fm fe]; unfold Val.in_strs, Val.eq_str;
       [ destruct (Py.in_list s sections) eqn:Es;
         [| destruct (String.eqb_spec s "✓");
            [| destruct (String.eqb_spec s "—")]] | | ]);
      style_fields; repeat match goal with |- _ /\ _ => split end;
      try done; intros Hc; try done; try lia;
      try (destruct Hc as (s' & [= <-] & Hin); apply Hsec in Hin; congruence);
      try (injection Hc as ->; congruence);
      try (destruct (Hnot s Hc) as (H1 & H2 & H3); try subst s;
           rewrite ?String.eqb_refl in *; congruence);
      try (destruct Hc as (s' & Hs' & _); discriminate).
Qed.

(** Witness for X14: the first section name and the first tick of the v2
    script. *)
Lemma feature_rows_font_by_value_witness :
  let ws' := write_data_rows PricingV2.features_style 4 1 PricingV2.features
               (new_sheet "Tier Comparison") in
  value (_get_cell 4 1 ws') = Some (Str "CORE FEATURES") /\
  fill (_get_cell 4 1 ws') = Some (solid "DBEAFE") /\
  value (_get_cell 5 2 ws') = Some (Str "✓") /\
  font (_get_cell 5 2 ws') = Some (mkFont (Some "Calibri") (Some 10%Z) true (Some "059669")).
Proof.
  pose proof (feature_rows_font_by_value PricingV2.features (new_sheet "Tier Comparison")
                0 0 _ (Str "CORE FEATURES") eq_refl eq_refl) as H0.
  pose proof (feature_rows_font_by_value PricingV2.features (new_sheet "Tier Comparison")
                1 1 _ (Str "✓") eq_refl eq_refl) as H1.
  apply Forall_cons in H0 as [(Hv0 & _ & _ & Hs0 & _) _].
  apply Forall_cons in H1 as [(Hv1 & _ & _ & _ & Ht1 & _) _].
  split; [exact Hv0|]. split; [|split; [exact Hv1|]].
  - apply Hs0. exists "CORE FEATURES". split; [reflexivity | repeat constructor].
  - apply Ht1. reflexivity.
Defined.


(** ** Column names and widths *)


Lemma names_columns_spec n idx0 idx :
  names_columns n idx0 = true ->
  (idx0 <= idx)%positive -> (Pos.to_nat idx < Pos.to_nat idx0 + n)%nat ->
  names_column idx = true.
Proof.
  revert idx0. induction n as [|n IH]; intros idx0 Hall Hge Hlt; [lia|].
  simpl in Hall. apply andb_true_iff in Hall as [H0 Hall].
  destruct (decide (idx = idx0)) as [-> | Hne]; [done|].
  apply (IH (Pos.succ idx0)); [done | lia | lia].
Qed.

Lemma names_columns_all : names_columns (Pos.to_nat 18278) 1 = true.
Proof. vm_compute. reflexivity. Qed.

Lemma names_column_valid idx : (idx <= 18278)%positive -> names_column idx = true.
Proof.
  intros H. apply (names_columns_spec (Pos.to_nat 18278) 1); [apply names_columns_all | lia | lia].
Qed.

Lemma get_column_letter_index idx l : get_column_letter idx = Ok l -> column_index l = Npos idx.
Proof.
  intros H.
  assert (Hle : (idx <= 18278)%positive).
  { unfold get_column_letter in H. destruct (18278 <? idx)%positive eqn:E; [done|].
    apply Pos.ltb_ge in E. done. }
  pose proof (names_column_valid idx Hle) as Hn. unfold names_column in Hn.
  rewrite H in Hn. apply andb_true_iff in Hn as [_ Hn]. by apply N.eqb_eq in Hn.
Qed.

Lemma get_column_letter_inj i j l :
  get_column_letter i = Ok l -> get_column_letter j = Ok l -> i = j.
Proof.
  intros Hi%get_column_letter_index Hj%get_column_letter_index. congruence.
Qed.

(** X1.  [get_column_letter], which the width loops call.  For every index
    from 1 to 18278 it returns a name of one to three capital letters that
    reads back as the index in bijective base 26, so that distinct indices
    get distinct names; up to 26 the name is the single letter of that rank
    in the alphabet.  Beyond 18278 (the name ZZZ) it raises [ValueError]. *)
Theorem get_column_letter_names_the_index :
  (forall idx, (idx <= 18278)%positive ->
     exists l, get_column_letter idx = Ok l /\
               (1 <= String.length l <= 3) /\
               Forall (fun c => is_capital c = true) (String.list_ascii_of_string l) /\
               column_index l = Npos idx) /\
  (forall idx, (idx <= 26)%positive -> get_column_letter idx = Ok (letter (Npos idx))) /\
  (forall i j l, get_column_letter i = Ok l -> get_column_letter j = Ok l -> i = j) /\
  (forall idx, (18278 < idx)%positive ->
     exists msg, get_column_letter idx = Raise (ValueError msg)) /\
  (get_column_letter 1 = Ok "A" /\ get_column_letter 26 = Ok "Z" /\
   get_column_letter 27 = Ok "AA" /\ get_column_letter 702 = Ok "ZZ" /\
   get_column_letter 703 = Ok "AAA" /\ get_column_letter 18278 = Ok "ZZZ").
Proof.
  split; [|split; [|split; [|split]]].
  - intros idx Hle. pose proof (names_column_valid idx Hle) as Hn.
    unfold names_column in Hn. destruct (get_column_letter idx) as [l|e]; [|done].
    exists l. split; [done|].
    apply andb_true_iff in Hn as [Hn Hidx]. apply andb_true_iff in Hn as [Hn Hcap].
    apply andb_true_iff in Hn as [H1 H3].
    apply Nat.leb_le in H1. apply Nat.leb_le in H3. apply N.eqb_eq in Hidx.
    split; [lia|]. split; [|done].
    apply Forall_forall. intros c Hc. eapply forallb_forall in Hcap; [done|].
    by apply list_elem_of_In.
  - intros idx Hle.
    assert (Hc : Forall (fun i => get_column_letter i = Ok (letter (Npos i)))
                   (Py.range 1 27)) by (vm_compute; repeat constructor).
    eapply (proj1 (Forall_forall _ _) Hc). unfold Py.range.
    apply list_elem_of_fmap. exists (Pos.to_nat idx). split; [lia|].
    apply elem_of_seq. lia.
  - apply get_column_letter_inj.
  - intros idx Hgt. unfold get_column_letter.
    rewrite (proj2 (Pos.ltb_lt _ _) Hgt). eauto.
  - repeat split; reflexivity.
Qed.

Lemma for_M_ext {A S : Type} (f g : A -> S -> Result S) l s :
  (forall x s, f x s = g x s) -> for_M l f s = for_M l g s.
Proof.
  intros H. revert s. induction l as [|x l IH]; intros s; simpl; [done|].
  rewrite H. destruct (g x s); simpl; [apply IH | done].
Qed.

Lemma for_M_cons {A S : Type} (f : A -> S -> Result S) x l s :
  for_M (x :: l) f s = s' ← f x s; for_M l f s'.
Proof. reflexivity. Qed.

Lemma for_M_app {A S : Type} (f : A -> S -> Result S) l1 l2 s :
  for_M (l1 ++ l2) f s = s' ← for_M l1 f s; for_M l2 f s'.
Proof.
  revert s. induction l1 as [|x l1 IH]; intros s; simpl; [done|].
  destruct (f x s); simpl; [apply IH | done].
Qed.

Lemma get_column_letter_valid c :
  (c <= 18278)%positive -> exists name, get_column_letter c = Ok name.
Proof.
  intros H. pose proof (names_column_valid c H) as Hn. unfold names_column in Hn.
  destruct (get_column_letter c); [eauto | done].
Qed.

(** A loop that sets the width of the column [colf x] to [wf x] for every
    element [x] of a list. *)
Lemma for_M_set_widths {X : Type} (colf : X -> positive) (wf : X -> Z) (l : list X) ws :
  Forall (fun x => (colf x <= 18278)%positive) l ->
  exists dims,
    for_M l (fun x => set_width_at (colf x) (wf x)) ws
    = Ok (mkWorksheet (title ws) (cells ws) (merged_cells ws) dims
                      (freeze_panes ws) (_charts ws)) /\
    (NoDup (colf <$> l) ->
     forall x name, x ∈ l -> get_column_letter (colf x) = Ok name -> dims !! name = Some (wf x)) /\
    (forall name, (forall x, x ∈ l -> get_column_letter (colf x) <> Ok name) ->
                  dims !! name = column_dimensions ws !! name).
Proof.
  intros Hall. revert ws. induction Hall as [|x l Hx _ IH]; intros ws.
  - exists (column_dimensions ws). split; [by destruct ws|]. split; [|done].
    intros _ x name Hin. by apply elem_of_nil in Hin.
  - destruct (get_column_letter_valid _ Hx) as [n0 Hn0].
    destruct (IH (set_width n0 (wf x) ws)) as (dims & Hrun & Hset & Hkeep).
    exists dims. split; [|split].
    + assert (Hstep : set_width_at (colf x) (wf x) ws = Ok (set_width n0 (wf x) ws))
        by (unfold set_width_at; by rewrite Hn0).
      rewrite for_M_cons, Hstep. exact Hrun.
    + intros Hnd y name Hin Hname. simpl in Hnd. apply NoDup_cons in Hnd as [Hx0 Hnd].
      apply elem_of_cons in Hin as [-> | Hin].
      * rewrite Hkeep.
        -- simpl. assert (name = n0) by congruence. subst. apply lookup_insert_eq.
        -- intros z Hz Hzn. apply Hx0. apply list_elem_of_fmap. exists z. split; [|done].
           symmetry. by apply (get_column_letter_inj _ _ name).
      * by apply (Hset Hnd y).
    + intros name Hname. rewrite Hkeep.
      * simpl. apply lookup_insert_ne. intros ->. apply (Hname x); [by left | done].
      * intros z Hz. apply Hname. by right.
Qed.

Lemma for_M_raises {X : Type} (colf : X -> positive) (wf : X -> Z) (l : list X) ws :
  Exists (fun x => (18278 < colf x)%positive) l ->
  exists msg, for_M l (fun x => set_width_at (colf x) (wf x)) ws = Raise (ValueError msg).
Proof.
  intros Hex. revert ws. induction Hex as [x l Hx | x l _ IH]; intros ws; rewrite for_M_cons.
  - assert (Hstep : exists msg, set_width_at (colf x) (wf x) ws = Raise (ValueError msg)).
    { unfold set_width_at, get_column_letter. rewrite (proj2 (Pos.ltb_lt _ _) Hx). eauto. }
    destruct Hstep as [msg ->]. eauto.
  - destruct (set_width_at (colf x) (wf x) ws) as [ws1|[msg]]; [apply IH | eauto].
Qed.

(** X2.  The width loop of the two questionnaire scripts,
    [for col, width in enumerate(widths, 1)], on any list of widths and any
    sheet.  With at most 18278 widths the loop ends without an exception:
    the width of position [j] is then the width of the column named by
    [get_column_letter(j + 1)], no other column changes its width, and the
    cells, the title, the merged ranges, the panes and the charts of the
    sheet are as before.  With more widths the loop raises [ValueError]. *)
Theorem width_loop_sets_each_column (widths : list Z) (ws : Worksheet) :
  let loop := for_M (Py.enumerate widths 1)
                (fun '(col_num, width) => set_width_at col_num width) in
  ((Z.of_nat (length widths) <= 18278)%Z ->
   exists dims,
     loop ws = Ok (mkWorksheet (title ws) (cells ws) (merged_cells ws) dims
                               (freeze_panes ws) (_charts ws)) /\
     (forall j w, widths !! j = Some w ->
        exists name, get_column_letter (at_ 1 j) = Ok name /\ dims !! name = Some w) /\
     (forall name,
        (forall j, j < length widths -> get_column_letter (at_ 1 j) <> Ok name) ->
        dims !! name = column_dimensions ws !! name)) /\
  ((18278 < Z.of_nat (length widths))%Z ->
   exists msg, loop ws = Raise (ValueError msg)).
Proof.
  intros loop.
  assert (Hloop : loop ws = for_M (Py.enumerate widths 1)
                              (fun x => set_width_at (fst x) (snd x)) ws).
  { apply for_M_ext. by intros [c w] s. }
  rewrite Hloop. split.
  - intros Hlen.
    assert (Hall : Forall (fun x : positive * Z => (x.1 <= 18278)%positive)
                     (Py.enumerate widths 1)).
    { apply Forall_forall. intros [c w] (j & Hj & ->)%elem_of_enumerate. simpl.
      apply lookup_lt_Some in Hj. unfold at_. lia. }
    destruct (for_M_set_widths fst snd (Py.enumerate widths 1) ws Hall)
      as (dims & Hrun & Hset & Hkeep).
    exists dims. split; [exact Hrun|]. split.
    + intros j w Hj.
      destruct (get_column_letter_valid (at_ 1 j)) as [name Hname].
      { apply lookup_lt_Some in Hj. unfold at_. lia. }
      exists name. split; [done|].
      apply (Hset (enumerate_fst_NoDup widths 1) (at_ 1 j, w) name); [|done].
      apply elem_of_enumerate. eauto.
    + intros name Hname. apply Hkeep.
      intros [c w] (j & Hj & ->)%elem_of_enumerate. simpl. apply Hname.
      by eapply lookup_lt_Some.
  - intros Hlen. apply for_M_raises.
    destruct (lookup_lt_is_Some_2 widths (Pos.to_nat 18278)) as [w Hw]; [lia|].
    apply Exists_exists. exists (at_ 1 (Pos.to_nat 18278), w). split.
    + apply elem_of_enumerate. eauto.
    + simpl. unfold at_. lia.
Qed.

(** Witness for X2: the seven widths of the question-set script. *)
Lemma width_loop_sets_each_column_witness :
  exists dims,
    CyberEssentials.set_column_widths (new_sheet "CE Question Set")
    = Ok (mkWorksheet "CE Question Set" ∅ [] dims None []) /\
    dims !! "C" = Some 50%Z /\ dims !! "G" = Some 12%Z /\ dims !! "H" = None.
Proof.
  destruct (width_loop_sets_each_column CyberEssentials.column_widths
              (new_sheet "CE Question Set")) as [Hok _].
  destruct Hok as (dims & Hrun & Hset & Hkeep); [simpl; lia|].
  exists dims. split; [exact Hrun|]. split; [|split].
  - destruct (Hset 2 50%Z eq_refl) as (name & Hname & Hw).
    injection Hname as <-. exact Hw.
  - destruct (Hset 6 12%Z eq_refl) as (name & Hname & Hw).
    injection Hname as <-. exact Hw.
  - rewrite Hkeep; [reflexivity|]. intros j Hj.
    do 7 (destruct j as [|j]; [discriminate|]). simpl in Hj. lia.
Defined.

Lemma elem_of_range a b c : c ∈ Py.range a b <-> (a <= c < b)%positive.
Proof.
  unfold Py.range. rewrite list_elem_of_fmap. split.
  - intros (k & -> & Hk%elem_of_seq). lia.
  - intros Hc. exists (Pos.to_nat c). split; [lia|]. apply elem_of_seq. lia.
Qed.

Lemma NoDup_range a b : NoDup (Py.range a b).
Proof.
  unfold Py.range. apply NoDup_fmap_2_strong; [|apply NoDup_seq].
  intros x y Hx%elem_of_seq Hy%elem_of_seq Heq. lia.
Qed.

(** X3.  The width loops of the pricing scripts,
    [for col in range(a, b)] with one width for all columns, on any range
    that ends at or before column 18279 and any sheet.  The loop ends
    without an exception; every column from [a] to [b - 1] then has the
    width, named by its letters, no other column changes its width, and
    nothing else on the sheet changes.  An empty range changes nothing. *)
Theorem range_width_loop_sets_the_range (a b : positive) (w : Z) (ws : Worksheet) :
  (b <= 18279)%positive ->
  exists dims,
    for_M (Py.range a b) (fun col => set_width_at col w) ws
    = Ok (mkWorksheet (title ws) (cells ws) (merged_cells ws) dims
                      (freeze_panes ws) (_charts ws)) /\
    (forall c, (a <= c < b)%positive ->
       exists name, get_column_letter c = Ok name /\ dims !! name = Some w) /\
    (forall name,
       (forall c, (a <= c < b)%positive -> get_column_letter c <> Ok name) ->
       dims !! name = column_dimensions ws !! name) /\
    ((b <= a)%positive -> dims = column_dimensions ws).
Proof.
  intros Hb.
  assert (Hall : Forall (fun c : positive => (c <= 18278)%positive) (Py.range a b)).
  { apply Forall_forall. intros c Hc%elem_of_range. lia. }
  destruct (for_M_set_widths (fun c => c) (fun _ => w) (Py.range a b) ws Hall)
    as (dims & Hrun & Hset & Hkeep).
  exists dims. split; [exact Hrun|]. split; [|split].
  - intros c Hc. destruct (get_column_letter_valid c) as [name Hname]; [lia|].
    exists name. split; [done|].
    apply (Hset ltac:(rewrite list_fmap_id; apply NoDup_range) c name); [|done].
    by apply elem_of_range.
  - intros name Hname. apply Hkeep. intros c Hc%elem_of_range. by apply Hname.
  - intros Hempty. apply map_eq. intros name. apply Hkeep.
    intros c Hc%elem_of_range. lia.
Qed.

(** Witness for X3: the loop of the Revenue Calculator sheet of the v2
    script, over the columns 1 to 7. *)
Lemma range_width_loop_sets_the_range_witness :
  exists dims,
    for_M (Py.range 1 8) (fun col => set_width_at col 16) (new_sheet "Revenue Calculator")
    = Ok (mkWorksheet "Revenue Calculator" ∅ [] dims None []) /\
    dims !! "A" = Some 16%Z /\ dims !! "G" = Some 16%Z /\ dims !! "H" = None.
Proof.
  destruct (range_width_loop_sets_the_range 1 8 16 (new_sheet "Revenue Calculator"))
    as (dims & Hrun & Hset & Hkeep & _); [lia|].
  exists dims. split; [exact Hrun|]. split; [|split].
  - destruct (Hset 1%positive ltac:(lia)) as (name & Hname & Hw).
    injection Hname as <-. exact Hw.
  - destruct (Hset 7%positive ltac:(lia)) as (name & Hname & Hw).
    injection Hname as <-. exact Hw.
  - rewrite Hkeep; [reflexivity|]. intros c Hc.
    assert (Hcs : (c = 1 \/ c = 2 \/ c = 3 \/ c = 4 \/ c = 5 \/ c = 6 \/ c = 7)%positive) by lia.
    destruct Hcs as [-> | [-> | [-> | [-> | [-> | [-> | ->]]]]]]; discriminate.
Defined.


(** ** The second sheets of the questionnaire scripts *)


Lemma actions_required_is_with ws2 :
  Mema.actions_required ws2 = Ok (actions_required_with Mema.actions ws2).
Proof. reflexivity. Qed.

Lemma summary_is_with ws2 :
  CyberEssentials.summary ws2 = Ok (summary_with CyberEssentials.pending_items ws2).
Proof. reflexivity. Qed.

Lemma get_cell_set_width name w ws r c : _get_cell r c (set_width name w ws) = _get_cell r c ws.
Proof. reflexivity. Qed.

Lemma touches_row_setitem_A r v : touches_row r (setitem (xl Col.A r) v).
Proof. apply touches_row_cell. Qed.

(** The cell at a coordinate other than the one a statement addresses. *)
Lemma get_cell_setitem_ne k v ws r c :
  k <> (r, c) -> _get_cell r c (setitem k v ws) = _get_cell r c ws.
Proof. intros H. rewrite get_cell_setitem. by rewrite decide_False. Qed.

Lemma get_cell_setattr_ne k a ws r c :
  k <> (r, c) -> _get_cell r c (setattr k a ws) = _get_cell r c ws.
Proof. intros H. rewrite get_cell_setattr. by rewrite decide_False. Qed.

Lemma get_cell_setitem_eq r c v ws :
  _get_cell r c (setitem (r, c) v ws) = set_value (Some v) (_get_cell r c ws).
Proof. rewrite get_cell_setitem. by rewrite decide_True. Qed.

Lemma get_cell_setattr_eq r c a ws :
  _get_cell r c (setattr (r, c) a ws) = set_attr a (_get_cell r c ws).
Proof. rewrite get_cell_setattr. by rewrite decide_True. Qed.

(** Passes the statements that address another cell. *)
Ltac skip_other_cells :=
  repeat first
    [ rewrite get_cell_set_width
    | rewrite get_cell_setitem_ne by (unfold xl, at_; intros [=]; lia)
    | rewrite get_cell_setattr_ne by (unfold xl, at_; intros [=]; lia) ].

Lemma items_loop_row (items : list string) start ws j item c :
  items !! j = Some item ->
  _get_cell (at_ start j) c
    (Py.for_ (Py.enumerate items start) (fun '(i, item) => setitem (xl Col.A i) (Str item)) ws)
  = _get_cell (at_ start j) c (setitem (xl Col.A (at_ start j)) (Str item) ws).
Proof.
  intros Hj.
  apply (for_enumerate_local (fun i item => setitem (xl Col.A i) (Str item))
           items start ws j item c); [|done].
  intros r x. apply touches_row_setitem_A.
Qed.

Lemma items_loop_frame (items : list string) start ws r c :
  ~ ((start <= r)%positive /\ (Pos.to_nat r < Pos.to_nat start + length items)%nat) ->
  _get_cell r c
    (Py.for_ (Py.enumerate items start) (fun '(i, item) => setitem (xl Col.A i) (Str item)) ws)
  = _get_cell r c ws.
Proof.
  intros Hr.
  apply (for_enumerate_frame (fun i item => setitem (xl Col.A i) (Str item))
           items start ws r c); [|done].
  intros r0 x. apply touches_row_setitem_A.
Qed.

(** X5.  The sheet "Actions Required" of the MEMA script, for any list of
    actions.  The actions are written in column A from row 4 on, and the
    five lines of the company details are written afterwards in the rows 10
    to 14: the sheet has room for six actions.  An action of index below 6
    (or from 11 on) is on the sheet in the row [4 + j]; the actions of index
    6 to 10 are overwritten by the company details, which are on the sheet
    whatever the list is.  The title and the heading of the rows 1 and 3 do
    not depend on the list, and the width of column A is 80. *)
Theorem actions_sheet_has_room_for_six (actions : list string) (t : string) :
  let ws' := actions_required_with actions (new_sheet t) in
  Mema.actions_required (new_sheet t) = Ok (actions_required_with Mema.actions (new_sheet t)) /\
  (forall j a, actions !! j = Some a -> j < 6 \/ 11 <= j ->
     value_at ws' (at_ 4 j) 1 = Some (Str a)) /\
  (forall k line, company_details !! k = Some line ->
     value_at ws' (at_ 10 k) 1 = Some (Str line)) /\
  (forall c, _get_cell 1 c ws' = _get_cell 1 c (actions_required_with [] (new_sheet t))
             /\ _get_cell 3 c ws' = _get_cell 3 c (actions_required_with [] (new_sheet t))) /\
  width_of ws' "A" = Some 80%Z.
Proof.
  intros ws'. subst ws'. split; [reflexivity|].
  unfold actions_required_with. rewrite !block_cons, !block_nil.
  split; [|split; [|split]].
  - intros j a Hj Hrange. unfold value_at. skip_other_cells.
    rewrite (items_loop_row actions 4 _ j a 1 Hj).
    change (xl Col.A (at_ 4 j)) with (at_ 4 j, 1%positive).
    by rewrite get_cell_setitem_eq.
  - intros k line Hk. unfold value_at.
    do 5 (destruct k as [|k];
          [injection Hk as <-;
           match goal with
           | |- context [at_ 10 ?k] =>
               let r := eval vm_compute in (at_ 10 k) in change (at_ 10 k) with r
           end;
           unfold xl, Col.A; skip_other_cells;
           rewrite ?get_cell_setattr_eq; rewrite get_cell_setitem_eq; reflexivity | ]).
    done.
  - intros c. unfold xl, Col.A.
    split; skip_other_cells; rewrite !items_loop_frame by (simpl; lia); reflexivity.
  - unfold width_of, set_width. cbn [column_dimensions]. apply lookup_insert_eq.
Qed.

(** Witness for X5: seven actions, of which the seventh is overwritten. *)
Lemma actions_sheet_has_room_for_six_witness :
  let actions := ["a1"; "a2"; "a3"; "a4"; "a5"; "a6"; "a7"] in
  let ws' := actions_required_with actions (new_sheet "Actions Required") in
  actions !! 6 = Some "a7" /\
  value_at ws' 9 1 = Some (Str "a6") /\
  value_at ws' 10 1 = Some (Str "Company Details Confirmed:").
Proof.
  pose proof (actions_sheet_has_room_for_six ["a1"; "a2"; "a3"; "a4"; "a5"; "a6"; "a7"]
                "Actions Required") as (_ & Hact & Hdet & _).
  split; [reflexivity|]. split.
  - apply (Hact 5 "a6"); [reflexivity | lia].
  - apply (Hdet 0 "Company Details Confirmed:"). reflexivity.
Defined.

(** X4.  The sheet "Summary" of the question-set script, for any list of
    pending items.  The items are written last, in column A from row 10 on,
    beneath the legend and the heading of the rows 1 to 9: every item is on
    the sheet in the row [10 + j], however long the list is, the rows 1 to 9
    do not depend on the list, no row beneath the last item holds a cell,
    and the columns A and B have the width 40. *)
Theorem summary_sheet_lists_every_item (pending_items : list string) (t : string) :
  let ws' := summary_with pending_items (new_sheet t) in
  CyberEssentials.summary (new_sheet t)
  = Ok (summary_with CyberEssentials.pending_items (new_sheet t)) /\
  (forall j item, pending_items !! j = Some item ->
     _get_cell (at_ 10 j) 1 ws' = mkCell (Some (Str item)) None None None None None) /\
  (forall r c, (r < 10)%positive ->
     _get_cell r c ws' = _get_cell r c (summary_with [] (new_sheet t))) /\
  (forall r c, (Pos.to_nat r >= 10 + length pending_items)%nat -> _get_cell r c ws' = new_cell) /\
  value_at ws' 9 1 = Some (Str "Items Requiring Your Input:") /\
  width_of ws' "A" = Some 40%Z /\ width_of ws' "B" = Some 40%Z.
Proof.
  intros ws'. subst ws'. split; [reflexivity|].
  unfold summary_with. rewrite !block_cons, !block_nil.
  split; [|split; [|split; [|split; [|split]]]].
  - intros j item Hj. skip_other_cells.
    rewrite (items_loop_row pending_items 10 _ j item 1 Hj).
    change (xl Col.A (at_ 10 j)) with (at_ 10 j, 1%positive).
    rewrite get_cell_setitem_eq. skip_other_cells. reflexivity.
  - intros r c Hr. skip_other_cells.
    rewrite !items_loop_frame by (simpl; lia). reflexivity.
  - intros r c Hr. skip_other_cells.
    rewrite items_loop_frame by lia. skip_other_cells. reflexivity.
  - unfold value_at. skip_other_cells. rewrite items_loop_frame by lia.
    unfold xl, Col.A. rewrite get_cell_setattr_eq, get_cell_setitem_eq. reflexivity.
  - unfold width_of, set_width. cbn [column_dimensions].
    rewrite lookup_insert_ne by done. apply lookup_insert_eq.
  - unfold width_of, set_width. cbn [column_dimensions]. apply lookup_insert_eq.
Qed.


(** ** Loops that style cells already written *)

Lemma keeps_values_id : keeps_values (fun ws => ws).
Proof. by intros ws r c. Qed.

Lemma keeps_values_assign r c a : keeps_values (assign r c a).
Proof.
  intros ws r' c'. rewrite get_cell_assign. case_decide; [|done].
  simplify_eq. apply value_set_attr.
Qed.

Lemma keeps_values_block (stmts : list (Worksheet -> Worksheet)) :
  Forall keeps_values stmts -> keeps_values (block stmts).
Proof.
  intros Hs. unfold block, Py.for_.
  induction Hs as [|f l Hf _ IH]; intros ws r c; simpl; [done|].
  by rewrite IH, Hf.
Qed.

Lemma keeps_values_for {B : Type} (l : list B) body :
  (forall x, keeps_values (body x)) -> keeps_values (Py.for_ l body).
Proof.
  intros Hb. unfold Py.for_.
  induction l as [|x l IH]; intros ws r c; simpl; [done|].
  by rewrite IH, Hb.
Qed.

Lemma keeps_values_if (b : bool) f g :
  keeps_values f -> keeps_values g -> keeps_values (if b then f else g).
Proof. by destruct b. Qed.

(** Proves that a loop of assignments keeps the values. *)
Ltac keeps_the_values :=
  repeat first
    [ apply keeps_values_id
    | apply keeps_values_assign
    | apply keeps_values_block
    | apply keeps_values_for; intros ?
    | apply keeps_values_if
    | apply Forall_cons; split
    | apply Forall_nil_2 ].

Lemma get_cell_assign_ne r c a ws r' c' :
  (r, c) <> (r', c') -> _get_cell r' c' (assign r c a ws) = _get_cell r' c' ws.
Proof. intros H. rewrite get_cell_assign. by rewrite decide_False. Qed.

Lemma range_1_5 : Py.range 1 5 = [1; 2; 3; 4]%positive.
Proof. reflexivity. Qed.

(** X9.  The loops that style cells written before address them through
    [ws.cell(row, column)] without a value: they change no value on any
    sheet, also where the cell they address did not exist.  This holds for
    the total row of the tool-stack table (v2, v3), the savings breakdown
    (v3) and the rows of the conservative scenario (analysis script).  The
    loop of the total row leaves each of the cells A42 to D42 with the value
    it had, the bold font, the highlight fill and the border, the pound
    format in the columns B and D, and leaves every other cell as it
    was. *)
Theorem style_loops_keep_the_values (ws : Worksheet) :
  Forall keeps_values
    [PricingV2.total_row; PricingV3.total_row; PricingV3.breakdown_style;
     Py.for_ (Py.range 12 17) PricingAnalysis.scenario_row_style] /\
  Forall (fun total_row : Worksheet -> Worksheet =>
    (forall c, (c <= 4)%positive ->
       let c0 := _get_cell 42 c ws in
       _get_cell 42 c (total_row ws)
       = mkCell (value c0)
                (Some (mkFont (Some "Calibri") (Some 10%Z) true None))
                (Some (solid "DCFCE7"))
                (Some (box (mkSide (Some "thin") (Some "D1D5DB"))))
                (alignment c0)
                (if bool_decide (c = 2%positive \/ c = 4%positive)
                 then Some "£#,##0" else number_format c0)) /\
    (forall r c, ~ (r = 42%positive /\ (c <= 4)%positive) ->
       _get_cell r c (total_row ws) = _get_cell r c ws))
    [PricingV2.total_row; PricingV3.total_row].
Proof.
  split.
  - repeat apply Forall_cons_2; [| | | |apply Forall_nil_2].
    + unfold PricingV2.total_row. keeps_the_values.
    + unfold PricingV3.total_row. keeps_the_values.
    + unfold PricingV3.breakdown_style. keeps_the_values.
    + unfold PricingAnalysis.scenario_row_style. keeps_the_values.
  - repeat apply Forall_cons_2; [| |apply Forall_nil_2]; cbv zeta.
    + unfold PricingV2.total_row. rewrite range_1_5, !for_cons, for_nil. cbv beta.
      unfold Val.row_in. cbn [existsb Pos.eqb orb]. rewrite !block_cons, !block_nil.
      split.
      * intros c Hc.
        assert (Hcs : (c = 1 \/ c = 2 \/ c = 3 \/ c = 4)%positive) by lia.
        destruct Hcs as [-> | [-> | [-> | ->]]];
          decide_closed; row_cell_through; cell_fields.
      * intros r c Hrc.
        repeat rewrite get_cell_assign_ne by (intros [=]; lia). reflexivity.
    + unfold PricingV3.total_row. rewrite range_1_5, !for_cons, for_nil. cbv beta.
      unfold Val.row_in. cbn [existsb Pos.eqb orb]. rewrite !block_cons, !block_nil.
      split.
      * intros c Hc.
        assert (Hcs : (c = 1 \/ c = 2 \/ c = 3 \/ c = 4)%positive) by lia.
        destruct Hcs as [-> | [-> | [-> | ->]]];
          decide_closed; row_cell_through; cell_fields.
      * intros r c Hrc.
        repeat rewrite get_cell_assign_ne by (intros [=]; lia). reflexivity.
Qed.

(** ** Charts *)


Lemma range_lookup a b k :
  Py.range a b !! k
  = if bool_decide (k < Pos.to_nat b - Pos.to_nat a) then Some (at_ a k) else None.
Proof.
  unfold Py.range. rewrite list_lookup_fmap. case_bool_decide as Hk.
  - rewrite lookup_seq_lt by done. reflexivity.
  - rewrite lookup_seq_ge by lia. reflexivity.
Qed.

Lemma range_length a b : length (Py.range a b) = Pos.to_nat b - Pos.to_nat a.
Proof. unfold Py.range. by rewrite length_map, length_seq. Qed.

Lemma range_one c : Py.range c (Pos.succ c) = [c].
Proof.
  apply list_eq. intros [|n]; rewrite range_lookup.
  - rewrite bool_decide_eq_true_2 by lia. by rewrite at_0.
  - by rewrite bool_decide_eq_false_2 by lia.
Qed.

Lemma range_cons a b :
  (a < b)%positive -> Py.range a b = a :: Py.range (Pos.succ a) b.
Proof.
  intros Hab. apply list_eq. intros [|n]; simpl; rewrite !range_lookup.
  - rewrite bool_decide_eq_true_2 by lia. by rewrite at_0.
  - rewrite <- at_succ. apply (f_equal (fun b : bool => if b then _ else _)).
    apply bool_decide_ext. lia.
Qed.

(** X17.  [chart.add_data(data, titles_from_data=True)] for a reference of
    at least two rows: the chart keeps its series and gains one per column
    of the reference, in the order of the columns; the series of a column
    takes its title from the first cell of the column and its values from
    the cells beneath, and has no categories yet.  A call of
    [set_categories] gives the categories to every series the chart has at
    that moment: called after [add_data], as in all charts of the scripts,
    it reaches the new series; called before, it would not. *)
Theorem add_data_makes_a_series_per_column (data : Reference) (ch : Chart) :
  (min_row data < max_row data)%positive ->
  let new :=
    map (fun c => mkSeries (Some (mkReference (ref_sheet data) c (min_row data) c (min_row data)))
                           (mkReference (ref_sheet data) c (Pos.succ (min_row data))
                                        c (max_row data))
                           None)
        (Py.range (min_col data) (Pos.succ (max_col data))) in
  ser (add_data data true ch) = (ser ch ++ new)%list /\
  length new = Pos.to_nat (max_col data) + 1 - Pos.to_nat (min_col data) /\
  (forall k s, new !! k = Some s ->
     series_cells s
     = map (fun r => (r, at_ (min_col data) k))
           (Py.range (min_row data) (Pos.succ (max_row data)))) /\
  (forall labels,
     Forall (fun s => ser_cat s = Some labels)
            (ser (set_categories labels (add_data data true ch)))) /\
  (forall labels,
     ser (add_data data true (set_categories labels ch))
     = (ser (set_categories labels ch) ++ new)%list).
Proof.
  intros Hrows new.
  assert (Hser : forall ch0, ser (add_data data true ch0) = (ser ch0 ++ new)%list).
  { assert (Hne : (min_row data =? max_row data)%positive = false)
      by (apply Pos.eqb_neq; lia).
    intros ch0. unfold add_data. simpl. f_equal. unfold cols, new.
    rewrite <- list_fmap_compose. apply list_fmap_ext. intros _ c _. simpl.
    unfold SeriesFactory, pop. simpl. by rewrite Hne. }
  split; [apply Hser|]. split; [|split; [|split]].
  - unfold new. rewrite length_map, range_length. lia.
  - intros k s Hk. unfold new in Hk. rewrite list_lookup_fmap, range_lookup in Hk.
    case_bool_decide; [|done]. injection Hk as <-.
    unfold series_cells, ref_cells. simpl.
    set (c := at_ (min_col data) k).
    rewrite !range_one. simpl. rewrite !app_nil_r.
    rewrite (range_cons (min_row data)) by lia. simpl. f_equal.
  - intros labels. unfold set_categories. simpl.
    apply Forall_fmap. apply Forall_forall. by intros s _.
  - intros labels. apply Hser.
Qed.

(** Witness for X17: the data of the line chart of the growth sheet, the
    columns I to K over the rows 4 to 9. *)
Lemma add_data_makes_a_series_per_column_witness :
  let data3 := Reference_ (new_sheet "Growth Projections") 9 4
                 (Some 11%positive) (Some 9%positive) in
  length (ser (add_data data3 true (new_chart LineChart))) = 3 /\
  ser (add_data data3 true (new_chart LineChart)) !! 1
  = Some (mkSeries (Some (mkReference "Growth Projections" 10 4 10 4))
                   (mkReference "Growth Projections" 10 5 10 9) None).
Proof.
  pose proof (add_data_makes_a_series_per_column
                (Reference_ (new_sheet "Growth Projections") 9 4
                   (Some 11%positive) (Some 9%positive))
                (new_chart LineChart) ltac:(simpl; lia)) as (Hser & Hlen & _).
  split.
  - rewrite Hser. simpl. reflexivity.
  - rewrite Hser. reflexivity.
Defined.

(** X18.  The charts of the workbooks as built.  The v2 workbook has four
    charts and the v3 workbook six (the other three workbooks have none),
    with one series each but the line charts, which have three and two.
    Every series of them is aligned with the table it is drawn from: its
    values and its categories are single columns of the sheet the chart is
    on and span the same rows, its title, where it has one, is the cell
    right above its values, and every cell it reads holds a value on the
    sheet as built. *)
Theorem charts_read_the_written_cells (env : Env) :
  (chart_series (PricingV2.build env) = [[]; [1; 1]; []; [3]; [1]; []] /\
   charts_aligned (PricingV2.build env) = true) /\
  (chart_series (PricingV3.build env) = [[1]; [1; 1]; [2]; [3]; [1]; []] /\
   charts_aligned (PricingV3.build env) = true) /\
  (chart_series (CyberEssentials.build env) = [[]; []] /\
   chart_series (Mema.build env) = [[]; []] /\
   chart_series (PricingAnalysis.build env) = [[]; []; []; []; []; []]).
Proof.
  split; [|split].
  - split; vm_compute; reflexivity.
  - split; vm_compute; reflexivity.
  - split; [|split]; vm_compute; reflexivity.
Qed.

(** ** Sheets of a workbook, one by one *)

Lemma lookup_app_length {A : Type} (l : list A) x : (l ++ [x])%list !! length l = Some x.
Proof. rewrite lookup_app_r by lia. by rewrite Nat.sub_diag. Qed.

Lemma insert_app_length {A : Type} (l : list A) x y :
  <[length l := y]> (l ++ [x])%list = (l ++ [y])%list.
Proof.
  rewrite insert_app_r_alt by lia. by rewrite Nat.sub_diag.
Qed.

(** X19.  A sheet is created and then written: [ws = wb.create_sheet(t)]
    followed by statements on [ws].  The handle the call returns is the
    position of the new sheet, so that the statements run on the new, empty
    sheet and on no other: the sheets the workbook had are as before and in
    the same order, the active sheet is the same, and the new last sheet is
    what the statements make of an empty sheet; an exception of the
    statements is the exception of the whole.  A title with one of the
    characters the library rejects makes [create_sheet] itself raise. *)
Theorem created_sheet_is_the_one_written (wb : Workbook) (t : string)
  (body : Worksheet -> Result Worksheet) :
  (has_invalid_char t = false ->
   exists t',
     create_sheet t wb
     = Ok (mkWorkbook (_sheets wb ++ [new_sheet t'])%list (_active_sheet_index wb),
           length (_sheets wb)) /\
     (('(wb1, ws) ← create_sheet t wb; on_sheet ws body wb1)
      = (ws' ← body (new_sheet t');
         Ok (mkWorkbook (_sheets wb ++ [ws'])%list (_active_sheet_index wb))))) /\
  (has_invalid_char t = true ->
   exists msg, create_sheet t wb = Raise (ValueError msg)).
Proof.
  split.
  - intros Hvalid.
    assert (Hc : exists t', create_sheet t wb
                 = Ok (mkWorkbook (_sheets wb ++ [new_sheet t'])%list (_active_sheet_index wb),
                       length (_sheets wb))).
    { unfold create_sheet, check_title. destruct (Py.truthy t) eqn:Et.
      - rewrite Et, Hvalid. simpl.
        by exists (avoid_duplicate_name (sheetnames wb) t).
      - simpl. by exists (avoid_duplicate_name (sheetnames wb) "Sheet"). }
    destruct Hc as [t' Hc]. exists t'. split; [exact Hc|].
    rewrite Hc. simpl. unfold on_sheet. simpl.
    rewrite lookup_app_length. destruct (body (new_sheet t')); simpl; [|done].
    by rewrite insert_app_length.
  - intros Hinv. unfold create_sheet, check_title.
    assert (Ht : Py.truthy t = true).
    { destruct t; [done|reflexivity]. }
    rewrite Ht. cbv iota. rewrite Ht, Hinv. simpl. eexists. reflexivity.
Qed.

(** Witness for X19: the second sheet of the question-set workbook, and a
    title with a slash. *)
Lemma created_sheet_is_the_one_written_witness :
  (exists t',
     create_sheet "Summary" (mkWorkbook [new_sheet "CE Question Set"] 0)
     = Ok (mkWorkbook ([new_sheet "CE Question Set"] ++ [new_sheet t'])%list 0, 1)) /\
  (exists msg, create_sheet "A/B" Workbook_ = Raise (ValueError msg)).
Proof.
  pose proof (created_sheet_is_the_one_written
                (mkWorkbook [new_sheet "CE Question Set"] 0) "Summary"
                CyberEssentials.summary) as [Hok _].
  pose proof (created_sheet_is_the_one_written Workbook_ "A/B" CyberEssentials.summary)
    as [_ Hbad].
  split.
  - destruct (Hok eq_refl) as (t' & Hc & _). by exists t'.
  - exact (Hbad eq_refl).
Defined.
